(** * analista.py: the per-company report pipeline, embedded in Rocq

    Text is modelled as [string], the UTF-8 bytes of the Python [str].
    Every pattern the script searches for or replaces is ASCII, and UTF-8 is
    self-synchronising, so substring tests, single-character replacement and
    splitting at line feeds agree byte-wise and code-point-wise. *)

From Stdlib Require Import Ascii String List Bool Arith Lia.
From Stdlib Require DecimalString.
From stdpp Require Import gmap strings.

(** ** Text helpers: the [str] operations the script uses *)

Module Text.

Definition LF : ascii := "010"%char.
Definition CR : ascii := "013"%char.
Definition TAB : ascii := "009"%char.
Definition SPACE : ascii := " "%char.
Definition DQUOTE : ascii := "034"%char.

(** One line feed, the [\n] of the source's literals. *)
Definition nl : string := String LF EmptyString.

(** [needle in hay]. *)
Fixpoint contains (needle hay : string) : bool :=
  String.prefix needle hay ||
  match hay with
  | EmptyString => false
  | String _ rest => contains needle rest
  end.

(** [s.replace(c, by)] for a one-character pattern [c]. *)
Fixpoint replace (c : ascii) (by_ : string) (s : string) : string :=
  match s with
  | EmptyString => EmptyString
  | String a rest =>
      if Ascii.eqb a c then by_ +:+ replace c by_ rest
      else String a (replace c by_ rest)
  end.

(** [sep.join(items)]. *)
Definition join (sep : string) (items : list string) : string :=
  String.concat sep items.

(** [s.split("\n")]: the lines of [s], never an empty list. *)
Fixpoint split_lines (s : string) : list string :=
  match s with
  | EmptyString => [EmptyString]
  | String a rest =>
      if Ascii.eqb a LF then EmptyString :: split_lines rest
      else match split_lines rest with
           | [] => [String a EmptyString]
           | l :: ls => String a l :: ls
           end
  end.

Definition is_blank_char (a : ascii) : bool := Ascii.eqb a SPACE || Ascii.eqb a TAB.

(** Every character of [s] is a space or a tab (true of the empty string). *)
Fixpoint all_blank (s : string) : bool :=
  match s with
  | EmptyString => true
  | String a rest => is_blank_char a && all_blank rest
  end.

(** A line the pattern [^[ \t]+$] matches. *)
Definition whitespace_only (line : string) : bool :=
  match line with
  | EmptyString => false
  | _ => all_blank line
  end.

(** The leading run of spaces and tabs of a line. *)
Fixpoint leading_blanks (line : string) : string :=
  match line with
  | String a rest => if is_blank_char a then String a (leading_blanks rest) else EmptyString
  | EmptyString => EmptyString
  end.

(** No line of [s] is made of spaces and tabs only: [dedent] keeps such
    text as it is. *)
Definition no_blank_line (s : string) : bool :=
  forallb (fun l => negb (whitespace_only l)) (split_lines s).

(** No line feed in [s]. *)
Fixpoint inline (s : string) : bool :=
  match s with
  | EmptyString => true
  | String a rest => negb (Ascii.eqb a LF) && inline rest
  end.

(** The lines of [a +:+ b]: the last line of [a] runs on into the first
    line of [b]. *)
Fixpoint glue (xs ys : list string) : list string :=
  match xs with
  | [] => ys
  | [l] => match ys with [] => [l] | y :: ys' => (l +:+ y) :: ys' end
  | l :: xs' => l :: glue xs' ys
  end.

(** A byte that starts a code point (not of the form 10xxxxxx). *)
Definition starts_code_point (a : ascii) : bool :=
  match a with Ascii _ _ _ _ _ _ b6 b7 => negb (b7 && negb b6) end.

(** [len(s)], the number of code points. *)
Fixpoint code_points (s : string) : N :=
  match s with
  | EmptyString => 0%N
  | String a rest => if starts_code_point a then (1 + code_points rest)%N else code_points rest
  end.

(** [s[:n]], the first [n] code points. *)
Fixpoint take_code_points (n : nat) (s : string) : string :=
  match s with
  | EmptyString => EmptyString
  | String a rest =>
      if starts_code_point a then
        match n with
        | O => EmptyString
        | S n' => String a (take_code_points n' rest)
        end
      else String a (take_code_points n rest)
  end.

(** [str(n)] for a natural number. *)
Definition str_of_nat (n : nat) : string :=
  DecimalString.NilZero.string_of_uint (Nat.to_uint n).

End Text.

(** ** textwrap.dedent

    The algorithm of CPython's [textwrap.dedent] up to 3.13: blank out the
    lines made of spaces and tabs only, take the longest common leading
    run of blanks of the remaining non-empty lines as the margin, and strip
    it from the start of every line. *)

Module Textwrap.
Import Text.

(** [_whitespace_only_re.sub('', text)], line by line. *)
Definition blank_line (line : string) : string :=
  if whitespace_only line then EmptyString else line.

(** [_leading_whitespace_re.findall(text)]: one indent for each line that
    holds a character other than space and tab. *)
Definition indents (lines : list string) : list string :=
  map leading_blanks (List.filter (fun l => negb (all_blank l)) lines).

(** The first position where [margin] and [indent] differ cuts the margin. *)
Fixpoint common_prefix (margin indent : string) : string :=
  match margin, indent with
  | String x m, String y i => if Ascii.eqb x y then String x (common_prefix m i) else EmptyString
  | _, _ => EmptyString
  end.

(** One round of the margin loop. *)
Definition margin_step (margin : option string) (indent : string) : option string :=
  match margin with
  | None => Some indent
  | Some m =>
      if String.prefix m indent then Some m
      else if String.prefix indent m then Some indent
      else Some (common_prefix m indent)
  end.

Definition find_margin (lines : list string) : option string :=
  fold_left margin_step (indents lines) None.

(** [re.sub(r'(?m)^' + margin, '', text)] on one line. *)
Fixpoint strip_margin (margin line : string) : string :=
  match margin, line with
  | EmptyString, _ => line
  | String x m, String y l => if Ascii.eqb x y then strip_margin m l else line
  | String _ _, EmptyString => line
  end.

Definition strip_margin_line (margin line : string) : string :=
  if String.prefix margin line then strip_margin margin line else line.

Definition dedent (text : string) : string :=
  let lines := map blank_line (split_lines text) in
  match find_margin lines with
  | Some (String a m) => join nl (map (strip_margin_line (String a m)) lines)
  | _ => join nl lines
  end.

End Textwrap.

(** ** 2. The document-fact stub (consult_document_rag) *)

Import Text.

Definition NO_DATA : string :=
  "Nenhum URL de relatório financeiro válido foi fornecido. Dados fundamentalistas indisponíveis.".

Definition NFLX_TEXT : string :=
  nl +:+
  "        Análise RAG do 10-K (2023): A Receita totalizou $33.7 bilhões, um aumento de 6.7% A/A." +:+ nl +:+
  "        O Lucro Líquido foi de $5.4 bilhões. O Fluxo de Caixa Livre (FCF) foi robusto em $6.9 bilhões," +:+ nl +:+
  "        indicando forte geração de caixa e saúde financeira." +:+ nl +:+
  "        ".

Definition TSLA_TEXT : string :=
  nl +:+
  "        Análise RAG do 10-K (2023): A Receita atingiu $96.8 bilhões. Lucro Líquido: $15.0 bilhões." +:+ nl +:+
  "        O FCF foi de $4.4 bilhões. O relatório destaca margens de lucro sob pressão devido a cortes de preços." +:+ nl +:+
  "        ".

Definition GENERIC_TEXT : string :=
  nl +:+
  "        Análise RAG (Simulada): Receita de $150 bilhões no último ano. Lucro líquido de $40 bilhões. " +:+ nl +:+
  "        A empresa reportou forte recompra de ações e foca em serviços para crescimento futuro." +:+ nl +:+
  "        ".

(** The line the tool prints when it is invoked. *)
Definition consult_document_rag_banner (report_url : string) : string :=
  nl +:+ "[RAG TOOL INVOCADA] -> Analisando URL: " +:+ take_code_points 50 report_url +:+ "...".

(** The value the tool returns. *)
Definition consult_document_rag (report_url : string) : string :=
  if (match report_url with EmptyString => true | _ => false end)
     || contains "N/A" report_url || contains "Sem URL" report_url
  then NO_DATA
  else if contains "NFLX" report_url then Textwrap.dedent NFLX_TEXT
  else if contains "TSLA" report_url then Textwrap.dedent TSLA_TEXT
  else Textwrap.dedent GENERIC_TEXT.


(** ** 1. The report record (AnaliseAcionaria) *)

Record AnaliseAcionaria : Type := {
  data_relatorio : string;
  empresa : string;
  valor_atual_acao : string;
  sumario_executivo : string;
  noticias_relevantes : list string;
  analise_financeira_resumida : string;
  sentimento_geral : string;
  recomendacao_simplificada : string
}.

(** ** Exceptions

    Every exception the model raises is an instance of [Exception]; [str(e)]
    is [exn_text]. *)

Inductive exn_class : Type :=
  | FileNotFoundError
  | PermissionError
  | OSError
  | UnicodeError
  | CsvError
  | KeyError
  | ValueError
  | OtherException (name : string).

Record exn : Type := Exn { exn_type : exn_class; exn_text : string }.

Definition is_FileNotFoundError (e : exn) : bool :=
  match exn_type e with FileNotFoundError => true | _ => false end.

(** ** Rows of the company table

    A row is a Python [dict]: the values under string keys are [str] or
    [None] (csv.DictReader's [restval]); the list csv.DictReader stores
    under the key [None] ([restkey]) is [extra]. *)

Record csv_row : Type := CsvRow {
  named : gmap string (option string);
  extra : option (list string)
}.

(** A dict literal whose keys and values are strings. *)
Definition dict_of (items : list (string * string)) : csv_row :=
  CsvRow (fold_left (fun d kv => <[kv.1 := Some kv.2]> d) items ∅) None.

(** [str(v)] of a value stored under a string key. *)
Definition str_of_value (v : option string) : string :=
  match v with Some s => s | None => "None" end.

(** ** The csv module: reader, DictReader, writer, DictWriter *)

Module Csv.

Definition is_newline (a : ascii) : bool := Ascii.eqb a LF || Ascii.eqb a CR.

Definition field_limit : N := 131072.

Inductive state : Type :=
  | START_RECORD | START_FIELD | IN_FIELD | IN_QUOTED_FIELD
  | QUOTE_IN_QUOTED_FIELD | EAT_CRNL.

Record parser : Type := Parser {
  st : state;
  field : string;        (* the field being read *)
  field_len : N;         (* its length in code points *)
  fields : list string   (* the fields of the record read so far *)
}.

Definition parse_reset : parser := Parser START_RECORD EmptyString 0 [].

Definition set_state (s : state) (p : parser) : parser :=
  Parser s (field p) (field_len p) (fields p).

Definition parse_save_field (p : parser) : parser :=
  Parser (st p) EmptyString 0 (fields p ++ [field p]).

Definition parse_add_char (a : ascii) (p : parser) : exn + parser :=
  if starts_code_point a then
    if (field_limit <=? field_len p)%N
    then inl (Exn CsvError "field larger than field limit (131072)")
    else inr (Parser (st p) (field p +:+ String a EmptyString) (field_len p + 1)%N (fields p))
  else inr (Parser (st p) (field p +:+ String a EmptyString) (field_len p) (fields p)).

Definition then_state (s : state) (r : exn + parser) : exn + parser :=
  match r with inl e => inl e | inr p => inr (set_state s p) end.

(** The START_FIELD case (START_RECORD falls through to it). *)
Definition start_field (c : option ascii) (p : parser) : exn + parser :=
  match c with
  | None => inr (set_state START_RECORD (parse_save_field p))
  | Some a =>
      if is_newline a then inr (set_state EAT_CRNL (parse_save_field p))
      else if Ascii.eqb a DQUOTE then inr (set_state IN_QUOTED_FIELD p)
      else if Ascii.eqb a "," then inr (set_state START_FIELD (parse_save_field p))
      else then_state IN_FIELD (parse_add_char a p)
  end.

(** [parse_process_char] for the excel dialect; [None] is the end of a line. *)
Definition parse_process_char (c : option ascii) (p : parser) : exn + parser :=
  match st p with
  | START_RECORD =>
      match c with
      | None => inr p
      | Some a => if is_newline a then inr (set_state EAT_CRNL p) else start_field c p
      end
  | START_FIELD => start_field c p
  | IN_FIELD =>
      match c with
      | None => inr (set_state START_RECORD (parse_save_field p))
      | Some a =>
          if is_newline a then inr (set_state EAT_CRNL (parse_save_field p))
          else if Ascii.eqb a "," then inr (set_state START_FIELD (parse_save_field p))
          else parse_add_char a p
      end
  | IN_QUOTED_FIELD =>
      match c with
      | None => inr p
      | Some a =>
          if Ascii.eqb a DQUOTE then inr (set_state QUOTE_IN_QUOTED_FIELD p)
          else parse_add_char a p
      end
  | QUOTE_IN_QUOTED_FIELD =>
      match c with
      | None => inr (set_state START_RECORD (parse_save_field p))
      | Some a =>
          if Ascii.eqb a DQUOTE then then_state IN_QUOTED_FIELD (parse_add_char a p)
          else if Ascii.eqb a "," then inr (set_state START_FIELD (parse_save_field p))
          else if is_newline a then inr (set_state EAT_CRNL (parse_save_field p))
          else then_state IN_FIELD (parse_add_char a p)
      end
  | EAT_CRNL =>
      match c with
      | None => inr (set_state START_RECORD p)
      | Some a =>
          if is_newline a then inr p
          else inl (Exn CsvError "new-line character seen in unquoted field - do you need to open the file with newline=''?")
      end
  end.

(** One line of the input, then the end-of-line mark. *)
Fixpoint parse_line (line : string) (p : parser) : exn + parser :=
  match line with
  | EmptyString => parse_process_char None p
  | String a rest =>
      match parse_process_char (Some a) p with
      | inl e => inl e
      | inr p' => parse_line rest p'
      end
  end.

(** The characters of a piece of a line, without the end-of-line mark. *)
Fixpoint feed (s : string) (p : parser) : exn + parser :=
  match s with
  | EmptyString => inr p
  | String a rest =>
      match parse_process_char (Some a) p with
      | inl e => inl e
      | inr p' => feed rest p'
      end
  end.

Definition at_record_start (p : parser) : bool :=
  match st p with START_RECORD => true | _ => false end.

Definition in_quoted_field (p : parser) : bool :=
  match st p with IN_QUOTED_FIELD => true | _ => false end.

(** All the rows [csv.reader] yields over the lines of a file: a record ends
    when a line leaves the parser at START_RECORD; input that ends inside a
    field closes that field. *)
Fixpoint reader_from (p : parser) (lines : list string) : exn + list (list string) :=
  match lines with
  | [] =>
      if negb (field_len p =? 0)%N || in_quoted_field p
      then inr [fields (parse_save_field p)]
      else inr []
  | line :: rest =>
      match parse_line line p with
      | inl e => inl e
      | inr p' =>
          if at_record_start p' then
            match reader_from parse_reset rest with
            | inl e => inl e
            | inr rows => inr (fields p' :: rows)
            end
          else reader_from p' rest
      end
  end.

Definition reader (lines : list string) : exn + list (list string) :=
  reader_from parse_reset lines.

(** The lines a text file opened with [newline=None] yields: each of the
    terminators CR LF, CR and LF ends a line and is read as one line feed. *)
Fixpoint text_lines (after_cr : bool) (cur : string) (s : string) : list string :=
  match s with
  | EmptyString => match cur with EmptyString => [] | _ => [cur] end
  | String a rest =>
      if Ascii.eqb a LF then
        if after_cr then text_lines false cur rest
        else (cur +:+ nl) :: text_lines false EmptyString rest
      else if Ascii.eqb a CR then (cur +:+ nl) :: text_lines true EmptyString rest
      else text_lines false (cur +:+ String a EmptyString) rest
  end.

Definition file_lines (content : string) : list string :=
  text_lines false EmptyString content.

(** [dict(zip(fieldnames, row))] and the handling of short and long rows. *)
Fixpoint zip_dict (fieldnames row : list string) (d : gmap string (option string))
  : gmap string (option string) :=
  match fieldnames, row with
  | k :: ks, v :: vs => zip_dict ks vs (<[k := Some v]> d)
  | _, _ => d
  end.

Definition row_dict (fieldnames row : list string) : csv_row :=
  let d := zip_dict fieldnames row ∅ in
  let lf := List.length fieldnames in
  let lr := List.length row in
  if Nat.ltb lf lr then CsvRow d (Some (drop lf row))
  else if Nat.ltb lr lf then CsvRow (fold_left (fun d k => <[k := None]> d) (drop lr fieldnames) d) None
  else CsvRow d None.

Definition is_blank_row (row : list string) : bool :=
  match row with [] => true | _ => false end.

(** Every dict a [DictReader] yields: the first row names the fields and
    blank rows after it are skipped. *)
Definition DictReader (rows : list (list string)) : list csv_row :=
  match rows with
  | [] => []
  | fieldnames :: data => map (row_dict fieldnames) (List.filter (fun r => negb (is_blank_row r)) data)
  end.

(** QUOTE_MINIMAL: a field is quoted when it holds a delimiter, a quote or
    a line break, and its quotes are doubled. *)
Fixpoint needs_quotes (s : string) : bool :=
  match s with
  | EmptyString => false
  | String a rest =>
      Ascii.eqb a "," || Ascii.eqb a DQUOTE || is_newline a || needs_quotes rest
  end.

Definition quoted (s : string) : string :=
  String DQUOTE (replace DQUOTE (String DQUOTE (String DQUOTE EmptyString)) s
                 +:+ String DQUOTE EmptyString).

Definition write_field (s : string) : string :=
  if needs_quotes s then quoted s else s.

(** The text [writer.writerow(fields)] writes, line terminator CR LF. *)
Definition writer_row (row : list string) : string :=
  match row with
  | [EmptyString] => quoted EmptyString
  | _ => join "," (map write_field row)
  end +:+ String CR nl.

(** [DictWriter._dict_to_list]: keys outside [fieldnames] are refused, a
    missing key or a [None] is written as the empty string. *)
Definition dict_to_list (fieldnames : list string) (d : csv_row) : exn + list string :=
  if forallb (fun k => existsb (String.eqb k) fieldnames) (map fst (map_to_list (named d)))
     && (match extra d with None => true | Some _ => false end)
  then inr (map (fun k => match named d !! k with
                          | Some (Some v) => v
                          | _ => EmptyString
                          end) fieldnames)
  else inl (Exn ValueError "dict contains fields not in fieldnames").

(** Neither CR nor LF in [s]. *)
Fixpoint no_newline (s : string) : bool :=
  match s with
  | EmptyString => true
  | String a rest => negb (is_newline a) && no_newline rest
  end.

(** A field that is written without quotes and is within the field limit. *)
Definition plain_field (f : string) : bool :=
  negb (needs_quotes f) && (code_points f <=? field_limit)%N.

(** A row of plain fields that is not written as an empty line. *)
Definition plain_row (row : list string) : bool :=
  forallb plain_field row
  && match row with
     | [] | [EmptyString] => false
     | _ => true
     end.

(** The text of a table of plain rows: the fields of a row joined by
    commas, each row ended by [eol]. *)
Definition table_text (eol : string) (rows : list (list string)) : string :=
  fold_right (fun row rest => join "," row +:+ eol +:+ rest) EmptyString rows.

Definition header_dict (fieldnames : list string) : csv_row :=
  dict_of (map (fun k => (k, k)) fieldnames).

(** A field that holds no line break and is within the field limit. *)
Definition fits (f : string) : bool := no_newline f && (code_points f <=? field_limit)%N.

(** The text of one row, before the line terminator. *)
Definition row_text (row : list string) : string :=
  match row with
  | [EmptyString] => quoted EmptyString
  | _ => join "," (map write_field row)
  end.

(** The text that [writer.writerow] writes, row after row. *)
Definition writer_rows (rows : list (list string)) : string :=
  fold_right (fun row rest => writer_row row +:+ rest) EmptyString rows.

End Csv.

(** ** Dates: [date.today()] and its [str] *)

Record date : Type := Date { year : nat; month : nat; day : nat }.

(** [str(n).zfill(width)]. *)
Definition zfill (width : nat) (s : string) : string :=
  String.concat EmptyString (repeat "0" (width - String.length s)) +:+ s.

(** [str(d)], the ISO form YYYY-MM-DD. *)
Definition isoformat (d : date) : string :=
  zfill 4 (str_of_nat (year d)) +:+ "-" +:+ zfill 2 (str_of_nat (month d))
  +:+ "-" +:+ zfill 2 (str_of_nat (day d)).

(** ** The outside world

    [E] is the state of everything the script does not control: the remote
    reasoning and generation services, the clock and the operating system.
    Each call hands the state on, so one service may answer differently
    from one call to the next. *)

Record Services (E : Type) : Type := {
  (** [agent_executor_researcher.invoke({"input": q})['output']]. *)
  research : string -> E -> (exn + string) * E;
  (** [relator_chain.invoke({"empresa": .., "fatos_consolidados": ..})]. *)
  relator : string -> string -> E -> (exn + AnaliseAcionaria) * E;
  (** [date.today()]. *)
  today : E -> date;
  (** What [time.sleep(n)] lets happen outside. *)
  asleep : nat -> E -> E;
  (** An error [open(path, 'r')] or the reading that follows raises, other
      than the one for a path that names no file. *)
  read_fault : string -> E -> option exn * E;
  (** An error [open(path, 'w')] raises. *)
  open_fault : string -> E -> option exn * E;
  (** An error writing [data] to [path] raises, with the number of bytes
      that reached the file before it. *)
  write_fault : string -> string -> E -> option (exn * nat) * E
}.

Arguments research {E}.
Arguments relator {E}.
Arguments today {E}.
Arguments asleep {E}.
Arguments read_fault {E}.
Arguments open_fault {E}.
Arguments write_fault {E}.

(** What the script owns or observes: the files, the lines it printed, the
    seconds it slept, its variable [fatos_consolidados], and the outside. *)
Record World (E : Type) : Type := mkWorld {
  fs : gmap string string;
  stdout : list string;
  slept : nat;
  fatos_consolidados : option string;
  ext : E
}.

Arguments mkWorld {E}.
Arguments fs {E}.
Arguments stdout {E}.
Arguments slept {E}.
Arguments fatos_consolidados {E}.
Arguments ext {E}.

(** ** A state-and-exception monad for the script's statements *)

Definition M (E A : Type) : Type := World E -> (exn + A) * World E.

Definition ret {E A} (a : A) : M E A := fun w => (inr a, w).

Definition raise {E A} (e : exn) : M E A := fun w => (inl e, w).

Definition bind {E A B} (m : M E A) (k : A -> M E B) : M E B :=
  fun w => match m w with
           | (inl e, w') => (inl e, w')
           | (inr a, w') => k a w'
           end.

Notation "x <- c1 ;; c2" := (bind c1 (fun x => c2))
  (at level 100, c1 at next level, right associativity).
Notation "c1 ;; c2" := (bind c1 (fun _ => c2))
  (at level 100, right associativity).

(** [try: body except <handles>: handler]. *)
Definition try_except {E A} (body : M E A) (handles : exn -> bool) (handler : exn -> M E A)
  : M E A :=
  fun w => match body w with
           | (inl e, w') => if handles e then handler e w' else (inl e, w')
           | r => r
           end.

Definition lift {E A} (r : exn + A) : M E A :=
  match r with inl e => raise e | inr a => ret a end.

(** [for x in xs: body x]. *)
Fixpoint for_each {E A} (body : A -> M E unit) (xs : list A) : M E unit :=
  match xs with
  | [] => ret tt
  | x :: rest => body x ;; for_each body rest
  end.

Section Script.

Context {E : Type} (sv : Services E).

(** [str.upper], full Unicode case mapping, taken as given. *)
Variable upper : string -> string.

(** *** Statements that touch the outside *)

Definition print (line : string) : M E unit :=
  fun w => (inr tt, mkWorld (fs w) (stdout w ++ [line]) (slept w) (fatos_consolidados w) (ext w)).

Definition sleep (seconds : nat) : M E unit :=
  fun w => (inr tt, mkWorld (fs w) (stdout w) (slept w + seconds) (fatos_consolidados w)
                            (asleep sv seconds (ext w))).

Definition set_fatos_consolidados (v : string) : M E unit :=
  fun w => (inr tt, mkWorld (fs w) (stdout w) (slept w) (Some v) (ext w)).

Definition set_ext (x : E) (w : World E) : World E :=
  mkWorld (fs w) (stdout w) (slept w) (fatos_consolidados w) x.

Definition set_file (path data : string) (w : World E) : World E :=
  mkWorld (<[path := data]> (fs w)) (stdout w) (slept w) (fatos_consolidados w) (ext w).

(** Ask a service and hand its state on. *)
Definition call {A} (service : E -> (exn + A) * E) : M E A :=
  fun w => let (r, x) := service (ext w) in (r, set_ext x w).

(** [open(path, 'r')] and the reading of the whole file. *)
Definition read_text (path : string) : M E string :=
  fun w =>
    match read_fault sv path (ext w) with
    | (Some e, x) => (inl e, set_ext x w)
    | (None, x) =>
        match fs w !! path with
        | None =>
            (inl (Exn FileNotFoundError
                    ("[Errno 2] No such file or directory: '" +:+ path +:+ "'")),
             set_ext x w)
        | Some content => (inr content, set_ext x w)
        end
    end.

(** [open(path, 'w')]: the file is created, or emptied when it exists.
    The file map is keyed by the path string as the script hands it over.
    The operating system resolves that string to a file, and two strings
    can resolve to one file ([Relatorio_x/../notas_T.md] and [notas_T.md]):
    what is stated below of the files under other names is stated of names
    without a path separator, which are the entries of the current
    directory ([plain_name]). *)
Definition open_w (path : string) : M E unit :=
  fun w =>
    match open_fault sv path (ext w) with
    | (Some e, x) => (inl e, set_ext x w)
    | (None, x) => (inr tt, set_file path EmptyString (set_ext x w))
    end.

(** [f.write(data)] on the file opened at [path]: the data goes after what
    the file holds (as it is, the line separator of the platform being the
    line feed).  A fault of the device is attached to the call here.
    CPython keeps the text in a buffer and meets the fault when the buffer
    is emptied, at the latest when the [with] block closes the file; the
    file then holds the head of all that was written up to that point,
    which is what a fault at one of the calls leaves here.  So the
    statements below speak of the step that holds the block raising, and of
    the head of the text that the file keeps, not of one call. *)
Definition write (path data : string) : M E unit :=
  fun w =>
    let old := default EmptyString (fs w !! path) in
    match write_fault sv path data (ext w) with
    | (Some (e, n), x) => (inl e, set_file path (old +:+ String.substring 0 n data) (set_ext x w))
    | (None, x) => (inr tt, set_file path (old +:+ data) (set_ext x w))
    end.

(** *** 3. Reading the company list (ler_lista_empresas_csv) *)

Definition exemplo_data : list csv_row :=
  [ dict_of [("Empresa", "Netflix"); ("Ticker", "NFLX"); ("Relatorio_URL", "N/A - Sem URL")];
    dict_of [("Empresa", "Tesla"); ("Ticker", "TSLA"); ("Relatorio_URL", "N/A - Sem URL")] ].

Definition fieldnames : list string := ["Empresa"; "Ticker"; "Relatorio_URL"].

(** [DictWriter.writerow(row)] on the file opened at [path]. *)
Definition DictWriter_writerow (path : string) (row : csv_row) : M E unit :=
  fields <- lift (Csv.dict_to_list fieldnames row) ;;
  write path (Csv.writer_row fields).

Definition ler_lista_empresas_csv (caminho_arquivo : string) : M E (list csv_row) :=
  try_except
    (content <- read_text caminho_arquivo ;;
     rows <- lift (Csv.reader (Csv.file_lines content)) ;;
     let dados := Csv.DictReader rows in
     print ("✅ Lista de empresas e URLs carregada (" +:+ str_of_nat (List.length dados)
            +:+ " itens).") ;;
     ret dados)
    is_FileNotFoundError
    (fun _ =>
       print ("❌ ERRO: Arquivo '" +:+ caminho_arquivo +:+ "' não encontrado. Criando um exemplo.") ;;
       open_w caminho_arquivo ;;
       DictWriter_writerow caminho_arquivo (Csv.header_dict fieldnames) ;;
       for_each (DictWriter_writerow caminho_arquivo) exemplo_data ;;
       ret exemplo_data).

(** *** 7. The driver loop *)

Definition DELAY_SECONDS : nat := 7.

(** [d[key]]. *)
Definition getitem (d : csv_row) (key : string) : M E (option string) :=
  match named d !! key with
  | Some v => ret v
  | None => raise (Exn KeyError ("'" +:+ key +:+ "'"))
  end.

Definition pergunta_pesquisa (empresa_nome_completo relatorio_url : string) : string :=
  nl +:+
  "    Para a empresa " +:+ empresa_nome_completo +:+ ", gere uma análise consolidada." +:+ nl +:+
  "    1. Use a ferramenta 'tavily_search' para encontrar o VALOR ATUAL da ação e as três notícias mais recentes." +:+ nl +:+
  "    2. Use a ferramenta 'consult_document_rag' com o input '" +:+ relatorio_url +:+ "' para extrair o resumo financeiro dos documentos." +:+ nl +:+
  "    3. Consolide TODAS as informações (valor da ação, notícias da web e fatos do documento) para a resposta final." +:+ nl +:+
  "    ".

Definition file_name_clean (empresa_nome_completo : string) : string :=
  replace ")" EmptyString (replace "(" EmptyString (replace " " "_" empresa_nome_completo)).

Definition report_file_name (empresa_nome_completo : string) : string :=
  "Relatorio_" +:+ file_name_clean empresa_nome_completo +:+ ".md".

(** The f-string of the report, before [dedent]. *)
Definition report_template (hoje : date) (relatorio_objeto : AnaliseAcionaria) : string :=
  nl +:+
  "# 📄 Relatório de Análise Acionária: " +:+ empresa relatorio_objeto +:+ nl +:+
  "**Data da Análise:** " +:+ isoformat hoje +:+ nl +:+
  nl +:+
  "---" +:+ nl +:+
  nl +:+
  "## I. Sumário Executivo" +:+ nl +:+
  sumario_executivo relatorio_objeto +:+ nl +:+
  nl +:+
  "| Indicador | Detalhe |" +:+ nl +:+
  "| :--- | :--- |" +:+ nl +:+
  "| **Valor Atual da Ação** | **" +:+ valor_atual_acao relatorio_objeto +:+ "** |" +:+ nl +:+
  "| **Recomendação** | **" +:+ upper (recomendacao_simplificada relatorio_objeto) +:+ "** |" +:+ nl +:+
  "| **Sentimento Geral** | " +:+ sentimento_geral relatorio_objeto +:+ " |" +:+ nl +:+
  nl +:+
  "---" +:+ nl +:+
  nl +:+
  "## II. Contexto e Notícias Relevantes" +:+ nl +:+
  "### Destaques das Últimas Notícias" +:+ nl +:+
  "* " +:+ join (nl +:+ "* ") (noticias_relevantes relatorio_objeto) +:+ nl +:+
  nl +:+
  "---" +:+ nl +:+
  nl +:+
  "## III. Análise Fundamentalista (Resumo de Documentos Oficiais - RAG)" +:+ nl +:+
  analise_financeira_resumida relatorio_objeto +:+ nl +:+
  nl +:+
  "---" +:+ nl +:+
  nl +:+
  "**Nota:** A análise fundamentalista foi extraída da URL fornecida e processada pela ferramenta RAG (atualmente em modo simulação)." +:+ nl.

Definition final_report_markdown (hoje : date) (relatorio_objeto : AnaliseAcionaria) : string :=
  Textwrap.dedent (report_template hoje relatorio_objeto).

(** 7.3: compile the report, render it and save it. *)
Definition gerar_e_salvar (empresa_nome_completo : string) (fatos : string) : M E unit :=
  relatorio_objeto <- call (relator sv empresa_nome_completo fatos) ;;
  let nome := report_file_name empresa_nome_completo in
  hoje <- (fun w => (inr (today sv (ext w)), w)) ;;
  let texto := final_report_markdown hoje relatorio_objeto in
  open_w nome ;;
  write nome texto ;;
  print ("✅ RELATÓRIO CONCLUÍDO! Salvo como '" +:+ nome +:+ "'").

(** The body of the [for] loop for one row of the table. *)
Definition iteration (dados_empresa : csv_row) : M E unit :=
  nome <- getitem dados_empresa "Empresa" ;;
  ticker <- getitem dados_empresa "Ticker" ;;
  let empresa_nome_completo := str_of_value nome +:+ " (" +:+ str_of_value ticker +:+ ")" in
  relatorio_url <- getitem dados_empresa "Relatorio_URL" ;;
  print (nl +:+ "=======================================================") ;;
  print ("| 📊 INICIANDO ANÁLISE: " +:+ empresa_nome_completo) ;;
  print "=======================================================" ;;
  let pergunta := pergunta_pesquisa empresa_nome_completo (str_of_value relatorio_url) in
  fun w =>
    match call (research sv pergunta) w with
    | (inl e, w1) =>
        (* except Exception: placeholder, message, continue *)
        (set_fatos_consolidados
           ("Erro na pesquisa web para " +:+ empresa_nome_completo +:+ ": " +:+ exn_text e) ;;
         print ("❌ [ERRO NA PESQUISA] Falha na coleta de dados para "
                +:+ empresa_nome_completo +:+ ".")) w1
    | (inr fatos, w1) =>
        (set_fatos_consolidados fatos ;;
         try_except
           (gerar_e_salvar empresa_nome_completo fatos)
           (fun _ => true)
           (fun e => print ("❌ [ERRO NA GERAÇÃO] Falha na estruturação JSON do relatório para "
                            +:+ empresa_nome_completo +:+ ": " +:+ exn_text e)) ;;
         print ("[DELAY] ⏱️ Aguardando " +:+ str_of_nat DELAY_SECONDS
                +:+ " segundos para evitar exceder a quota da API Gemini...") ;;
         sleep DELAY_SECONDS) w1
    end.

Definition driver_loop (empresas_para_analisar : list csv_row) : M E unit :=
  for_each iteration empresas_para_analisar.

(** The script from the loading of the list on. *)
Definition main : M E unit :=
  empresas_para_analisar <- ler_lista_empresas_csv "dados_empresas.csv" ;;
  driver_loop empresas_para_analisar ;;
  print (nl +:+ "=======================================================") ;;
  print "| ✨ PROCESSAMENTO DE TODAS AS EMPRESAS CONCLUÍDO! ✨ |" ;;
  print "=======================================================".

End Script.

(** ** The documents as the specification words them

    Named after the sections of the specification; the properties below
    compare them with what the script computes. *)

Module Spec.

(** The three paragraphs of the document-fact stub, as returned. *)
Definition NFLX_PARAGRAPH : string :=
  nl +:+
  "Análise RAG do 10-K (2023): A Receita totalizou $33.7 bilhões, um aumento de 6.7% A/A." +:+ nl +:+
  "O Lucro Líquido foi de $5.4 bilhões. O Fluxo de Caixa Livre (FCF) foi robusto em $6.9 bilhões," +:+ nl +:+
  "indicando forte geração de caixa e saúde financeira." +:+ nl.

Definition TSLA_PARAGRAPH : string :=
  nl +:+
  "Análise RAG do 10-K (2023): A Receita atingiu $96.8 bilhões. Lucro Líquido: $15.0 bilhões." +:+ nl +:+
  "O FCF foi de $4.4 bilhões. O relatório destaca margens de lucro sob pressão devido a cortes de preços." +:+ nl.

Definition GENERIC_PARAGRAPH : string :=
  nl +:+
  "Análise RAG (Simulada): Receita de $150 bilhões no último ano. Lucro líquido de $40 bilhões. " +:+ nl +:+
  "A empresa reportou forte recompra de ações e foca em serviços para crescimento futuro." +:+ nl.

(** The sections of the report, in the order of section 4.5. *)
Definition title_date_header (hoje : date) (r : AnaliseAcionaria) : string :=
  nl +:+
  "# 📄 Relatório de Análise Acionária: " +:+ empresa r +:+ nl +:+
  "**Data da Análise:** " +:+ isoformat hoje +:+ nl +:+
  nl +:+
  "---" +:+ nl +:+
  nl.

Definition executive_summary (r : AnaliseAcionaria) : string :=
  "## I. Sumário Executivo" +:+ nl +:+
  sumario_executivo r +:+ nl +:+
  nl.

Definition indicator_table (upper : string -> string) (r : AnaliseAcionaria) : string :=
  "| Indicador | Detalhe |" +:+ nl +:+
  "| :--- | :--- |" +:+ nl +:+
  "| **Valor Atual da Ação** | **" +:+ valor_atual_acao r +:+ "** |" +:+ nl +:+
  "| **Recomendação** | **" +:+ upper (recomendacao_simplificada r) +:+ "** |" +:+ nl +:+
  "| **Sentimento Geral** | " +:+ sentimento_geral r +:+ " |" +:+ nl +:+
  nl +:+
  "---" +:+ nl +:+
  nl.

(** One bullet line for one news item. *)
Definition bullet (item : string) : string := "* " +:+ item +:+ nl.

Definition news_list (r : AnaliseAcionaria) : string :=
  "## II. Contexto e Notícias Relevantes" +:+ nl +:+
  "### Destaques das Últimas Notícias" +:+ nl +:+
  String.concat EmptyString (map bullet (noticias_relevantes r)) +:+
  nl +:+
  "---" +:+ nl +:+
  nl.

Definition financial_analysis (r : AnaliseAcionaria) : string :=
  "## III. Análise Fundamentalista (Resumo de Documentos Oficiais - RAG)" +:+ nl +:+
  analise_financeira_resumida r +:+ nl +:+
  nl +:+
  "---" +:+ nl +:+
  nl.

Definition disclaimer : string :=
  "**Nota:** A análise fundamentalista foi extraída da URL fornecida e processada pela ferramenta RAG (atualmente em modo simulação)." +:+ nl.

Definition document (upper : string -> string) (hoje : date) (r : AnaliseAcionaria) : string :=
  title_date_header hoje r +:+ executive_summary r +:+ indicator_table upper r
  +:+ news_list r +:+ financial_analysis r +:+ disclaimer.

(** The company label made into a file name, one character at a time:
    a space becomes an underscore, a parenthesis goes. *)
Definition sanitize_char (a : ascii) : string :=
  if Ascii.eqb a " " then "_"
  else if Ascii.eqb a "(" || Ascii.eqb a ")" then EmptyString
  else String a EmptyString.

Fixpoint sanitized_label (label : string) : string :=
  match label with
  | EmptyString => EmptyString
  | String a rest => sanitize_char a +:+ sanitized_label rest
  end.

(** The text fields of a record as they enter the document. *)
Definition text_fields (upper : string -> string) (r : AnaliseAcionaria) : list string :=
  [empresa r; sumario_executivo r; valor_atual_acao r; upper (recomendacao_simplificada r);
   sentimento_geral r; analise_financeira_resumida r] ++ noticias_relevantes r.

(** The table written when the input file is missing: the header and the
    two default rows, each line ended by CR LF. *)
Definition default_table : string :=
  "Empresa,Ticker,Relatorio_URL" +:+ String CR nl +:+
  "Netflix,NFLX,N/A - Sem URL" +:+ String CR nl +:+
  "Tesla,TSLA,N/A - Sem URL" +:+ String CR nl.

(** The same record with another report date. *)
Definition with_data_relatorio (d : string) (r : AnaliseAcionaria) : AnaliseAcionaria :=
  {| data_relatorio := d; empresa := empresa r; valor_atual_acao := valor_atual_acao r;
     sumario_executivo := sumario_executivo r; noticias_relevantes := noticias_relevantes r;
     analise_financeira_resumida := analise_financeira_resumida r;
     sentimento_geral := sentimento_geral r;
     recomendacao_simplificada := recomendacao_simplificada r |}.

End Spec.

(** ** Names for the stages of one iteration *)

(** [empresa_nome_completo] of a row. *)
Definition company_label (nome ticker : option string) : string :=
  str_of_value nome +:+ " (" +:+ str_of_value ticker +:+ ")".

(** The three lines printed when the analysis of a company starts. *)
Definition banner (empresa_nome_completo : string) : list string :=
  [ nl +:+ "=======================================================";
    "| 📊 INICIANDO ANÁLISE: " +:+ empresa_nome_completo;
    "=======================================================" ].

(** The world once the research of a company has answered [fatos]. *)
Definition researched {E} (empresa_nome_completo fatos : string) (x : E) (w : World E)
  : World E :=
  mkWorld (fs w) (stdout w ++ banner empresa_nome_completo) (slept w) (Some fatos) x.

(** What is stored and printed when the research of a company fails. *)
Definition research_placeholder (empresa_nome_completo : string) (e : exn) : string :=
  "Erro na pesquisa web para " +:+ empresa_nome_completo +:+ ": " +:+ exn_text e.

Definition research_error_line (empresa_nome_completo : string) : string :=
  "❌ [ERRO NA PESQUISA] Falha na coleta de dados para " +:+ empresa_nome_completo +:+ ".".

(** The world once the research of a company has raised [e]. *)
Definition research_failed {E} (empresa_nome_completo : string) (e : exn) (x : E)
    (w : World E) : World E :=
  mkWorld (fs w)
          (stdout w ++ banner empresa_nome_completo ++ [research_error_line empresa_nome_completo])
          (slept w) (Some (research_placeholder empresa_nome_completo e)) x.

(** What is printed when the report of a company fails. *)
Definition report_error_line (empresa_nome_completo : string) (e : exn) : string :=
  "❌ [ERRO NA GERAÇÃO] Falha na estruturação JSON do relatório para "
  +:+ empresa_nome_completo +:+ ": " +:+ exn_text e.

(** What is printed when the report of a company is saved. *)
Definition report_saved_line (name : string) : string :=
  "✅ RELATÓRIO CONCLUÍDO! Salvo como '" +:+ name +:+ "'".

(** The world with one more line printed. *)
Definition logged {E} (line : string) (w : World E) : World E :=
  mkWorld (fs w) (stdout w ++ [line]) (slept w) (fatos_consolidados w) (ext w).

Definition delay_line : string :=
  "[DELAY] ⏱️ Aguardando " +:+ str_of_nat 7
  +:+ " segundos para evitar exceder a quota da API Gemini...".

(** The world after the pacing delay at the end of an iteration. *)
Definition paced {E} (sv : Services E) (w : World E) : World E :=
  mkWorld (fs w) (stdout w ++ [delay_line]) (slept w + 7) (fatos_consolidados w)
          (asleep sv 7 (ext w)).

(** The operating system raises no error on the file at [path]. *)
Definition no_fault {E} (sv : Services E) (path : string) : Prop :=
  (forall x, (read_fault sv path x).1 = None)
  /\ (forall x, (open_fault sv path x).1 = None)
  /\ (forall data x, (write_fault sv path data x).1 = None).

(** The three columns the driver reads are present in the row. *)
Definition has_columns (row : csv_row) : Prop :=
  is_Some (named row !! "Empresa") /\ is_Some (named row !! "Ticker")
  /\ is_Some (named row !! "Relatorio_URL").

(** The three lines printed when every row has been processed. *)
Definition closing_banner : list string :=
  [ nl +:+ "=======================================================";
    "| ✨ PROCESSAMENTO DE TODAS AS EMPRESAS CONCLUÍDO! ✨ |";
    "=======================================================" ].

(** The line printed when the table has been read. *)
Definition loaded_line (n : nat) : string :=
  "✅ Lista de empresas e URLs carregada (" +:+ str_of_nat n +:+ " itens).".

(** The line printed when the table is missing. *)
Definition missing_line (caminho_arquivo : string) : string :=
  "❌ ERRO: Arquivo '" +:+ caminho_arquivo +:+ "' não encontrado. Criando um exemplo.".

(** ** Paths

    A name without a path separator is an entry of the current directory:
    on a file system that compares names byte by byte and holds no link,
    two such names are the same file only when they are the same string. *)

Definition BACKSLASH : ascii := ascii_of_nat 92.

(** The character occurs in the text. *)
Fixpoint has_char (c : ascii) (s : string) : bool :=
  match s with
  | EmptyString => false
  | String a rest => Ascii.eqb a c || has_char c rest
  end.

(** The path holds no separator. *)
Definition plain_name (p : string) : bool :=
  negb (has_char "/" p) && negb (has_char BACKSLASH p).

(** The label of the row, made of its Empresa and Ticker columns, holds no
    path separator. *)
Definition plain_label (row : csv_row) : Prop :=
  forall nome ticker,
    named row !! "Empresa" = Some nome -> named row !! "Ticker" = Some ticker ->
    plain_name (company_label nome ticker) = true.

(** The three columns of a row, as the driver reads them. *)
Definition columns_of (row : csv_row)
  : option (option string) * option (option string) * option (option string) :=
  (named row !! "Empresa", named row !! "Ticker", named row !! "Relatorio_URL").

(** The row has the three columns. *)
Definition complete (row : csv_row) : bool :=
  match columns_of row with
  | (Some _, Some _, Some _) => true
  | _ => false
  end.

(** What is read from the first [n] characters of the default table: the
    reader parses them, at most two rows come out, each with the three
    columns, and they are the default rows only from 82 characters on (the
    two data lines, with or without the end of the last line). *)
Definition cut_table_ok (n : nat) : bool :=
  match Csv.reader (Csv.file_lines (String.substring 0 n Spec.default_table)) with
  | inl _ => false
  | inr rows =>
      (length (Csv.DictReader rows) <=? 2)
      && forallb complete (Csv.DictReader rows)
      && implb (bool_decide (map columns_of (Csv.DictReader rows) = map columns_of exemplo_data))
               (82 <=? n)
  end.

(** ** 4. Startup: the tracing variables are taken out of [os.environ] *)

(** [del os.environ[key]]. *)
Definition del_environ (key : string) (environ : gmap string string)
  : exn + gmap string string :=
  match environ !! key with
  | Some _ => inr (delete key environ)
  | None => inl (Exn KeyError ("'" +:+ key +:+ "'"))
  end.

(** [if key in os.environ: del os.environ[key]]. *)
Definition del_if_set (key : string) (environ : gmap string string)
  : exn + gmap string string :=
  match environ !! key with
  | Some _ => del_environ key environ
  | None => inr environ
  end.

(** Lines 93 and 94, on the environment that [load_dotenv()] leaves. *)
Definition clear_tracing (environ : gmap string string) : exn + gmap string string :=
  match del_if_set "LANGCHAIN_TRACING_V2" environ with
  | inl e => inl e
  | inr environ' => del_if_set "LANGCHAIN_API_KEY" environ'
  end.

(** ** Sample worlds, used to run the script on concrete inputs *)

Module Scenario.

(** Upper-casing of the ASCII letters, which is [str.upper] on ASCII text. *)
Definition ascii_upper_char (a : ascii) : ascii :=
  let n := nat_of_ascii a in
  if (97 <=? n) && (n <=? 122) then ascii_of_nat (n - 32) else a.

Fixpoint ascii_upper (s : string) : string :=
  match s with
  | EmptyString => EmptyString
  | String a rest => String (ascii_upper_char a) (ascii_upper rest)
  end.

Definition report : AnaliseAcionaria := {|
  data_relatorio := "2020-01-01";
  empresa := "Netflix - NFLX";
  valor_atual_acao := "$612.09";
  sumario_executivo := "Crescimento de assinantes acima do esperado.";
  noticias_relevantes := ["Resultado trimestral supera estimativas."; "Novo plano com anúncios."; "Expansão em jogos."];
  analise_financeira_resumida := "N/A - Foco em Notícias";
  sentimento_geral := "Positivo";
  recomendacao_simplificada := "Manter"
|}.

(** A summary whose middle line is one space. *)
Definition report_blank_line : AnaliseAcionaria := {|
  data_relatorio := "2025-01-05";
  empresa := "Netflix - NFLX";
  valor_atual_acao := "$612.09";
  sumario_executivo := "Primeiro" +:+ nl +:+ " " +:+ nl +:+ "Segundo";
  noticias_relevantes := [];
  analise_financeira_resumida := "N/A - Foco em Notícias";
  sentimento_geral := "Positivo";
  recomendacao_simplificada := "Manter"
|}.

Definition hoje : date := Date 2025 1 5.

Definition timeout : exn := Exn (OtherException "TimeoutError") "tempo esgotado".
Definition disk_full : exn := Exn OSError "[Errno 28] No space left on device".
Definition denied : exn :=
  Exn PermissionError "[Errno 13] Permission denied: 'dados_empresas.csv'".

(** Every service answers and no file operation fails. *)
Definition quiet : Services unit := {|
  research := fun _ x => (inr "fatos", x);
  relator := fun _ _ x => (inr report, x);
  today := fun _ => hoje;
  asleep := fun _ x => x;
  read_fault := fun _ x => (None, x);
  open_fault := fun _ x => (None, x);
  write_fault := fun _ _ x => (None, x)
|}.

(** The research service is down. *)
Definition research_down : Services unit := {|
  research := fun _ x => (inl timeout, x);
  relator := fun _ _ x => (inr report, x);
  today := fun _ => hoje;
  asleep := fun _ x => x;
  read_fault := fun _ x => (None, x);
  open_fault := fun _ x => (None, x);
  write_fault := fun _ _ x => (None, x)
|}.

(** The generation service is down. *)
Definition relator_down : Services unit := {|
  research := fun _ x => (inr "fatos", x);
  relator := fun _ _ x => (inl timeout, x);
  today := fun _ => hoje;
  asleep := fun _ x => x;
  read_fault := fun _ x => (None, x);
  open_fault := fun _ x => (None, x);
  write_fault := fun _ _ x => (None, x)
|}.

(** The outside counts the reports compiled; from report number [k] on the
    disk is full and no byte of a write reaches the file. *)
Definition disk_fills_up (k : nat) : Services nat := {|
  research := fun _ x => (inr "fatos", x);
  relator := fun _ _ x => (inr report, S x);
  today := fun _ => hoje;
  asleep := fun _ x => x;
  read_fault := fun _ x => (None, x);
  open_fault := fun _ x => (None, x);
  write_fault := fun _ _ x => (if k <=? x then Some (disk_full, 0) else None, x)
|}.

(** The company table cannot be read. *)
Definition list_unreadable : Services unit := {|
  research := fun _ x => (inr "fatos", x);
  relator := fun _ _ x => (inr report, x);
  today := fun _ => hoje;
  asleep := fun _ x => x;
  read_fault := fun _ x => (Some denied, x);
  open_fault := fun _ x => (None, x);
  write_fault := fun _ _ x => (None, x)
|}.

Definition netflix : csv_row :=
  dict_of [("Empresa", "Netflix"); ("Ticker", "NFLX"); ("Relatorio_URL", "N/A - Sem URL")].

Definition tesla : csv_row :=
  dict_of [("Empresa", "Tesla"); ("Ticker", "TSLA"); ("Relatorio_URL", "N/A - Sem URL")].

(** A row of a table whose header has no Ticker column. *)
Definition no_ticker : csv_row :=
  dict_of [("Empresa", "Apple"); ("Relatorio_URL", "https://example.com/AAPL")].

Definition empty_world {E} (x : E) : World E := mkWorld ∅ [] 0 None x.

(** A table of three companies; one field is quoted and holds a comma. *)
Definition three_rows_csv : string :=
  "Empresa,Ticker,Relatorio_URL" +:+ nl +:+
  "Netflix,NFLX,https://ir.example/NFLX" +:+ nl +:+
  String DQUOTE "Alphabet, Inc." +:+ String DQUOTE ",GOOG,N/A" +:+ nl +:+
  "Tesla,TSLA,Sem URL" +:+ nl.

(** The directory of the script may not be written. *)
Definition read_only_directory : Services unit := {|
  research := fun _ x => (inr "fatos", x);
  relator := fun _ _ x => (inr report, x);
  today := fun _ => hoje;
  asleep := fun _ x => x;
  read_fault := fun _ x => (None, x);
  open_fault := fun _ x => (Some denied, x);
  write_fault := fun _ _ x => (None, x)
|}.

(** The byte order mark, as the utf-8 codec hands it on: one character at
    the head of the first line. *)
Definition BOM : string :=
  String (ascii_of_nat 239) (String (ascii_of_nat 187) (String (ascii_of_nat 191) EmptyString)).

(** The default table as an editor that writes the mark saves it. *)
Definition table_with_bom : string := BOM +:+ Spec.default_table.

(** A table that has its header and nothing else. *)
Definition header_only : string := "Empresa,Ticker,Relatorio_URL" +:+ nl.

(** A table whose second row is short and whose third is long. *)
Definition ragged_csv : string :=
  "Empresa,Ticker,Relatorio_URL" +:+ nl +:+
  "Netflix" +:+ nl +:+
  "Tesla,TSLA,Sem URL,extra" +:+ nl.

(** A record whose financial analysis is the answer of the stub for a
    Netflix filing, and whose summary holds a line of blanks. *)
Definition report_with_facts : AnaliseAcionaria := {|
  data_relatorio := "2025-01-05";
  empresa := "Netflix - NFLX";
  valor_atual_acao := "$612.09";
  sumario_executivo := "Primeiro" +:+ nl +:+ " " +:+ nl +:+ "Segundo";
  noticias_relevantes := [];
  analise_financeira_resumida := consult_document_rag "https://ir.example/NFLX/10-K.pdf";
  sentimento_geral := "Positivo";
  recomendacao_simplificada := "Manter"
|}.


(** The generation service hands on the answer of the stub. *)
Definition relay : Services unit := {|
  research := fun _ x => (inr "fatos", x);
  relator := fun _ _ x => (inr report_with_facts, x);
  today := fun _ => hoje;
  asleep := fun _ x => x;
  read_fault := fun _ x => (None, x);
  open_fault := fun _ x => (None, x);
  write_fault := fun _ _ x => (None, x)
|}.

(** A row that points at a filing of Netflix. *)
Definition netflix_filing : csv_row :=
  dict_of [("Empresa", "Netflix"); ("Ticker", "NFLX");
           ("Relatorio_URL", "https://ir.example/NFLX/10-K.pdf")].

(** Rows with a comma, a quote, blanks at the ends, an empty row and a row of
    one empty field. *)
Definition quoted_rows : list (list string) :=
  [ fieldnames;
    ["Alphabet, Inc."; "GO" +:+ String DQUOTE "OG"; EmptyString];
    [];
    [EmptyString];
    [" Tesla "; "TSLA"] ].

(** The disk fills up while a report is written: the first [n] characters
    of the text reach the file. *)
Definition disk_cuts_report (n : nat) : Services unit := {|
  research := fun _ x => (inr "fatos", x);
  relator := fun _ _ x => (inr report, x);
  today := fun _ => hoje;
  asleep := fun _ x => x;
  read_fault := fun _ x => (None, x);
  open_fault := fun _ x => (None, x);
  write_fault := fun _ _ x => (Some (disk_full, n), x)
|}.

(** A disk with room for [capacity] characters; the outside counts the
    characters written. *)
Definition disk_of_size (capacity : nat) : Services nat := {|
  research := fun _ x => (inr "fatos", x);
  relator := fun _ _ x => (inr report, x);
  today := fun _ => hoje;
  asleep := fun _ x => x;
  read_fault := fun _ x => (None, x);
  open_fault := fun _ x => (None, x);
  write_fault := fun _ data x =>
    if x + String.length data <=? capacity then (None, x + String.length data)
    else (Some (disk_full, capacity - x), capacity)
|}.

End Scenario.

Arguments print {E} line w.
Arguments sleep {E} sv seconds w.
Arguments set_fatos_consolidados {E} v w.
Arguments set_ext {E} x w.
Arguments set_file {E} path data w.

(** * Properties *)

(** ** Text: substrings, lines and replacement *)

Module TextFacts.
Import Text.

#[local] Arguments String.append : simpl nomatch.

Lemma append_nil_r (s : string) : s +:+ EmptyString = s.
Proof. induction s as [|a s IH]; simpl; [reflexivity | now rewrite IH]. Qed.

Lemma append_assoc (a b c : string) : (a +:+ b) +:+ c = a +:+ (b +:+ c).
Proof. induction a as [|x a IH]; simpl; [reflexivity | now rewrite IH]. Qed.

Lemma prefix_append (n rest : string) : String.prefix n (n +:+ rest) = true.
Proof.
  induction n as [|x n IH]; simpl.
  - now destruct rest.
  - destruct (ascii_dec x x) as [_|Hne]; [exact IH | now elim Hne].
Qed.

Lemma prefix_split (n h : string) :
  String.prefix n h = true -> exists rest, h = n +:+ rest.
Proof.
  revert h; induction n as [|x n IH]; intros h Hp.
  - exists h; reflexivity.
  - destruct h as [|y h]; simpl in Hp; [discriminate|].
    destruct (ascii_dec x y) as [->|_]; [|discriminate].
    destruct (IH h Hp) as [rest ->]. now exists rest.
Qed.

Lemma contains_prefix (n h : string) : String.prefix n h = true -> contains n h = true.
Proof. intros Hp. destruct h; cbn [contains]; now rewrite Hp. Qed.

(** [contains] is the substring test. *)
Lemma contains_intro (n before after : string) :
  contains n (before +:+ n +:+ after) = true.
Proof.
  induction before as [|x b IH].
  - change (contains n (n +:+ after) = true). apply contains_prefix, prefix_append.
  - change (String x b +:+ n +:+ after) with (String x (b +:+ n +:+ after)).
    cbn [contains]. rewrite IH. apply orb_true_r.
Qed.

Lemma contains_elim (n h : string) :
  contains n h = true -> exists before after, h = before +:+ n +:+ after.
Proof.
  induction h as [|x h IH]; cbn [contains]; intros Hc.
  - rewrite orb_false_r in Hc. destruct (prefix_split _ _ Hc) as [rest ->].
    now exists EmptyString, rest.
  - apply orb_true_iff in Hc as [Hp|Hc].
    + destruct (prefix_split _ _ Hp) as [rest ->]. now exists EmptyString, rest.
    + destruct (IH Hc) as (b & a & ->). now exists (String x b), a.
Qed.

Lemma contains_suffix (n before : string) : contains n (before +:+ n) = true.
Proof. rewrite <- (append_nil_r n) at 2. apply contains_intro. Qed.

(** *** Lines *)

Lemma split_lines_not_nil (s : string) : split_lines s <> [].
Proof.
  induction s as [|a s IH]; simpl; [discriminate|].
  destruct (Ascii.eqb a LF); [discriminate|].
  destruct (split_lines s); [contradiction | discriminate].
Qed.

Lemma split_lines_app (a b : string) :
  split_lines (a +:+ b) = glue (split_lines a) (split_lines b).
Proof.
  induction a as [|x a IH]; simpl.
  - destruct (split_lines b) eqn:Hb; [now apply split_lines_not_nil in Hb | reflexivity].
  - destruct (Ascii.eqb x LF).
    + rewrite IH. destruct (split_lines a) eqn:Ha; [now apply split_lines_not_nil in Ha|].
      reflexivity.
    + rewrite IH. destruct (split_lines a) as [|l [|l' ls]] eqn:Ha.
      * now apply split_lines_not_nil in Ha.
      * simpl. destruct (split_lines b); reflexivity.
      * reflexivity.
Qed.

Lemma join_split_lines (s : string) : join nl (split_lines s) = s.
Proof.
  induction s as [|a s IH]; [reflexivity|]. simpl.
  destruct (Ascii.eqb_spec a LF) as [->|Hne].
  - destruct (split_lines s) eqn:Hs; [now apply split_lines_not_nil in Hs|].
    unfold join in *. simpl in *. now rewrite IH.
  - destruct (split_lines s) as [|l [|l' ls]] eqn:Hs.
    + now apply split_lines_not_nil in Hs.
    + unfold join in *. simpl in *. now rewrite IH.
    + unfold join in *. simpl in *. now rewrite <- IH.
Qed.

Lemma split_lines_inline (s : string) : Forall (fun l => inline l = true) (split_lines s).
Proof.
  induction s as [|a s IH]; simpl.
  - repeat constructor.
  - destruct (Ascii.eqb a LF) eqn:Ha.
    + constructor; [reflexivity | exact IH].
    + destruct (split_lines s) as [|l ls]; [repeat constructor; simpl; now rewrite Ha|].
      inversion IH; subst. constructor; [simpl; now rewrite Ha | assumption].
Qed.

Lemma split_lines_of_inline (s : string) : inline s = true -> split_lines s = [s].
Proof.
  induction s as [|a s IH]; simpl; [reflexivity|].
  intros [Ha Hs]%andb_true_iff. apply negb_true_iff in Ha. rewrite Ha, (IH Hs). reflexivity.
Qed.

Lemma split_lines_join (ls : list string) :
  ls <> [] -> Forall (fun l => inline l = true) ls -> split_lines (join nl ls) = ls.
Proof.
  induction ls as [|l ls IH]; [congruence|]. intros _ Hall.
  inversion Hall as [|? ? Hl Hls]; subst.
  destruct ls as [|l' ls'].
  - unfold join; simpl. now apply split_lines_of_inline.
  - unfold join in *. change (String.concat nl (l :: l' :: ls'))
      with (l +:+ nl +:+ String.concat nl (l' :: ls')).
    rewrite split_lines_app, (split_lines_of_inline l Hl).
    change (nl +:+ String.concat nl (l' :: ls')) with (String LF (String.concat nl (l' :: ls'))).
    cbn [split_lines]. change (Ascii.eqb LF LF) with true. cbn iota.
    rewrite IH by (congruence || assumption). simpl. now rewrite append_nil_r.
Qed.

(** *** Lines of blanks *)

Lemma all_blank_app (a b : string) : all_blank (a +:+ b) = all_blank a && all_blank b.
Proof. induction a as [|x a IH]; simpl; [reflexivity | now rewrite IH, andb_assoc]. Qed.

Lemma whitespace_only_app (a b : string) :
  whitespace_only a = false -> whitespace_only b = false -> whitespace_only (a +:+ b) = false.
Proof.
  destruct a as [|x a]; [intros _ H; exact H|].
  destruct b as [|y b]; [intros H _; now rewrite append_nil_r|].
  unfold whitespace_only. intros Ha Hb.
  change (String x a +:+ String y b) with (String x (a +:+ String y b)).
  change (all_blank (String x (a +:+ String y b)))
    with (is_blank_char x && all_blank (a +:+ String y b)).
  rewrite all_blank_app. simpl in Ha. rewrite andb_assoc, Ha. reflexivity.
Qed.

Lemma forallb_glue (xs ys : list string) :
  forallb (fun l => negb (whitespace_only l)) xs = true ->
  forallb (fun l => negb (whitespace_only l)) ys = true ->
  forallb (fun l => negb (whitespace_only l)) (glue xs ys) = true.
Proof.
  induction xs as [|l xs IH]; intros Hx Hy; [exact Hy|].
  simpl in Hx. apply andb_true_iff in Hx as [Hl Hx].
  destruct xs as [|l' xs'].
  - simpl. destruct ys as [|y ys']; [simpl; now rewrite Hl|].
    simpl in Hy. apply andb_true_iff in Hy as [Hy1 Hy2].
    simpl. rewrite Hy2, andb_true_r. apply negb_true_iff.
    apply whitespace_only_app; now apply negb_true_iff.
  - change (glue (l :: l' :: xs') ys) with (l :: glue (l' :: xs') ys).
    simpl forallb at 1. rewrite Hl. simpl. apply IH; assumption.
Qed.

Lemma no_blank_line_app (a b : string) :
  no_blank_line a = true -> no_blank_line b = true -> no_blank_line (a +:+ b) = true.
Proof. unfold no_blank_line. rewrite split_lines_app. apply forallb_glue. Qed.

Lemma no_blank_line_join (sep : string) (items : list string) :
  no_blank_line sep = true ->
  Forall (fun s => no_blank_line s = true) items ->
  no_blank_line (join sep items) = true.
Proof.
  intros Hsep Hall. induction Hall as [|s items Hs Hall IH]; [reflexivity|].
  destruct items as [|s' items']; [exact Hs|].
  change (join sep (s :: s' :: items')) with (s +:+ sep +:+ join sep (s' :: items')).
  auto using no_blank_line_app.
Qed.

End TextFacts.

(** ** textwrap.dedent on text that starts at the left margin *)

Module DedentFacts.
Import Text Textwrap TextFacts.

#[local] Arguments String.append : simpl nomatch.

Lemma margin_stays_empty (indents : list string) :
  fold_left margin_step indents (Some EmptyString) = Some EmptyString.
Proof. induction indents as [|i is_ IH]; [reflexivity | destruct i; exact IH]. Qed.

(** A line with no indent makes the margin empty. *)
Lemma margin_empty_from (indents : list string) (m : option string) :
  In EmptyString indents -> fold_left margin_step indents m = Some EmptyString.
Proof.
  revert m. induction indents as [|i is_ IH]; intros m Hin; [contradiction|].
  destruct Hin as [->|Hin]; [|now apply IH].
  cbn [fold_left]. replace (margin_step m EmptyString) with (Some EmptyString).
  - apply margin_stays_empty.
  - destruct m as [[|x m]|]; reflexivity.
Qed.

Lemma blank_line_inline (l : string) : inline l = true -> inline (blank_line l) = true.
Proof. unfold blank_line. now destruct (whitespace_only l). Qed.

(** Text whose second line starts with a character other than a blank:
    the margin is empty, and [dedent] only empties the lines of blanks. *)
Lemma dedent_flush_left (c : ascii) (rest : string) :
  is_blank_char c = false -> Ascii.eqb c LF = false ->
  dedent (nl +:+ String c rest) = join nl (map blank_line (split_lines (nl +:+ String c rest))).
Proof.
  intros Hc Hlf. unfold dedent.
  change (nl +:+ String c rest) with (String LF (String c rest)).
  cbn [split_lines]. change (Ascii.eqb LF LF) with true. cbn iota. rewrite Hlf.
  destruct (split_lines rest) as [|l ls] eqn:Hs; [now apply split_lines_not_nil in Hs|].
  assert (Hm : find_margin (map blank_line (EmptyString :: String c l :: ls)) = Some EmptyString).
  { unfold find_margin. apply margin_empty_from. unfold indents.
    cbn [map]. change (blank_line EmptyString) with EmptyString.
    assert (Hb : blank_line (String c l) = String c l).
    { unfold blank_line, whitespace_only. cbn [all_blank]. now rewrite Hc. }
    rewrite Hb. cbn [List.filter]. change (all_blank EmptyString) with true. cbn [negb].
    cbn [all_blank]. rewrite Hc. cbn [andb negb map leading_blanks]. rewrite Hc.
    now left. }
  now rewrite Hm.
Qed.

Lemma blank_lines_id (lines : list string) :
  forallb (fun l => negb (whitespace_only l)) lines = true -> map blank_line lines = lines.
Proof.
  induction lines as [|l ls IH]; [reflexivity|]. cbn [forallb map].
  intros [Hl Hls]%andb_true_iff. rewrite (IH Hls). unfold blank_line.
  apply negb_true_iff in Hl. now rewrite Hl.
Qed.

(** Such text without a line of blanks is left as it is. *)
Lemma dedent_id (c : ascii) (rest : string) :
  is_blank_char c = false -> Ascii.eqb c LF = false ->
  no_blank_line (nl +:+ String c rest) = true ->
  dedent (nl +:+ String c rest) = nl +:+ String c rest.
Proof.
  intros Hc Hlf Hclean. rewrite dedent_flush_left by assumption.
  rewrite blank_lines_id by exact Hclean. apply join_split_lines.
Qed.

(** The lines of the dedented text are the lines of the text, those made of
    blanks emptied. *)
Lemma split_lines_dedent (c : ascii) (rest : string) :
  is_blank_char c = false -> Ascii.eqb c LF = false ->
  split_lines (dedent (nl +:+ String c rest))
  = map blank_line (split_lines (nl +:+ String c rest)).
Proof.
  intros Hc Hlf. rewrite dedent_flush_left by assumption.
  apply split_lines_join.
  - intros Hnil. apply map_eq_nil in Hnil. now apply split_lines_not_nil in Hnil.
  - generalize (split_lines_inline (nl +:+ String c rest)).
    induction 1 as [|l ls Hl Hls IH]; cbn [map]; constructor;
      [now apply blank_line_inline | exact IH].
Qed.

End DedentFacts.

(** ** The document-fact stub *)

Lemma dedent_NFLX : Textwrap.dedent NFLX_TEXT = Spec.NFLX_PARAGRAPH.
Proof. vm_compute. reflexivity. Qed.

Lemma dedent_TSLA : Textwrap.dedent TSLA_TEXT = Spec.TSLA_PARAGRAPH.
Proof. vm_compute. reflexivity. Qed.

Lemma dedent_GENERIC : Textwrap.dedent GENERIC_TEXT = Spec.GENERIC_PARAGRAPH.
Proof. vm_compute. reflexivity. Qed.

(** C3. The stub is a function of the URL alone. A URL that is empty or holds
    one of the markers N/A and Sem URL yields the fixed no-data sentence;
    any other URL yields the NFLX paragraph when it holds NFLX, else the TSLA
    paragraph when it holds TSLA, else the generic paragraph. *)
Theorem consult_document_rag_policy (url : string) :
  (url = EmptyString \/ contains "N/A" url = true \/ contains "Sem URL" url = true ->
   consult_document_rag url = NO_DATA) /\
  (url <> EmptyString /\ contains "N/A" url = false /\ contains "Sem URL" url = false ->
   (contains "NFLX" url = true -> consult_document_rag url = Spec.NFLX_PARAGRAPH) /\
   (contains "NFLX" url = false -> contains "TSLA" url = true ->
    consult_document_rag url = Spec.TSLA_PARAGRAPH) /\
   (contains "NFLX" url = false -> contains "TSLA" url = false ->
    consult_document_rag url = Spec.GENERIC_PARAGRAPH)).
Proof.
  unfold consult_document_rag. split.
  - intros [-> | [H | H]]; [reflexivity | |]; rewrite H.
    + now rewrite orb_true_r.
    + now rewrite orb_true_r.
  - intros (Hne & Hna & Hsem). rewrite Hna, Hsem.
    destruct url as [|a url]; [congruence|]. cbn [orb].
    repeat split.
    + intros ->. apply dedent_NFLX.
    + intros -> ->. apply dedent_TSLA.
    + intros -> ->. apply dedent_GENERIC.
Qed.

(** The policy at one URL of each kind. *)
Lemma consult_document_rag_policy_witness :
  consult_document_rag EmptyString = NO_DATA /\
  consult_document_rag "N/A - Sem URL" = NO_DATA /\
  consult_document_rag "https://ir.example/NFLX/10-K.pdf" = Spec.NFLX_PARAGRAPH /\
  consult_document_rag "https://ir.example/TSLA/10-K.pdf" = Spec.TSLA_PARAGRAPH /\
  consult_document_rag "https://ir.example/AAPL/10-K.pdf" = Spec.GENERIC_PARAGRAPH.
Proof.
  assert (Hurl : forall s, String "h" s <> EmptyString) by discriminate.
  split; [|split; [|split; [|split]]].
  - apply (proj1 (consult_document_rag_policy EmptyString)). left. reflexivity.
  - apply (proj1 (consult_document_rag_policy "N/A - Sem URL")). right; left. reflexivity.
  - apply (proj2 (consult_document_rag_policy "https://ir.example/NFLX/10-K.pdf")
             (conj (Hurl _) (conj eq_refl eq_refl))). reflexivity.
  - apply (proj2 (consult_document_rag_policy "https://ir.example/TSLA/10-K.pdf")
             (conj (Hurl _) (conj eq_refl eq_refl))); reflexivity.
  - apply (proj2 (consult_document_rag_policy "https://ir.example/AAPL/10-K.pdf")
             (conj (Hurl _) (conj eq_refl eq_refl))); reflexivity.
Defined.

(** ** The report document and its file name *)

Module ReportFacts.
Import Text Textwrap TextFacts DedentFacts.

#[local] Arguments String.append : simpl nomatch.

Lemma split_lines_app_nl (a b : string) :
  split_lines (a +:+ nl +:+ b) = split_lines a ++ split_lines b.
Proof.
  induction a as [|x a IH].
  - reflexivity.
  - change (String x a +:+ nl +:+ b) with (String x (a +:+ nl +:+ b)).
    cbn [split_lines]. rewrite IH. destruct (Ascii.eqb x LF); [reflexivity|].
    destruct (split_lines a) eqn:Ha; [now apply split_lines_not_nil in Ha | reflexivity].
Qed.

Lemma inline_app (a b : string) : inline (a +:+ b) = inline a && inline b.
Proof.
  induction a as [|x a IH]; [reflexivity|].
  change (String x a +:+ b) with (String x (a +:+ b)). cbn [inline].
  now rewrite IH, andb_assoc.
Qed.

(** *** The text of a date *)

Lemma digits_inline (u : Decimal.uint) :
  inline (DecimalString.NilEmpty.string_of_uint u) = true.
Proof. induction u; cbn [DecimalString.NilEmpty.string_of_uint inline]; auto. Qed.

Lemma digits_no_blank_line (u : Decimal.uint) :
  no_blank_line (DecimalString.NilEmpty.string_of_uint u) = true.
Proof.
  induction u as [|u IH|u IH|u IH|u IH|u IH|u IH|u IH|u IH|u IH|u IH];
    cbn [DecimalString.NilEmpty.string_of_uint]; [reflexivity|..];
    match goal with
    | |- no_blank_line (String ?d ?s) = true =>
        change (String d s) with (String d EmptyString +:+ s);
        apply no_blank_line_app; [reflexivity | exact IH]
    end.
Qed.

Lemma str_of_nat_inline (n : nat) : inline (str_of_nat n) = true.
Proof.
  unfold str_of_nat, DecimalString.NilZero.string_of_uint.
  destruct (Nat.to_uint n) eqn:Hn; [reflexivity|..]; rewrite <- Hn; apply digits_inline.
Qed.

Lemma str_of_nat_no_blank_line (n : nat) : no_blank_line (str_of_nat n) = true.
Proof.
  unfold str_of_nat, DecimalString.NilZero.string_of_uint.
  destruct (Nat.to_uint n) eqn:Hn; [reflexivity|..]; rewrite <- Hn;
    apply digits_no_blank_line.
Qed.

Lemma zeros_inline (k : nat) : inline (String.concat EmptyString (repeat "0" k)) = true.
Proof.
  induction k as [|k IH]; [reflexivity|]. cbn [repeat String.concat].
  destruct (repeat "0" k) eqn:Hk; [reflexivity|]. now rewrite !inline_app, IH.
Qed.

Lemma zeros_no_blank_line (k : nat) :
  no_blank_line (String.concat EmptyString (repeat "0" k)) = true.
Proof.
  induction k as [|k IH]; [reflexivity|]. cbn [repeat String.concat].
  destruct (repeat "0" k) eqn:Hk; [reflexivity|].
  apply no_blank_line_app; [reflexivity|]. apply no_blank_line_app; [reflexivity | exact IH].
Qed.

Lemma isoformat_inline (d : date) : inline (isoformat d) = true.
Proof.
  unfold isoformat, zfill.
  now rewrite !inline_app, !zeros_inline, !str_of_nat_inline.
Qed.

Lemma isoformat_no_blank_line (d : date) : no_blank_line (isoformat d) = true.
Proof.
  unfold isoformat, zfill.
  repeat (apply no_blank_line_app;
          [first [reflexivity | apply zeros_no_blank_line | apply str_of_nat_no_blank_line
                 | apply no_blank_line_app;
                   [apply zeros_no_blank_line | apply str_of_nat_no_blank_line]] |]).
  apply str_of_nat_no_blank_line.
Qed.

(** *** The file name *)

Lemma replace_hit (c : ascii) (by_ s : string) :
  replace c by_ (String c s) = by_ +:+ replace c by_ s.
Proof. cbn [replace]. now rewrite Ascii.eqb_refl. Qed.

Lemma replace_miss (c a : ascii) (by_ s : string) :
  a <> c -> replace c by_ (String a s) = String a (replace c by_ s).
Proof. intros Hne. cbn [replace]. now destruct (Ascii.eqb_spec a c). Qed.

(** The three replacements in a row are one pass over the label. *)
Lemma file_name_clean_one_pass (label : string) :
  file_name_clean label = Spec.sanitized_label label.
Proof.
  unfold file_name_clean. induction label as [|a label IH]; [reflexivity|].
  cbn [Spec.sanitized_label]. unfold Spec.sanitize_char. rewrite <- IH.
  destruct (Ascii.eqb_spec a " ") as [->|Hsp].
  - rewrite replace_hit.
    change ("_" +:+ replace " " "_" label) with (String "_" (replace " " "_" label)).
    rewrite !replace_miss by discriminate. reflexivity.
  - rewrite (replace_miss " ") by assumption.
    destruct (Ascii.eqb_spec a "(") as [->|Hop].
    + rewrite replace_hit. reflexivity.
    + rewrite (replace_miss "(") by assumption.
      destruct (Ascii.eqb_spec a ")") as [->|Hcl].
      * rewrite replace_hit. reflexivity.
      * rewrite (replace_miss ")") by assumption. reflexivity.
Qed.

(** No space and no parenthesis is left in the name. *)
Lemma file_name_clean_chars (label : string) (a : ascii) :
  In a (list_ascii_of_string (file_name_clean label)) ->
  a <> " "%char /\ a <> "("%char /\ a <> ")"%char.
Proof.
  rewrite file_name_clean_one_pass.
  induction label as [|x label IH]; [contradiction|].
  cbn [Spec.sanitized_label]. unfold Spec.sanitize_char.
  destruct (Ascii.eqb_spec x " ") as [->|Hsp].
  - intros [<-|Hin]; [repeat split; discriminate | now apply IH].
  - destruct (Ascii.eqb_spec x "(") as [->|Hop]; [exact IH|].
    destruct (Ascii.eqb_spec x ")") as [->|Hcl]; [exact IH|].
    intros [<-|Hin]; [repeat split; assumption | now apply IH].
Qed.

End ReportFacts.

Section Rendering.
Import Text Textwrap TextFacts DedentFacts ReportFacts.

#[local] Arguments String.append : simpl nomatch.

Variable upper : string -> string.

(** The f-string starts with a line feed and the title mark. *)
Lemma report_template_flush_left (hoje : date) (r : AnaliseAcionaria) :
  exists rest, report_template upper hoje r = nl +:+ String "#" rest.
Proof. unfold report_template. eexists. reflexivity. Qed.

(** [dedent] finds no margin in the report: it only empties the lines made
    of blanks. *)
Lemma final_report_markdown_lines (hoje : date) (r : AnaliseAcionaria) :
  final_report_markdown upper hoje r
  = join nl (map blank_line (split_lines (report_template upper hoje r))).
Proof.
  unfold final_report_markdown.
  destruct (report_template_flush_left hoje r) as [rest ->].
  now apply dedent_flush_left.
Qed.

Lemma split_lines_final_report_markdown (hoje : date) (r : AnaliseAcionaria) :
  split_lines (final_report_markdown upper hoje r)
  = map blank_line (split_lines (report_template upper hoje r)).
Proof.
  unfold final_report_markdown.
  destruct (report_template_flush_left hoje r) as [rest ->].
  now apply split_lines_dedent.
Qed.

Lemma bullets_join (news : list string) (rest : string) :
  news <> [] ->
  "* " +:+ join (nl +:+ "* ") news +:+ nl +:+ rest
  = String.concat EmptyString (map Spec.bullet news) +:+ rest.
Proof.
  induction news as [|n news IH]; [congruence|]. intros _.
  destruct news as [|n' news'].
  - unfold join, Spec.bullet. cbn [map String.concat]. now rewrite !append_assoc.
  - change (join (nl +:+ "* ") (n :: n' :: news'))
      with (n +:+ (nl +:+ "* ") +:+ join (nl +:+ "* ") (n' :: news')).
    change (String.concat EmptyString (map Spec.bullet (n :: n' :: news')))
      with (Spec.bullet n +:+ EmptyString
            +:+ String.concat EmptyString (map Spec.bullet (n' :: news'))).
    unfold Spec.bullet at 1. rewrite !append_assoc.
    change (EmptyString +:+ String.concat EmptyString (map Spec.bullet (n' :: news')) +:+ rest)
      with (String.concat EmptyString (map Spec.bullet (n' :: news')) +:+ rest).
    rewrite <- IH by discriminate. reflexivity.
Qed.

(** With at least one news item, the f-string is the six sections of the
    specification one after the other. *)
Lemma report_template_document (hoje : date) (r : AnaliseAcionaria) :
  noticias_relevantes r <> [] ->
  report_template upper hoje r = Spec.document upper hoje r.
Proof.
  intros Hnews.
  unfold Spec.document, Spec.title_date_header, Spec.executive_summary, Spec.indicator_table,
    Spec.news_list, Spec.financial_analysis, Spec.disclaimer.
  rewrite !append_assoc. rewrite <- (bullets_join _ _ Hnews).
  unfold report_template. reflexivity.
Qed.

Lemma report_template_no_blank_line (hoje : date) (r : AnaliseAcionaria) :
  Forall (fun s => no_blank_line s = true) (Spec.text_fields upper r) ->
  no_blank_line (report_template upper hoje r) = true.
Proof.
  unfold Spec.text_fields. intros Hall.
  cbn [app] in Hall.
  repeat match goal with
         | H : Forall _ (_ :: _) |- _ => inversion H; clear H; subst
         end.
  unfold report_template.
  repeat (apply no_blank_line_app;
          [first [ reflexivity | assumption | apply isoformat_no_blank_line
                 | apply no_blank_line_join; [reflexivity | assumption] ] |]).
  reflexivity.
Qed.

(** A record whose fields hold no line of blanks, with at least one news
    item, is rendered as the six sections, verbatim. *)
Lemma final_report_markdown_verbatim (hoje : date) (r : AnaliseAcionaria) :
  Forall (fun s => no_blank_line s = true) (Spec.text_fields upper r) ->
  noticias_relevantes r <> [] ->
  final_report_markdown upper hoje r = Spec.document upper hoje r.
Proof.
  intros Hclean Hnews. rewrite <- (report_template_document hoje r Hnews).
  pose proof (report_template_no_blank_line hoje r Hclean) as Hnb.
  unfold final_report_markdown.
  destruct (report_template_flush_left hoje r) as [rest Hrest].
  rewrite Hrest in *. now apply dedent_id.
Qed.

(** The date line follows the title, and holds the date handed to the
    rendering. *)
Lemma final_report_markdown_date_line (hoje : date) (r : AnaliseAcionaria) :
  exists rest,
    split_lines (final_report_markdown upper hoje r)
    = EmptyString
      :: map blank_line (split_lines ("# 📄 Relatório de Análise Acionária: " +:+ empresa r))
      ++ ("**Data da Análise:** " +:+ isoformat hoje) :: rest.
Proof.
  rewrite split_lines_final_report_markdown. unfold report_template.
  set (title := "# 📄 Relatório de Análise Acionária: ").
  set (label := "**Data da Análise:** ").
  match goal with
  | |- context [label +:+ isoformat hoje +:+ nl +:+ ?tail] =>
      exists (map blank_line (split_lines tail)); set (t := tail)
  end.
  change (nl +:+ title +:+ empresa r +:+ nl +:+ label +:+ isoformat hoje +:+ nl +:+ t)
    with (EmptyString +:+ nl +:+ title +:+ empresa r +:+ nl +:+ label +:+ isoformat hoje +:+ nl +:+ t).
  rewrite split_lines_app_nl.
  rewrite <- (append_assoc title (empresa r)).
  rewrite split_lines_app_nl.
  rewrite <- (append_assoc label (isoformat hoje)).
  rewrite split_lines_app_nl.
  rewrite (split_lines_of_inline (label +:+ isoformat hoje))
    by (rewrite inline_app, isoformat_inline; reflexivity).
  change (split_lines EmptyString) with [EmptyString].
  cbn [app]. rewrite !map_cons, !map_app, !map_cons.
  change (blank_line EmptyString) with EmptyString.
  reflexivity.
Qed.

End Rendering.

(** ** The statements of the script *)

Section Statements.

Context {E : Type} (sv : Services E).

Lemma bind_ok {A B} (m : M E A) (k : A -> M E B) (w w' : World E) (a : A) :
  m w = (inr a, w') -> bind m k w = k a w'.
Proof. unfold bind. now intros ->. Qed.

Lemma bind_err {A B} (m : M E A) (k : A -> M E B) (w w' : World E) (e : exn) :
  m w = (inl e, w') -> bind m k w = (inl e, w').
Proof. unfold bind. now intros ->. Qed.

Lemma open_w_ok (path : string) (w : World E) :
  (open_fault sv path (ext w)).1 = None ->
  open_w sv path w
  = (inr tt, set_file path EmptyString (set_ext (open_fault sv path (ext w)).2 w)).
Proof. unfold open_w. destruct (open_fault sv path (ext w)) as [[e|] x]; [discriminate | reflexivity]. Qed.

Lemma open_w_err (path : string) (w : World E) (e : exn) (x : E) :
  open_fault sv path (ext w) = (Some e, x) -> open_w sv path w = (inl e, set_ext x w).
Proof. unfold open_w. now intros ->. Qed.

Lemma write_ok (path data : string) (w : World E) :
  (write_fault sv path data (ext w)).1 = None ->
  write sv path data w
  = (inr tt, set_file path (default EmptyString (fs w !! path) +:+ data)
               (set_ext (write_fault sv path data (ext w)).2 w)).
Proof.
  unfold write. destruct (write_fault sv path data (ext w)) as [[[e n]|] x];
    [discriminate | reflexivity].
Qed.

Lemma read_text_ok (path content : string) (w : World E) :
  (read_fault sv path (ext w)).1 = None -> fs w !! path = Some content ->
  read_text sv path w = (inr content, set_ext (read_fault sv path (ext w)).2 w).
Proof.
  unfold read_text. destruct (read_fault sv path (ext w)) as [[e|] x]; [discriminate|].
  now intros _ ->.
Qed.

Lemma read_text_missing (path : string) (w : World E) :
  (read_fault sv path (ext w)).1 = None -> fs w !! path = None ->
  exists e, is_FileNotFoundError e = true /\
    read_text sv path w = (inl e, set_ext (read_fault sv path (ext w)).2 w).
Proof.
  unfold read_text. destruct (read_fault sv path (ext w)) as [[e|] x]; [discriminate|].
  intros _ ->. eexists. split; [|reflexivity]. reflexivity.
Qed.

Lemma read_text_err (path : string) (w : World E) (e : exn) (x : E) :
  read_fault sv path (ext w) = (Some e, x) -> read_text sv path w = (inl e, set_ext x w).
Proof. unfold read_text. now intros ->. Qed.

End Statements.


(** ** The csv reader on tables of plain rows *)

Module CsvFacts.
Import Text TextFacts Csv.

#[local] Arguments String.append : simpl nomatch.

Lemma needs_quotes_cons (a : ascii) (f : string) :
  needs_quotes (String a f) = false ->
  Ascii.eqb a "," = false /\ Ascii.eqb a DQUOTE = false /\ is_newline a = false
  /\ needs_quotes f = false.
Proof.
  cbn [needs_quotes]. intros H.
  apply orb_false_iff in H as [H Hf]. apply orb_false_iff in H as [H Hn].
  apply orb_false_iff in H as [Hc Hq]. auto.
Qed.

Lemma parse_line_feed (s : string) (p : parser) :
  parse_line s p
  = match feed s p with inl e => inl e | inr p' => parse_process_char None p' end.
Proof.
  revert p. induction s as [|a s IH]; intros p; [reflexivity|].
  cbn [parse_line feed]. destruct (parse_process_char (Some a) p); [reflexivity | apply IH].
Qed.

Lemma parse_line_app (a b : string) (p : parser) :
  parse_line (a +:+ b) p
  = match feed a p with inl e => inl e | inr p' => parse_line b p' end.
Proof.
  revert p. induction a as [|x a IH]; intros p; [reflexivity|].
  change (String x a +:+ b) with (String x (a +:+ b)). cbn [parse_line feed].
  destruct (parse_process_char (Some x) p); [reflexivity | apply IH].
Qed.

(** The characters of a plain field, read inside a field. *)
Lemma feed_in_field (f : string) (cur : string) (n : N) (acc : list string) :
  needs_quotes f = false ->
  (n + code_points f <= field_limit)%N ->
  feed f (Parser IN_FIELD cur n acc)
  = inr (Parser IN_FIELD (cur +:+ f) (n + code_points f) acc).
Proof.
  revert cur n. induction f as [|a f IH]; intros cur n Hplain Hlen.
  - cbn [feed code_points]. now rewrite append_nil_r, N.add_0_r.
  - apply needs_quotes_cons in Hplain as (Hc & Hq & Hn & Hf).
    cbn [feed]. unfold parse_process_char. cbn [st]. rewrite Hn, Hc.
    unfold parse_add_char. cbn [field field_len fields st].
    cbn [code_points] in Hlen |- *.
    destruct (starts_code_point a).
    + destruct (N.leb_spec field_limit n) as [Hle|Hlt]; [lia|].
      rewrite IH by (assumption || lia).
      rewrite append_assoc. do 2 f_equal. lia.
    + rewrite IH by assumption. now rewrite append_assoc.
Qed.

(** The characters of a plain field, read from the start of the field. *)
Lemma feed_field (f : string) (s : state) (acc : list string) :
  needs_quotes f = false ->
  (code_points f <= field_limit)%N ->
  s = START_FIELD \/ (s = START_RECORD /\ f <> EmptyString) ->
  feed f (Parser s EmptyString 0 acc)
  = inr (Parser (match f with EmptyString => s | _ => IN_FIELD end) f (code_points f) acc).
Proof.
  intros Hplain Hlen Hs. destruct f as [|a f]; [reflexivity|].
  apply needs_quotes_cons in Hplain as (Hc & Hq & Hn & Hf).
  assert (Hstep : parse_process_char (Some a) (Parser s EmptyString 0 acc)
                  = inr (Parser IN_FIELD (String a EmptyString)
                           (if starts_code_point a then 1 else 0) acc)).
  { assert (Hsf : start_field (Some a) (Parser s EmptyString 0 acc)
                  = inr (Parser IN_FIELD (String a EmptyString)
                           (if starts_code_point a then 1 else 0) acc)).
    { unfold start_field. rewrite Hn, Hq, Hc. unfold parse_add_char.
      cbn [field field_len fields st]. destruct (starts_code_point a); reflexivity. }
    unfold parse_process_char. cbn [st].
    destruct Hs as [-> | [-> _]]; [exact Hsf | now rewrite Hn]. }
  cbn [feed]. rewrite Hstep. cbn [code_points] in Hlen |- *.
  rewrite feed_in_field by (assumption || destruct (starts_code_point a); lia).
  change (String a EmptyString +:+ f) with (String a f).
  destruct (starts_code_point a); reflexivity.
Qed.

(** One line of a plain row gives the fields of the row. *)
Lemma parse_line_row (fs : list string) (f : string) (s : state) (acc : list string) :
  forallb plain_field (f :: fs) = true ->
  s = START_FIELD \/ (s = START_RECORD /\ (f <> EmptyString \/ fs <> [])) ->
  parse_line (join "," (f :: fs) +:+ nl) (Parser s EmptyString 0 acc)
  = inr (Parser START_RECORD EmptyString 0 (acc ++ f :: fs)).
Proof.
  revert f s acc. induction fs as [|g gs IH]; intros f s acc Hplain Hs.
  - cbn [forallb] in Hplain. rewrite andb_true_r in Hplain.
    apply andb_true_iff in Hplain as [Hq Hlen].
    apply negb_true_iff in Hq. apply N.leb_le in Hlen.
    change (join "," [f]) with f. rewrite parse_line_app.
    rewrite (feed_field f s acc Hq Hlen)
      by (destruct Hs as [->|[-> [Hf|Hf]]]; [now left | now right | congruence]).
    destruct f as [|a f].
    + destruct Hs as [->|[_ [Hf|Hf]]]; [reflexivity | congruence | congruence].
    + reflexivity.
  - cbn [forallb] in Hplain. apply andb_true_iff in Hplain as [Hf Hrest].
    apply andb_true_iff in Hf as [Hq Hlen].
    apply negb_true_iff in Hq. apply N.leb_le in Hlen.
    change (join "," (f :: g :: gs)) with (f +:+ "," +:+ join "," (g :: gs)).
    rewrite !append_assoc, parse_line_app.
    assert (Hs' : s = START_FIELD \/ (s = START_RECORD /\ f <> EmptyString)
                  \/ (s = START_RECORD /\ f = EmptyString)).
    { destruct Hs as [->|[-> _]]; [now left|]. destruct f; [right; right | right; left]; easy. }
    assert (Hcomma : match feed f (Parser s EmptyString 0 acc) with
                     | inl e => inl e
                     | inr p' => parse_line ("," +:+ join "," (g :: gs) +:+ nl) p'
                     end
                     = parse_line (join "," (g :: gs) +:+ nl)
                         (Parser START_FIELD EmptyString 0 (acc ++ [f]))).
    { destruct Hs' as [-> | [[-> Hne] | [-> ->]]].
      - rewrite (feed_field f START_FIELD acc Hq Hlen) by now left.
        destruct f; reflexivity.
      - rewrite (feed_field f START_RECORD acc Hq Hlen) by now right.
        destruct f; [congruence | reflexivity].
      - reflexivity. }
    rewrite Hcomma. rewrite (IH g START_FIELD (acc ++ [f]) Hrest) by now left.
    now rewrite <- app_assoc.
Qed.

Lemma plain_row_inv (row : list string) :
  plain_row row = true ->
  exists f fs, row = f :: fs /\ forallb plain_field (f :: fs) = true
               /\ (f <> EmptyString \/ fs <> []).
Proof.
  unfold plain_row. intros [Hall Hshape]%andb_true_iff.
  destruct row as [|f fs]; [discriminate|]. exists f, fs. split; [reflexivity|].
  split; [exact Hall|]. destruct f; [|now left]. destruct fs; [discriminate | now right].
Qed.

(** The reader gives the rows of a table of plain rows back. *)
Lemma reader_plain_rows (rows : list (list string)) :
  forallb plain_row rows = true ->
  reader (map (fun row => join "," row +:+ nl) rows) = inr rows.
Proof.
  unfold reader. induction rows as [|row rows IH]; [reflexivity|].
  cbn [forallb map]. intros [Hrow Hrows]%andb_true_iff.
  destruct (plain_row_inv row Hrow) as (f & fs & -> & Hplain & Hshape).
  cbn [reader_from]. unfold parse_reset at 1.
  rewrite (parse_line_row fs f START_RECORD [] Hplain) by (right; split; [reflexivity | exact Hshape]).
  cbn [at_record_start st fields app]. now rewrite (IH Hrows).
Qed.

(** *** The lines of the text of a table *)

Lemma no_newline_app (a b : string) : no_newline (a +:+ b) = no_newline a && no_newline b.
Proof.
  induction a as [|x a IH]; [reflexivity|].
  change (String x a +:+ b) with (String x (a +:+ b)). cbn [no_newline].
  now rewrite IH, andb_assoc.
Qed.

Lemma plain_field_no_newline (f : string) : needs_quotes f = false -> no_newline f = true.
Proof.
  induction f as [|a f IH]; [reflexivity|]. intros H.
  apply needs_quotes_cons in H as (_ & _ & Hn & Hf). cbn [no_newline]. now rewrite Hn, IH.
Qed.

Lemma plain_row_no_newline (row : list string) :
  forallb plain_field row = true -> no_newline (join "," row) = true.
Proof.
  induction row as [|f fs IH]; [reflexivity|]. cbn [forallb].
  intros [Hf Hfs]%andb_true_iff. apply andb_true_iff in Hf as [Hq _].
  apply negb_true_iff in Hq. destruct fs as [|g gs].
  - now apply plain_field_no_newline.
  - change (join "," (f :: g :: gs)) with (f +:+ "," +:+ join "," (g :: gs)).
    rewrite !no_newline_app, (plain_field_no_newline f Hq), (IH Hfs). reflexivity.
Qed.

Lemma text_lines_no_newline (s cur rest : string) :
  no_newline s = true ->
  text_lines false cur (s +:+ rest) = text_lines false (cur +:+ s) rest.
Proof.
  revert cur. induction s as [|a s IH]; intros cur Hs.
  - now rewrite append_nil_r.
  - cbn [no_newline] in Hs. apply andb_true_iff in Hs as [Ha Hs].
    apply negb_true_iff in Ha. unfold is_newline in Ha.
    apply orb_false_iff in Ha as [Hlf Hcr].
    change (String a s +:+ rest) with (String a (s +:+ rest)).
    cbn [text_lines]. rewrite Hlf, Hcr, (IH _ Hs), append_assoc. reflexivity.
Qed.

Lemma text_lines_eol (eol cur rest : string) :
  eol = nl \/ eol = String CR nl ->
  text_lines false cur (eol +:+ rest) = (cur +:+ nl) :: text_lines false EmptyString rest.
Proof. intros [-> | ->]; reflexivity. Qed.

Lemma file_lines_table_text (eol : string) (rows : list (list string)) :
  eol = nl \/ eol = String CR nl ->
  forallb plain_row rows = true ->
  file_lines (table_text eol rows) = map (fun row => join "," row +:+ nl) rows.
Proof.
  intros Heol. unfold file_lines. induction rows as [|row rows IH]; [reflexivity|].
  cbn [forallb table_text fold_right map]. intros [Hrow Hrows]%andb_true_iff.
  apply andb_true_iff in Hrow as [Hplain _].
  rewrite text_lines_no_newline by now apply plain_row_no_newline.
  rewrite (text_lines_eol eol _ _ Heol). f_equal. now apply IH.
Qed.

(** A table of plain rows is read back as it was written. *)
Lemma reader_table_text (eol : string) (rows : list (list string)) :
  eol = nl \/ eol = String CR nl ->
  forallb plain_row rows = true ->
  reader (file_lines (table_text eol rows)) = inr rows.
Proof.
  intros Heol Hrows. rewrite (file_lines_table_text eol rows Heol Hrows).
  now apply reader_plain_rows.
Qed.

Lemma plain_rows_not_blank (rows : list (list string)) :
  forallb plain_row rows = true -> Forall (fun r => r <> []) rows.
Proof.
  induction rows as [|row rows IH]; [constructor|]. cbn [forallb].
  intros [Hrow Hrows]%andb_true_iff. constructor; [|now apply IH].
  destruct (plain_row_inv row Hrow) as (f & fs & -> & _). discriminate.
Qed.

End CsvFacts.

(** ** The columns of the rows of a DictReader *)

Lemma zip_dict_has_key (ks vs : list string) (d : gmap string (option string)) (k : string) :
  is_Some (Csv.zip_dict ks vs d !! k) <-> is_Some (d !! k) \/ In k (firstn (length vs) ks).
Proof.
  revert vs d. induction ks as [|k0 ks IH]; intros vs d.
  - cbn [Csv.zip_dict]. rewrite firstn_nil. cbn [In]. tauto.
  - destruct vs as [|v vs].
    + cbn [Csv.zip_dict length firstn In]. tauto.
    + cbn [Csv.zip_dict length firstn In]. rewrite IH.
      rewrite lookup_insert_is_Some. destruct (decide (k0 = k)) as [->|Hne]; [tauto|].
      split; [intros [[?|[_ ?]]|?] | intros [?|[?|?]]]; tauto.
Qed.

Lemma fill_none_has_key (ks : list string) (d : gmap string (option string)) (k : string) :
  is_Some (fold_left (fun d k => <[k := None]> d) ks d !! k) <-> is_Some (d !! k) \/ In k ks.
Proof.
  revert d. induction ks as [|k0 ks IH]; intros d.
  - cbn [fold_left In]. tauto.
  - cbn [fold_left In]. rewrite IH, lookup_insert_is_Some.
    destruct (decide (k0 = k)) as [->|Hne]; [tauto|].
    split; [intros [[?|[_ ?]]|?] | intros [?|[?|?]]]; tauto.
Qed.

(** The dicts of a DictReader have the columns of the header, all of them
    and no other: a row lacks a column when the header does. *)
Lemma row_dict_has_column (header row : list string) (k : string) :
  is_Some (named (Csv.row_dict header row) !! k) <-> In k header.
Proof.
  unfold Csv.row_dict.
  destruct (Nat.ltb_spec (length header) (length row)) as [Hlt|Hge].
  - cbn [named]. rewrite zip_dict_has_key, lookup_empty, firstn_all2 by lia.
    split; [intros [[? [=]]|?]; assumption | now right].
  - destruct (Nat.ltb_spec (length row) (length header)) as [Hlt|Hge'].
    + cbn [named]. rewrite fill_none_has_key, zip_dict_has_key, lookup_empty.
      rewrite <- (firstn_skipn (length row) header) at 3. rewrite in_app_iff.
      split; [intros [[[? [=]]|?]|?]; tauto | intros [?|?]; tauto].
    + cbn [named]. rewrite zip_dict_has_key, lookup_empty, firstn_all2 by lia.
      split; [intros [[? [=]]|?]; assumption | now right].
Qed.

(** ** Reading the company list *)

Section Loader.

Context {E : Type} (sv : Services E).

Lemma header_fields :
  Csv.dict_to_list fieldnames (Csv.header_dict fieldnames) = inr fieldnames.
Proof. vm_compute. reflexivity. Qed.

Lemma netflix_fields :
  Csv.dict_to_list fieldnames
    (dict_of [("Empresa", "Netflix"); ("Ticker", "NFLX"); ("Relatorio_URL", "N/A - Sem URL")])
  = inr ["Netflix"; "NFLX"; "N/A - Sem URL"].
Proof. vm_compute. reflexivity. Qed.

Lemma tesla_fields :
  Csv.dict_to_list fieldnames
    (dict_of [("Empresa", "Tesla"); ("Ticker", "TSLA"); ("Relatorio_URL", "N/A - Sem URL")])
  = inr ["Tesla"; "TSLA"; "N/A - Sem URL"].
Proof. vm_compute. reflexivity. Qed.

Lemma DictWriter_writerow_ok (path : string) (row : csv_row) (fields : list string)
    (w : World E) :
  Csv.dict_to_list fieldnames row = inr fields ->
  (write_fault sv path (Csv.writer_row fields) (ext w)).1 = None ->
  DictWriter_writerow sv path row w
  = (inr tt, set_file path (default EmptyString (fs w !! path) +:+ Csv.writer_row fields)
               (set_ext (write_fault sv path (Csv.writer_row fields) (ext w)).2 w)).
Proof.
  intros Hfields Hw. unfold DictWriter_writerow. rewrite Hfields.
  unfold lift, bind, ret. now apply write_ok.
Qed.

(** A missing file is created with the default table, and the default rows
    are returned. *)
Lemma loader_initializes (path : string) (w : World E) :
  no_fault sv path -> fs w !! path = None ->
  exists w1,
    ler_lista_empresas_csv sv path w = (inr exemplo_data, w1)
    /\ fs w1 = <[path := Spec.default_table]> (fs w)
    /\ slept w1 = slept w.
Proof.
  intros (Hread & Hopen & Hwrite) Hmissing.
  destruct (read_text_missing sv path w (Hread _) Hmissing) as (e & He & Hr).
  unfold ler_lista_empresas_csv, try_except.
  rewrite (bind_err _ _ _ _ _ Hr), He.
  erewrite bind_ok by reflexivity.
  erewrite bind_ok by (apply open_w_ok, Hopen).
  erewrite bind_ok by (apply DictWriter_writerow_ok; [apply header_fields | apply Hwrite]).
  unfold exemplo_data at 1. cbn [for_each].
  erewrite bind_ok
    by (erewrite bind_ok by (apply DictWriter_writerow_ok; [exact netflix_fields | apply Hwrite]);
        erewrite bind_ok by (apply DictWriter_writerow_ok; [exact tesla_fields | apply Hwrite]);
        reflexivity).
  eexists. split; [reflexivity|]. split; [|reflexivity].
  cbn [fs set_file set_ext print].
  rewrite !lookup_insert_eq. cbn [default]. rewrite !insert_insert_eq.
  reflexivity.
Qed.

(** A file that is there is parsed, and every dict of the DictReader is
    returned, in its order; no file changes. *)
Lemma loader_reads (path content : string) (rows : list (list string)) (w : World E) :
  (forall x, (read_fault sv path x).1 = None) ->
  fs w !! path = Some content ->
  Csv.reader (Csv.file_lines content) = inr rows ->
  exists w',
    ler_lista_empresas_csv sv path w = (inr (Csv.DictReader rows), w')
    /\ fs w' = fs w /\ slept w' = slept w.
Proof.
  intros Hread Hfile Hrows.
  unfold ler_lista_empresas_csv, try_except.
  erewrite bind_ok by (apply read_text_ok; [apply Hread | exact Hfile]).
  rewrite Hrows. unfold lift. erewrite bind_ok by reflexivity.
  erewrite bind_ok by reflexivity.
  eexists. split; [reflexivity|]. split; reflexivity.
Qed.

Lemma DictReader_no_blank_row (header : list string) (rows : list (list string)) :
  Forall (fun r => r <> []) rows ->
  Csv.DictReader (header :: rows) = map (Csv.row_dict header) rows.
Proof.
  intros Hall. unfold Csv.DictReader. f_equal.
  induction Hall as [|r rows Hr Hall IH]; [reflexivity|].
  cbn [List.filter]. destruct r; [congruence|]. cbn [Csv.is_blank_row negb]. now rewrite IH.
Qed.

Lemma default_table_rows :
  Csv.reader (Csv.file_lines Spec.default_table)
  = inr [fieldnames; ["Netflix"; "NFLX"; "N/A - Sem URL"]; ["Tesla"; "TSLA"; "N/A - Sem URL"]].
Proof. vm_compute. reflexivity. Qed.

Lemma default_table_dicts :
  Csv.DictReader
    [fieldnames; ["Netflix"; "NFLX"; "N/A - Sem URL"]; ["Tesla"; "TSLA"; "N/A - Sem URL"]]
  = exemplo_data.
Proof. vm_compute. reflexivity. Qed.

(** C6. When the operating system raises no error on the path: a missing
    file is created with the header and exactly the two default rows, and
    these two records are returned; loading the file again returns the same
    two records and changes no file; a file whose text is a header line and
    N lines of plain fields joined by commas, each line ended by LF or CR LF,
    yields the N records, one per line, in the order of the file; and so does
    every file that csv.reader parses into a header and N rows, none blank
    (quoted fields included). *)
Theorem ler_lista_empresas_csv_read_or_initialize (path : string)
    (Hok : no_fault sv path) :
  (forall w, fs w !! path = None ->
     exists w1 w2,
       ler_lista_empresas_csv sv path w = (inr exemplo_data, w1)
       /\ fs w1 = <[path := Spec.default_table]> (fs w)
       /\ Csv.reader (Csv.file_lines Spec.default_table)
          = inr [fieldnames; ["Netflix"; "NFLX"; "N/A - Sem URL"];
                 ["Tesla"; "TSLA"; "N/A - Sem URL"]]
       /\ length exemplo_data = 2
       /\ ler_lista_empresas_csv sv path w1 = (inr exemplo_data, w2)
       /\ fs w2 = fs w1)
  /\ (forall w eol header rows,
        eol = nl \/ eol = String CR nl ->
        Csv.plain_row header = true ->
        forallb Csv.plain_row rows = true ->
        fs w !! path = Some (Csv.table_text eol (header :: rows)) ->
        exists w',
          ler_lista_empresas_csv sv path w = (inr (map (Csv.row_dict header) rows), w')
          /\ length (map (Csv.row_dict header) rows) = length rows
          /\ fs w' = fs w)
  /\ (forall w content header rows,
        fs w !! path = Some content ->
        Csv.reader (Csv.file_lines content) = inr (header :: rows) ->
        Forall (fun r => r <> []) rows ->
        exists w',
          ler_lista_empresas_csv sv path w = (inr (map (Csv.row_dict header) rows), w')
          /\ length (map (Csv.row_dict header) rows) = length rows
          /\ fs w' = fs w).
Proof.
  assert (Hparsed : forall w content header rows,
            fs w !! path = Some content ->
            Csv.reader (Csv.file_lines content) = inr (header :: rows) ->
            Forall (fun r => r <> []) rows ->
            exists w',
              ler_lista_empresas_csv sv path w = (inr (map (Csv.row_dict header) rows), w')
              /\ length (map (Csv.row_dict header) rows) = length rows
              /\ fs w' = fs w).
  { intros w content header rows Hfile Hrows Hnb.
    destruct (loader_reads path _ _ w (proj1 Hok) Hfile Hrows) as (w' & Hload & Hfs & _).
    rewrite (DictReader_no_blank_row _ _ Hnb) in Hload.
    exists w'. exact (conj Hload (conj (length_map _ _) Hfs)). }
  split; [|split; [|exact Hparsed]].
  - intros w Hmissing.
    destruct (loader_initializes path w Hok Hmissing) as (w1 & Hload & Hfs & _).
    assert (Hfile : fs w1 !! path = Some Spec.default_table)
      by (rewrite Hfs; apply lookup_insert_eq).
    destruct (loader_reads path _ _ w1 (proj1 Hok) Hfile default_table_rows)
      as (w2 & Hagain & Hfs2 & _).
    rewrite default_table_dicts in Hagain.
    exists w1, w2.
    exact (conj Hload (conj Hfs (conj default_table_rows (conj eq_refl (conj Hagain Hfs2))))).
  - intros w eol header rows Heol Hheader Hplain Hfile.
    apply (Hparsed w _ header rows Hfile).
    + apply CsvFacts.reader_table_text; [exact Heol|].
      cbn [forallb]. now rewrite Hheader, Hplain.
    + now apply CsvFacts.plain_rows_not_blank.
Qed.

(** C8. An error of opening or reading the input file other than
    FileNotFoundError leaves the loader as it was raised; the script ends on
    it with nothing printed, no file touched and no company processed. *)
Theorem ler_lista_empresas_csv_propagates (upper : string -> string) (path : string)
    (w : World E) (e : exn) (x : E) :
  read_fault sv path (ext w) = (Some e, x) ->
  is_FileNotFoundError e = false ->
  ler_lista_empresas_csv sv path w = (inl e, set_ext x w)
  /\ (path = "dados_empresas.csv" -> main sv upper w = (inl e, set_ext x w)).
Proof.
  intros Hfault Hkind.
  assert (Hload : ler_lista_empresas_csv sv path w = (inl e, set_ext x w)).
  { unfold ler_lista_empresas_csv, try_except.
    rewrite (bind_err _ _ _ _ _ (read_text_err sv path w e x Hfault)), Hkind. reflexivity. }
  split; [exact Hload|]. intros ->. unfold main. now rewrite (bind_err _ _ _ _ _ Hload).
Qed.

End Loader.

Lemma no_fault_quiet (path : string) : no_fault Scenario.quiet path.
Proof. repeat split. Qed.

(** The loader on an empty directory, on a plain table of two companies,
    and on a table of three companies with a quoted field. *)
Lemma ler_lista_empresas_csv_read_or_initialize_witness :
  (exists w1 w2,
     ler_lista_empresas_csv Scenario.quiet "dados_empresas.csv" (Scenario.empty_world tt)
     = (inr exemplo_data, w1)
     /\ fs w1 = <["dados_empresas.csv" := Spec.default_table]> ∅
     /\ ler_lista_empresas_csv Scenario.quiet "dados_empresas.csv" w1 = (inr exemplo_data, w2)
     /\ fs w2 = fs w1)
  /\ (exists w',
        ler_lista_empresas_csv Scenario.quiet "dados_empresas.csv"
          (mkWorld {["dados_empresas.csv"
                     := Csv.table_text nl
                          [fieldnames; ["Apple"; "AAPL"; "https://ir.example/AAPL"];
                           ["Tesla"; "TSLA"; EmptyString]]]} [] 0 None tt)
        = (inr (map (Csv.row_dict fieldnames)
                  [["Apple"; "AAPL"; "https://ir.example/AAPL"];
                   ["Tesla"; "TSLA"; EmptyString]]), w'))
  /\ (exists w',
        ler_lista_empresas_csv Scenario.quiet "dados_empresas.csv"
          (mkWorld {["dados_empresas.csv" := Scenario.three_rows_csv]} [] 0 None tt)
        = (inr (map (Csv.row_dict fieldnames)
                  [["Netflix"; "NFLX"; "https://ir.example/NFLX"];
                   ["Alphabet, Inc."; "GOOG"; "N/A"];
                   ["Tesla"; "TSLA"; "Sem URL"]]), w')).
Proof.
  destruct (ler_lista_empresas_csv_read_or_initialize Scenario.quiet "dados_empresas.csv"
              (no_fault_quiet _)) as (Hinit & Hplain & Hread).
  split; [|split].
  - destruct (Hinit (Scenario.empty_world tt) eq_refl)
      as (w1 & w2 & H1 & H2 & _ & _ & H3 & H4).
    exists w1, w2. exact (conj H1 (conj H2 (conj H3 H4))).
  - destruct (Hplain (mkWorld {["dados_empresas.csv"
                                := Csv.table_text nl
                                     [fieldnames; ["Apple"; "AAPL"; "https://ir.example/AAPL"];
                                      ["Tesla"; "TSLA"; EmptyString]]]} [] 0 None tt)
                nl fieldnames
                [["Apple"; "AAPL"; "https://ir.example/AAPL"]; ["Tesla"; "TSLA"; EmptyString]])
      as (w' & Hload & _).
    + left. reflexivity.
    + vm_compute. reflexivity.
    + vm_compute. reflexivity.
    + vm_compute. reflexivity.
    + exists w'. exact Hload.
  - destruct (Hread (mkWorld {["dados_empresas.csv" := Scenario.three_rows_csv]} [] 0 None tt)
                Scenario.three_rows_csv fieldnames
                [["Netflix"; "NFLX"; "https://ir.example/NFLX"];
                 ["Alphabet, Inc."; "GOOG"; "N/A"];
                 ["Tesla"; "TSLA"; "Sem URL"]])
      as (w' & Hload & _).
    + vm_compute. reflexivity.
    + vm_compute. reflexivity.
    + repeat constructor; discriminate.
    + exists w'. exact Hload.
Defined.

(** The loader when the table may not be read. *)
Lemma ler_lista_empresas_csv_propagates_witness :
  ler_lista_empresas_csv Scenario.list_unreadable "dados_empresas.csv"
    (mkWorld {["dados_empresas.csv" := Scenario.three_rows_csv]} [] 0 None tt)
  = (inl Scenario.denied,
     mkWorld {["dados_empresas.csv" := Scenario.three_rows_csv]} [] 0 None tt)
  /\ main Scenario.list_unreadable Scenario.ascii_upper
       (mkWorld {["dados_empresas.csv" := Scenario.three_rows_csv]} [] 0 None tt)
     = (inl Scenario.denied,
        mkWorld {["dados_empresas.csv" := Scenario.three_rows_csv]} [] 0 None tt).
Proof.
  destruct (ler_lista_empresas_csv_propagates Scenario.list_unreadable Scenario.ascii_upper
              "dados_empresas.csv"
              (mkWorld {["dados_empresas.csv" := Scenario.three_rows_csv]} [] 0 None tt)
              Scenario.denied tt eq_refl eq_refl) as [Hload Hmain].
  split; [exact Hload | exact (Hmain eq_refl)].
Defined.

(** C10. The report URL of each default row, in the list the loader returns
    and in the table it writes, holds the no-URL markers: the stub answers
    it with the fixed no-data sentence. *)
Theorem default_rows_have_no_report_url :
  Forall (fun row => exists url,
            named row !! "Relatorio_URL" = Some (Some url)
            /\ contains "N/A" url = true
            /\ consult_document_rag url = NO_DATA) exemplo_data
  /\ (exists rows,
        Csv.reader (Csv.file_lines Spec.default_table) = inr rows
        /\ Forall (fun row => exists url,
                     named row !! "Relatorio_URL" = Some (Some url)
                     /\ contains "N/A" url = true
                     /\ consult_document_rag url = NO_DATA) (Csv.DictReader rows)).
Proof.
  assert (Hdefault : Forall (fun row => exists url,
            named row !! "Relatorio_URL" = Some (Some url)
            /\ contains "N/A" url = true
            /\ consult_document_rag url = NO_DATA) exemplo_data).
  { repeat constructor; exists "N/A - Sem URL"; repeat split; vm_compute; reflexivity. }
  split; [exact Hdefault|].
  eexists. split; [apply default_table_rows|]. now rewrite default_table_dicts.
Qed.

(** ** The driver loop *)

Section Driver.

Context {E : Type} (sv : Services E) (upper : string -> string).

(** One iteration on a row that has the three columns. *)
Lemma iteration_unfold (row : csv_row) (w : World E) (nome ticker url : option string) :
  named row !! "Empresa" = Some nome ->
  named row !! "Ticker" = Some ticker ->
  named row !! "Relatorio_URL" = Some url ->
  iteration sv upper row w
  = match research sv (pergunta_pesquisa (company_label nome ticker) (str_of_value url)) (ext w) with
    | (inl e, x) => (inr tt, research_failed (company_label nome ticker) e x w)
    | (inr fatos, x) =>
        match gerar_e_salvar sv upper (company_label nome ticker) fatos
                (researched (company_label nome ticker) fatos x w) with
        | (inl e, w2) =>
            (inr tt, paced sv (logged (report_error_line (company_label nome ticker) e) w2))
        | (inr _, w2) => (inr tt, paced sv w2)
        end
    end.
Proof.
  intros H1 H2 H3. unfold iteration, getitem. rewrite H1, H2, H3.
  cbv beta iota delta [bind ret print call set_ext set_fatos_consolidados try_except sleep].
  cbn [fs stdout slept fatos_consolidados ext].
  destruct (research sv _ (ext w)) as [[e|fatos] x].
  - cbn [fs stdout slept fatos_consolidados ext].
    unfold research_failed, banner. rewrite <- !app_assoc. reflexivity.
  - cbn [fs stdout slept fatos_consolidados ext].
    unfold researched, banner. rewrite <- !app_assoc. cbn [app].
    fold (company_label nome ticker).
    destruct (gerar_e_salvar sv upper _ fatos _) as [[e|[]] w2]; reflexivity.
Qed.

(** The three steps of the report: compile, open, write. *)
Lemma gerar_e_salvar_unfold (label fatos : string) (w : World E) :
  gerar_e_salvar sv upper label fatos w
  = match relator sv label fatos (ext w) with
    | (inl e, x) => (inl e, set_ext x w)
    | (inr r, x) =>
        match open_fault sv (report_file_name label) x with
        | (Some e, x') => (inl e, set_ext x' w)
        | (None, x') =>
            match write_fault sv (report_file_name label)
                    (final_report_markdown upper (today sv x) r) x' with
            | (Some (e, n), x'') =>
                (inl e, set_file (report_file_name label)
                          (String.substring 0 n (final_report_markdown upper (today sv x) r))
                          (set_ext x'' w))
            | (None, x'') =>
                (inr tt, logged (report_saved_line (report_file_name label))
                           (set_file (report_file_name label)
                              (final_report_markdown upper (today sv x) r) (set_ext x'' w)))
            end
        end
    end.
Proof.
  unfold gerar_e_salvar.
  cbv beta iota delta [bind ret print call open_w write set_ext set_file logged].
  cbn [fs stdout slept fatos_consolidados ext].
  destruct (relator sv label fatos (ext w)) as [[e|r] x]; [reflexivity|].
  cbn [fs stdout slept fatos_consolidados ext].
  destruct (open_fault sv (report_file_name label) x) as [[e|] x']; [reflexivity|].
  cbn [fs stdout slept fatos_consolidados ext].
  destruct (write_fault sv (report_file_name label) _ x') as [[[e n]|] x''];
    cbn [fs stdout slept fatos_consolidados ext];
    rewrite lookup_insert_eq, insert_insert_eq; reflexivity.
Qed.

Lemma driver_loop_cons (row : csv_row) (rest : list csv_row) (w : World E) :
  driver_loop sv upper (row :: rest) w
  = match iteration sv upper row w with
    | (inl e, w') => (inl e, w')
    | (inr _, w') => driver_loop sv upper rest w'
    end.
Proof. reflexivity. Qed.

Lemma driver_loop_app (pre post : list csv_row) (w : World E) :
  driver_loop sv upper (pre ++ post) w
  = match driver_loop sv upper pre w with
    | (inl e, w') => (inl e, w')
    | (inr _, w') => driver_loop sv upper post w'
    end.
Proof.
  revert w. induction pre as [|row pre IH]; intros w; [reflexivity|].
  change ((row :: pre) ++ post) with (row :: pre ++ post).
  rewrite !driver_loop_cons. destruct (iteration sv upper row w) as [[e|[]] w']; [reflexivity|].
  apply IH.
Qed.

(** Both handlers catch every exception: an iteration on a row that has
    the three columns ends normally. *)
Lemma iteration_returns (row : csv_row) (w : World E) :
  has_columns row -> exists w', iteration sv upper row w = (inr tt, w').
Proof.
  intros ([nome H1] & [ticker H2] & [url H3]).
  rewrite (iteration_unfold row w nome ticker url H1 H2 H3).
  destruct (research sv _ (ext w)) as [[e|fatos] x]; [eauto|].
  destruct (gerar_e_salvar sv upper _ fatos _) as [[e|[]] w2]; eauto.
Qed.

Lemma driver_loop_returns (rows : list csv_row) (w : World E) :
  Forall has_columns rows -> exists w', driver_loop sv upper rows w = (inr tt, w').
Proof.
  intros Hall. revert w. induction Hall as [|row rows Hrow Hall IH]; intros w.
  - exists w. reflexivity.
  - rewrite driver_loop_cons. destruct (iteration_returns row w Hrow) as [w1 ->]. apply IH.
Qed.

(** The pacing delay runs at the end of an iteration whose research
    answered, whatever becomes of the report, and is skipped by the
    [continue] of the research handler. *)
Lemma research_answer_sleeps (row : csv_row) (w : World E) (nome ticker url : option string)
    (fatos : string) (x : E) :
  named row !! "Empresa" = Some nome ->
  named row !! "Ticker" = Some ticker ->
  named row !! "Relatorio_URL" = Some url ->
  research sv (pergunta_pesquisa (company_label nome ticker) (str_of_value url)) (ext w)
  = (inr fatos, x) ->
  slept (iteration sv upper row w).2 = slept w + DELAY_SECONDS.
Proof.
  intros H1 H2 H3 Hres.
  rewrite (iteration_unfold row w nome ticker url H1 H2 H3), Hres.
  rewrite gerar_e_salvar_unfold. cbn [ext researched].
  destruct (relator sv _ fatos x) as [[e|r] x1]; [reflexivity|].
  destruct (open_fault sv _ x1) as [[e|] x2]; [reflexivity|].
  destruct (write_fault sv _ _ x2) as [[[e n]|] x3]; reflexivity.
Qed.

Lemma research_failure_sleeps_nothing (row : csv_row) (w : World E)
    (nome ticker url : option string) (e : exn) (x : E) :
  named row !! "Empresa" = Some nome ->
  named row !! "Ticker" = Some ticker ->
  named row !! "Relatorio_URL" = Some url ->
  research sv (pergunta_pesquisa (company_label nome ticker) (str_of_value url)) (ext w)
  = (inl e, x) ->
  slept (iteration sv upper row w).2 = slept w.
Proof.
  intros H1 H2 H3 Hres.
  now rewrite (iteration_unfold row w nome ticker url H1 H2 H3), Hres.
Qed.

(** A row without one of the three columns: the first access that misses
    raises KeyError, before anything is printed. *)
Lemma iteration_missing_column (row : csv_row) (w : World E) (key : string) :
  In key ["Empresa"; "Ticker"; "Relatorio_URL"] -> named row !! key = None ->
  exists k, In k ["Empresa"; "Ticker"; "Relatorio_URL"] /\ named row !! k = None
            /\ iteration sv upper row w = (inl (Exn KeyError ("'" +:+ k +:+ "'")), w).
Proof.
  intros Hin Hmiss. unfold iteration, getitem.
  destruct (named row !! "Empresa") as [nome|] eqn:H1;
    [|exists "Empresa"; split; [now left | split; [exact H1 | reflexivity]]].
  destruct (named row !! "Ticker") as [ticker|] eqn:H2;
    [|exists "Ticker"; split; [now right; left | split; [exact H2 | reflexivity]]].
  destruct (named row !! "Relatorio_URL") as [url|] eqn:H3;
    [|exists "Relatorio_URL"; split; [now right; right; left | split; [exact H3 | reflexivity]]].
  destruct Hin as [<-|[<-|[<-|[]]]]; congruence.
Qed.

End Driver.

(** ** Names without a path separator *)

Section Paths.
Import Text TextFacts ReportFacts.

#[local] Arguments String.append : simpl nomatch.

Lemma has_char_app (c : ascii) (a b : string) :
  has_char c (a +:+ b) = has_char c a || has_char c b.
Proof.
  induction a as [|x a IH]; [reflexivity|].
  change (String x a +:+ b) with (String x (a +:+ b)). cbn [has_char].
  now rewrite IH, orb_assoc.
Qed.

Lemma has_char_file_name_clean (c : ascii) (label : string) :
  c <> "_"%char -> has_char c label = false -> has_char c (file_name_clean label) = false.
Proof.
  intros Hc. rewrite file_name_clean_one_pass.
  induction label as [|a label IH]; [reflexivity|].
  cbn [has_char Spec.sanitized_label]. intros [Ha Hrest]%orb_false_iff.
  rewrite has_char_app, (IH Hrest), orb_false_r. unfold Spec.sanitize_char.
  destruct (Ascii.eqb a " ").
  - cbn [has_char]. rewrite orb_false_r. apply Ascii.eqb_neq. congruence.
  - destruct (Ascii.eqb a "(" || Ascii.eqb a ")"); [reflexivity|].
    cbn [has_char]. now rewrite Ha.
Qed.

(** The cleaning of a label brings no path separator in: the report of a
    label without one is an entry of the current directory. *)
Lemma plain_report_file_name (label : string) :
  plain_name label = true -> plain_name (report_file_name label) = true.
Proof.
  unfold plain_name. intros [H1 H2]%andb_true_iff.
  apply negb_true_iff in H1, H2. unfold report_file_name.
  rewrite !has_char_app.
  rewrite (has_char_file_name_clean "/" label) by (discriminate || assumption).
  rewrite (has_char_file_name_clean BACKSLASH label) by (discriminate || assumption).
  reflexivity.
Qed.

End Paths.

Section DriverClaims.
Import TextFacts.

#[local] Arguments String.append : simpl nomatch.

Context {E : Type} (sv : Services E) (upper : string -> string).

(** How the report step can raise: in the compilation, in the opening of
    the file, or in the write after the file was opened. *)
Lemma gerar_e_salvar_raises (label fatos : string) (w w2 : World E) (e : exn) :
  gerar_e_salvar sv upper label fatos w = (inl e, w2) ->
  (exists x, relator sv label fatos (ext w) = (inl e, x) /\ w2 = set_ext x w)
  \/ (exists r x x', relator sv label fatos (ext w) = (inr r, x)
        /\ open_fault sv (report_file_name label) x = (Some e, x') /\ w2 = set_ext x' w)
  \/ (exists r x x' x'' n, relator sv label fatos (ext w) = (inr r, x)
        /\ open_fault sv (report_file_name label) x = (None, x')
        /\ write_fault sv (report_file_name label)
             (final_report_markdown upper (today sv x) r) x' = (Some (e, n), x'')
        /\ w2 = set_file (report_file_name label)
                  (String.substring 0 n (final_report_markdown upper (today sv x) r))
                  (set_ext x'' w)).
Proof.
  rewrite gerar_e_salvar_unfold.
  destruct (relator sv label fatos (ext w)) as [[e1|r] x] eqn:Hrel.
  - intros [= <- <-]. left. eauto.
  - destruct (open_fault sv (report_file_name label) x) as [[e2|] x'] eqn:Hopen.
    + intros [= <- <-]. right; left. eauto 6.
    + destruct (write_fault sv (report_file_name label) _ x') as [[[e3 n]|] x''] eqn:Hwr.
      * intros [= <- <-]. right; right. eauto 10.
      * discriminate.
Qed.

(** How the report step ends normally: the file holds the report. *)
Lemma gerar_e_salvar_saves (label fatos : string) (w w' : World E) :
  gerar_e_salvar sv upper label fatos w = (inr tt, w') ->
  exists r x,
    relator sv label fatos (ext w) = (inr r, x)
    /\ fs w' = <[report_file_name label := final_report_markdown upper (today sv x) r]> (fs w).
Proof.
  rewrite gerar_e_salvar_unfold.
  destruct (relator sv label fatos (ext w)) as [[e1|r] x] eqn:Hrel; [discriminate|].
  destruct (open_fault sv (report_file_name label) x) as [[e2|] x']; [discriminate|].
  destruct (write_fault sv (report_file_name label) _ x') as [[[e3 n]|] x'']; [discriminate|].
  intros [= <-]. exists r, x. split; reflexivity.
Qed.

(** C4. When the research of a company raises, the placeholder that names
    the company and the error is stored in fatos_consolidados, no file is
    created or changed, and the loop goes on with the next company. *)
Theorem research_failure_skips_company (row : csv_row) (rest : list csv_row) (w : World E)
    (nome ticker url : option string) (e : exn) (x : E) :
  named row !! "Empresa" = Some nome ->
  named row !! "Ticker" = Some ticker ->
  named row !! "Relatorio_URL" = Some url ->
  research sv (pergunta_pesquisa (company_label nome ticker) (str_of_value url)) (ext w)
  = (inl e, x) ->
  exists w',
    iteration sv upper row w = (inr tt, w')
    /\ (exists placeholder,
          fatos_consolidados w' = Some placeholder
          /\ contains (company_label nome ticker) placeholder = true
          /\ contains (exn_text e) placeholder = true)
    /\ fs w' = fs w
    /\ driver_loop sv upper (row :: rest) w = driver_loop sv upper rest w'.
Proof.
  intros H1 H2 H3 Hres.
  exists (research_failed (company_label nome ticker) e x w).
  assert (Hit : iteration sv upper row w
                = (inr tt, research_failed (company_label nome ticker) e x w))
    by (rewrite (iteration_unfold sv upper row w nome ticker url H1 H2 H3), Hres; reflexivity).
  split; [exact Hit|]. split; [|split; [reflexivity|]].
  - exists (research_placeholder (company_label nome ticker) e).
    split; [reflexivity|]. unfold research_placeholder. split.
    + apply contains_intro.
    + rewrite <- !append_assoc. apply contains_suffix.
  - rewrite driver_loop_cons, Hit. reflexivity.
Qed.

(** C5, as the script has it. When the report step of a company raises, the
    error is caught and printed with the label of the company, the pacing
    delay follows and the loop goes on with the next company. It raised in
    the compilation, in the opening of the file or in the write. No file is
    created or changed when the compilation or the opening of the file
    raised. When the write raised after the file was opened, the file of
    the company exists and holds the head of the report that was written.
    When the label holds no path separator, that file is an entry of the
    current directory, and every other entry is unchanged. *)
Theorem report_failure_is_contained (row : csv_row) (rest : list csv_row) (w w2 : World E)
    (nome ticker url : option string) (fatos : string) (x : E) (e : exn) :
  named row !! "Empresa" = Some nome ->
  named row !! "Ticker" = Some ticker ->
  named row !! "Relatorio_URL" = Some url ->
  research sv (pergunta_pesquisa (company_label nome ticker) (str_of_value url)) (ext w)
  = (inr fatos, x) ->
  gerar_e_salvar sv upper (company_label nome ticker) fatos
    (researched (company_label nome ticker) fatos x w) = (inl e, w2) ->
  exists w',
    iteration sv upper row w = (inr tt, w')
    /\ In (report_error_line (company_label nome ticker) e) (stdout w')
    /\ contains (company_label nome ticker) (report_error_line (company_label nome ticker) e)
       = true
    /\ slept w' = slept w + DELAY_SECONDS
    /\ driver_loop sv upper (row :: rest) w = driver_loop sv upper rest w'
    /\ (forall e' x1,
          relator sv (company_label nome ticker) fatos x = (inl e', x1) -> fs w' = fs w)
    /\ (forall r x1 e' x2,
          relator sv (company_label nome ticker) fatos x = (inr r, x1) ->
          open_fault sv (report_file_name (company_label nome ticker)) x1 = (Some e', x2) ->
          fs w' = fs w)
    /\ (forall r x1 x2 e' n x3,
          relator sv (company_label nome ticker) fatos x = (inr r, x1) ->
          open_fault sv (report_file_name (company_label nome ticker)) x1 = (None, x2) ->
          write_fault sv (report_file_name (company_label nome ticker))
            (final_report_markdown upper (today sv x1) r) x2 = (Some (e', n), x3) ->
          fs w' !! report_file_name (company_label nome ticker)
          = Some (String.substring 0 n (final_report_markdown upper (today sv x1) r)))
    /\ ((exists x1, relator sv (company_label nome ticker) fatos x = (inl e, x1))
        \/ (exists r x1 x2,
              relator sv (company_label nome ticker) fatos x = (inr r, x1)
              /\ open_fault sv (report_file_name (company_label nome ticker)) x1 = (Some e, x2))
        \/ (exists r x1 x2 n x3,
              relator sv (company_label nome ticker) fatos x = (inr r, x1)
              /\ open_fault sv (report_file_name (company_label nome ticker)) x1 = (None, x2)
              /\ write_fault sv (report_file_name (company_label nome ticker))
                   (final_report_markdown upper (today sv x1) r) x2 = (Some (e, n), x3)))
    /\ (plain_name (company_label nome ticker) = true ->
        plain_name (report_file_name (company_label nome ticker)) = true
        /\ forall p, plain_name p = true ->
                     p <> report_file_name (company_label nome ticker) ->
                     fs w' !! p = fs w !! p).
Proof.
  intros H1 H2 H3 Hres Hgen.
  set (label := company_label nome ticker) in *.
  exists (paced sv (logged (report_error_line label e) w2)).
  assert (Hit : iteration sv upper row w
                = (inr tt, paced sv (logged (report_error_line label e) w2)))
    by (rewrite (iteration_unfold sv upper row w nome ticker url H1 H2 H3); fold label;
        rewrite Hres, Hgen; reflexivity).
  pose proof (gerar_e_salvar_raises _ _ _ _ _ Hgen) as Hcases.
  cbn [ext researched] in Hcases.
  assert (Hslept : slept w2 = slept w).
  { destruct Hcases as [(x1 & _ & ->) | [(r & x1 & x2 & _ & _ & ->)
                                        | (r & x1 & x2 & x3 & n & _ & _ & _ & ->)]];
      reflexivity. }
  split; [exact Hit|].
  split; [cbn [paced logged stdout]; rewrite !in_app_iff; left; right; now left|].
  split; [unfold report_error_line; apply contains_intro|].
  split; [cbn [paced logged slept]; now rewrite Hslept|].
  split; [rewrite driver_loop_cons, Hit; reflexivity|].
  cbn [paced logged fs].
  split; [|split; [|split; [|split]]].
  - intros e' x1 Hrel.
    destruct Hcases as [(x1' & _ & ->) | [(r & x1' & x2 & _ & _ & ->)
                                         | (r & x1' & x2 & x3 & n & Hrel' & _)]];
      [reflexivity | reflexivity | congruence].
  - intros r x1 e' x2 Hrel Hopen.
    destruct Hcases as [(x1' & _ & ->) | [(r' & x1' & x2' & _ & _ & ->)
                                         | (r' & x1' & x2' & x3 & n & Hrel' & Hopen' & _)]];
      [reflexivity | reflexivity |].
    rewrite Hrel in Hrel'. injection Hrel' as <- <-. congruence.
  - intros r x1 x2 e' n x3 Hrel Hopen Hwr.
    destruct Hcases as [(x1' & Hrel' & _) | [(r' & x1' & x2' & Hrel' & Hopen' & _)
                                            | (r' & x1' & x2' & x3' & n' & Hrel' & Hopen' & Hwr' & ->)]].
    + congruence.
    + rewrite Hrel in Hrel'. injection Hrel' as <- <-. congruence.
    + rewrite Hrel in Hrel'. injection Hrel' as <- <-.
      rewrite Hopen in Hopen'. injection Hopen' as <-.
      rewrite Hwr in Hwr'. injection Hwr' as <- <- <-.
      cbn [set_file set_ext fs]. apply lookup_insert_eq.
  - destruct Hcases as [(x1 & Hrel & _) | [(r & x1 & x2 & Hrel & Hopen & _)
                                          | (r & x1 & x2 & x3 & n & Hrel & Hopen & Hwr & _)]].
    + left. eauto.
    + right; left. eauto.
    + right; right. exists r, x1, x2, n, x3. auto.
  - intros Hplain. split; [now apply plain_report_file_name|].
    intros p _ Hp.
    destruct Hcases as [(x1 & _ & ->) | [(r & x1 & x2 & _ & _ & ->)
                                        | (r & x1 & x2 & x3 & n & _ & _ & _ & ->)]];
      [reflexivity | reflexivity |].
    cbn [set_file set_ext fs researched]. now apply lookup_insert_ne.
Qed.

(** C9. A row that lacks one of the three columns ends the whole run: the
    rows before it are processed, then KeyError leaves the loop and the
    script, and neither that row nor a later one is processed. *)
Theorem missing_column_aborts_run (pre post : list csv_row) (row : csv_row) (w : World E)
    (key : string) :
  Forall has_columns pre ->
  In key ["Empresa"; "Ticker"; "Relatorio_URL"] ->
  named row !! key = None ->
  exists k w1,
    In k ["Empresa"; "Ticker"; "Relatorio_URL"]
    /\ named row !! k = None
    /\ driver_loop sv upper pre w = (inr tt, w1)
    /\ iteration sv upper row w1 = (inl (Exn KeyError ("'" +:+ k +:+ "'")), w1)
    /\ driver_loop sv upper (pre ++ row :: post) w
       = (inl (Exn KeyError ("'" +:+ k +:+ "'")), w1)
    /\ (forall w0,
          ler_lista_empresas_csv sv "dados_empresas.csv" w0 = (inr (pre ++ row :: post), w) ->
          main sv upper w0 = (inl (Exn KeyError ("'" +:+ k +:+ "'")), w1)).
Proof.
  intros Hpre Hin Hmiss.
  destruct (driver_loop_returns sv upper pre w Hpre) as [w1 Hrun].
  destruct (iteration_missing_column sv upper row w1 key Hin Hmiss) as (k & Hk & Hnone & Hit).
  assert (Hloop : driver_loop sv upper (pre ++ row :: post) w
                  = (inl (Exn KeyError ("'" +:+ k +:+ "'")), w1))
    by (rewrite driver_loop_app, Hrun, driver_loop_cons, Hit; reflexivity).
  exists k, w1. repeat (split; [assumption|]).
  intros w0 Hload. unfold main.
  rewrite (bind_ok _ _ _ _ _ Hload). now rewrite (bind_err _ _ _ _ _ Hloop).
Qed.

End DriverClaims.

(** The research of Netflix fails and Tesla is next. *)
Lemma research_failure_skips_company_witness :
  exists w',
    iteration Scenario.research_down Scenario.ascii_upper Scenario.netflix
      (Scenario.empty_world tt) = (inr tt, w')
    /\ (exists placeholder,
          fatos_consolidados w' = Some placeholder
          /\ contains "Netflix (NFLX)" placeholder = true
          /\ contains "tempo esgotado" placeholder = true)
    /\ fs w' = ∅
    /\ driver_loop Scenario.research_down Scenario.ascii_upper
         [Scenario.netflix; Scenario.tesla] (Scenario.empty_world tt)
       = driver_loop Scenario.research_down Scenario.ascii_upper [Scenario.tesla] w'.
Proof.
  exact (research_failure_skips_company Scenario.research_down Scenario.ascii_upper
           Scenario.netflix [Scenario.tesla] (Scenario.empty_world tt)
           (Some "Netflix") (Some "NFLX") (Some "N/A - Sem URL") Scenario.timeout tt
           eq_refl eq_refl eq_refl eq_refl).
Defined.

(** The generation service is down for Netflix and Tesla is next; and the
    disk fills up after 26 characters of the report of Netflix, next to a
    report of Tesla written before. *)
Lemma report_failure_is_contained_witness :
  (exists w',
     iteration Scenario.relator_down Scenario.ascii_upper Scenario.netflix
       (Scenario.empty_world tt) = (inr tt, w')
     /\ In (report_error_line "Netflix (NFLX)" Scenario.timeout) (stdout w')
     /\ slept w' = 7
     /\ driver_loop Scenario.relator_down Scenario.ascii_upper
          [Scenario.netflix; Scenario.tesla] (Scenario.empty_world tt)
        = driver_loop Scenario.relator_down Scenario.ascii_upper [Scenario.tesla] w'
     /\ fs w' = ∅)
  /\ (exists w',
        iteration (Scenario.disk_cuts_report 26) Scenario.ascii_upper Scenario.netflix
          (mkWorld {["Relatorio_Tesla_TSLA.md" := "anterior"]} [] 0 None tt) = (inr tt, w')
        /\ In (report_error_line "Netflix (NFLX)" Scenario.disk_full) (stdout w')
        /\ slept w' = 7
        /\ fs w' !! "Relatorio_Netflix_NFLX.md"
           = Some (String.substring 0 26
                     (final_report_markdown Scenario.ascii_upper Scenario.hoje Scenario.report))
        /\ fs w' !! "Relatorio_Tesla_TSLA.md" = Some "anterior").
Proof.
  split.
  - destruct (report_failure_is_contained Scenario.relator_down Scenario.ascii_upper
                Scenario.netflix [Scenario.tesla] (Scenario.empty_world tt)
                (researched "Netflix (NFLX)" "fatos" tt (Scenario.empty_world tt))
                (Some "Netflix") (Some "NFLX") (Some "N/A - Sem URL") "fatos" tt
                Scenario.timeout eq_refl eq_refl eq_refl eq_refl eq_refl)
      as (w' & Hit & Hlog & _ & Hslept & Hnext & Hfs & _).
    exists w'. exact (conj Hit (conj Hlog (conj Hslept (conj Hnext (Hfs _ _ eq_refl))))).
  - assert (Hgen : gerar_e_salvar (Scenario.disk_cuts_report 26) Scenario.ascii_upper "Netflix (NFLX)"
                     "fatos"
                     (researched "Netflix (NFLX)" "fatos" tt
                        (mkWorld {["Relatorio_Tesla_TSLA.md" := "anterior"]} [] 0 None tt))
                   = (inl Scenario.disk_full,
                      set_file "Relatorio_Netflix_NFLX.md"
                        (String.substring 0 26
                           (final_report_markdown Scenario.ascii_upper Scenario.hoje
                              Scenario.report))
                        (set_ext tt
                           (researched "Netflix (NFLX)" "fatos" tt
                              (mkWorld {["Relatorio_Tesla_TSLA.md" := "anterior"]} [] 0 None tt)))))
      by (rewrite gerar_e_salvar_unfold; reflexivity).
    destruct (report_failure_is_contained (Scenario.disk_cuts_report 26) Scenario.ascii_upper
                Scenario.netflix [] (mkWorld {["Relatorio_Tesla_TSLA.md" := "anterior"]} [] 0 None tt)
                _ (Some "Netflix") (Some "NFLX") (Some "N/A - Sem URL") "fatos" tt
                Scenario.disk_full eq_refl eq_refl eq_refl eq_refl Hgen)
      as (w' & Hit & Hlog & _ & Hslept & _ & _ & _ & Hcut & _ & Hplain).
    destruct (Hplain eq_refl) as [_ Hothers].
    exists w'. refine (conj Hit (conj Hlog (conj Hslept (conj _ _)))).
    + exact (Hcut Scenario.report tt tt Scenario.disk_full 26 tt eq_refl eq_refl eq_refl).
    + etransitivity; [apply (Hothers "Relatorio_Tesla_TSLA.md" eq_refl); discriminate
                     | reflexivity].
Defined.

(** A table whose second row has no Ticker column. *)
Lemma missing_column_aborts_run_witness :
  exists k w1,
    In k ["Empresa"; "Ticker"; "Relatorio_URL"]
    /\ named Scenario.no_ticker !! k = None
    /\ driver_loop Scenario.quiet Scenario.ascii_upper [Scenario.netflix]
         (Scenario.empty_world tt) = (inr tt, w1)
    /\ driver_loop Scenario.quiet Scenario.ascii_upper
         ([Scenario.netflix] ++ Scenario.no_ticker :: [Scenario.tesla])
         (Scenario.empty_world tt)
       = (inl (Exn KeyError ("'" +:+ k +:+ "'")), w1).
Proof.
  destruct (missing_column_aborts_run Scenario.quiet Scenario.ascii_upper
              [Scenario.netflix] [Scenario.tesla] Scenario.no_ticker
              (Scenario.empty_world tt) "Ticker")
    as (k & w1 & Hk & Hnone & Hpre & _ & Hrun & _).
  - constructor; [|constructor].
    repeat split; eexists; vm_compute; reflexivity.
  - right; left. reflexivity.
  - vm_compute. reflexivity.
  - exists k, w1. exact (conj Hk (conj Hnone (conj Hpre Hrun))).
Defined.

(** C5, as it is worded, fails. The disk is full when the report of Netflix
    is written: the error is caught and printed, and yet the file of the
    company has been created, empty. With the same company twice in the
    table and the disk full at the second report, the file that the first
    iteration wrote is emptied by the second. *)
Lemma report_write_failure_leaves_a_file :
  (fs (Scenario.empty_world 0) !! "Relatorio_Netflix_NFLX.md" = None
   /\ In (report_error_line "Netflix (NFLX)" Scenario.disk_full)
        (stdout (driver_loop (Scenario.disk_fills_up 1) Scenario.ascii_upper
                   [Scenario.netflix] (Scenario.empty_world 0)).2)
   /\ fs (driver_loop (Scenario.disk_fills_up 1) Scenario.ascii_upper
            [Scenario.netflix] (Scenario.empty_world 0)).2
      !! "Relatorio_Netflix_NFLX.md" = Some EmptyString)
  /\ (fs (driver_loop (Scenario.disk_fills_up 2) Scenario.ascii_upper
            [Scenario.netflix] (Scenario.empty_world 0)).2
      !! "Relatorio_Netflix_NFLX.md"
      = Some (final_report_markdown Scenario.ascii_upper Scenario.hoje Scenario.report)
      /\ fs (driver_loop (Scenario.disk_fills_up 2) Scenario.ascii_upper
               [Scenario.netflix; Scenario.netflix] (Scenario.empty_world 0)).2
         !! "Relatorio_Netflix_NFLX.md" = Some EmptyString).
Proof.
  split; [split; [|split]|split].
  - reflexivity.
  - vm_compute. right; right; right. left. reflexivity.
  - vm_compute. reflexivity.
  - vm_compute. reflexivity.
  - vm_compute. reflexivity.
Qed.

(** C1 fails on the script: the research of the only company of the table
    raises, the handler ends the iteration with [continue], and the run
    ends with no time slept, where one delay of 7 seconds was due. With the
    research answering, the run sleeps the 7 seconds, also when the report
    of the company fails. *)
Theorem pacing_skipped_after_research_failure :
  driver_loop Scenario.research_down Scenario.ascii_upper [Scenario.netflix]
    (Scenario.empty_world tt)
  = (inr tt, research_failed "Netflix (NFLX)" Scenario.timeout tt (Scenario.empty_world tt))
  /\ slept (driver_loop Scenario.research_down Scenario.ascii_upper [Scenario.netflix]
              (Scenario.empty_world tt)).2 = 0
  /\ length [Scenario.netflix] * DELAY_SECONDS = 7
  /\ slept (driver_loop Scenario.quiet Scenario.ascii_upper [Scenario.netflix]
              (Scenario.empty_world tt)).2 = 7
  /\ slept (driver_loop Scenario.relator_down Scenario.ascii_upper [Scenario.netflix]
              (Scenario.empty_world tt)).2 = 7.
Proof.
  assert (Hrun : driver_loop Scenario.research_down Scenario.ascii_upper [Scenario.netflix]
                   (Scenario.empty_world tt)
                 = (inr tt, research_failed "Netflix (NFLX)" Scenario.timeout tt
                              (Scenario.empty_world tt))).
  { rewrite driver_loop_cons.
    rewrite (iteration_unfold Scenario.research_down Scenario.ascii_upper Scenario.netflix
               (Scenario.empty_world tt) (Some "Netflix") (Some "NFLX") (Some "N/A - Sem URL")
               eq_refl eq_refl eq_refl).
    reflexivity. }
  split; [exact Hrun|]. rewrite Hrun.
  split; [reflexivity|]. split; [reflexivity|]. split; vm_compute; reflexivity.
Qed.

(** ** The report writer *)

(** C2, as it is worded, fails. The generation service fills data_relatorio
    with 2020-01-01 and the script runs on 2025-01-05: the date line of the
    file holds the day of the run, and the date of the record is nowhere in
    the file. *)
Lemma report_date_ignores_record_date :
  data_relatorio Scenario.report = "2020-01-01"
  /\ today Scenario.quiet tt = Date 2025 1 5
  /\ exists texto,
       fs (iteration Scenario.quiet Scenario.ascii_upper Scenario.netflix
             (Scenario.empty_world tt)).2 !! "Relatorio_Netflix_NFLX.md" = Some texto
       /\ contains ("**Data da Análise:** " +:+ data_relatorio Scenario.report) texto = false
       /\ contains (data_relatorio Scenario.report) texto = false
       /\ contains "**Data da Análise:** 2025-01-05" texto = true.
Proof.
  split; [reflexivity|]. split; [reflexivity|].
  eexists. split; [vm_compute; reflexivity|].
  split; [|split]; vm_compute; reflexivity.
Qed.

(** C2, as the script has it. The date line of the report, which follows the
    title, holds the date handed to the rendering; the document is the same
    whatever the data_relatorio of the record; and the date handed to the
    rendering of a saved report is [date.today()], read once the record has
    been compiled. *)
Theorem report_date_is_today (upper : string -> string) (hoje : date) (r : AnaliseAcionaria) :
  (exists rest,
     split_lines (final_report_markdown upper hoje r)
     = EmptyString
       :: map Textwrap.blank_line
            (split_lines ("# 📄 Relatório de Análise Acionária: " +:+ empresa r))
       ++ ("**Data da Análise:** " +:+ isoformat hoje) :: rest)
  /\ (forall d,
        final_report_markdown upper hoje (Spec.with_data_relatorio d r)
        = final_report_markdown upper hoje r)
  /\ (forall (E : Type) (sv : Services E) (label fatos : string) (w w' : World E),
        gerar_e_salvar sv upper label fatos w = (inr tt, w') ->
        exists r' x,
          relator sv label fatos (ext w) = (inr r', x)
          /\ fs w' !! report_file_name label
             = Some (final_report_markdown upper (today sv x) r')).
Proof.
  split; [apply final_report_markdown_date_line|]. split; [reflexivity|].
  intros E sv label fatos w w' Hsave.
  destruct (gerar_e_salvar_saves sv upper label fatos w w' Hsave) as (r' & x & Hrel & Hfs).
  exists r', x. split; [exact Hrel|]. rewrite Hfs. apply lookup_insert_eq.
Qed.

(** The report of Netflix, compiled with the date 2020-01-01 and saved on
    2025-01-05. *)
Lemma report_date_is_today_witness :
  (exists rest,
     split_lines (final_report_markdown Scenario.ascii_upper Scenario.hoje Scenario.report)
     = EmptyString :: "# 📄 Relatório de Análise Acionária: Netflix - NFLX"
       :: "**Data da Análise:** 2025-01-05" :: rest)
  /\ final_report_markdown Scenario.ascii_upper Scenario.hoje
       (Spec.with_data_relatorio "1999-12-31" Scenario.report)
     = final_report_markdown Scenario.ascii_upper Scenario.hoje Scenario.report.
Proof.
  destruct (report_date_is_today Scenario.ascii_upper Scenario.hoje Scenario.report)
    as ([rest Hlines] & Hsame & _).
  split; [exists rest; exact Hlines | apply Hsame].
Defined.

(** C7, as it is worded, fails. The summary of the record has a line that is
    one space: the rendered document holds the summary with that line
    emptied, and not the summary itself. The record has no news item: the
    document holds one bullet all the same. *)
Lemma report_blank_line_not_verbatim :
  contains (sumario_executivo Scenario.report_blank_line)
    (final_report_markdown Scenario.ascii_upper Scenario.hoje Scenario.report_blank_line)
  = false
  /\ contains ("Primeiro" +:+ nl +:+ nl +:+ "Segundo")
       (final_report_markdown Scenario.ascii_upper Scenario.hoje Scenario.report_blank_line)
     = true
  /\ noticias_relevantes Scenario.report_blank_line = []
  /\ contains (nl +:+ "* " +:+ nl)
       (final_report_markdown Scenario.ascii_upper Scenario.hoje Scenario.report_blank_line)
     = true
  /\ final_report_markdown Scenario.ascii_upper Scenario.hoje Scenario.report_blank_line
     <> Spec.document Scenario.ascii_upper Scenario.hoje Scenario.report_blank_line.
Proof.
  split; [vm_compute; reflexivity|]. split; [vm_compute; reflexivity|].
  split; [reflexivity|]. split; [vm_compute; reflexivity|].
  intros Heq.
  assert (Hc : contains (sumario_executivo Scenario.report_blank_line)
                 (final_report_markdown Scenario.ascii_upper Scenario.hoje
                    Scenario.report_blank_line) = true).
  { rewrite Heq. vm_compute. reflexivity. }
  revert Hc. vm_compute. discriminate.
Qed.

(** C7, as the script has it. With at least one news item, the rendered
    document is the six sections (title and date, summary, table with price,
    upper-cased recommendation and sentiment, one bullet per news item,
    financial analysis, disclaimer) one after the other, each line made of
    spaces and tabs only being emptied; when no text field has such a line,
    it is the six sections verbatim. The file name is Relatorio_, the label
    with each space turned into an underscore and each parenthesis dropped,
    and .md. A report that is saved replaces whatever the file of that name
    held, and no other file changes. *)
Theorem report_writer_renders_and_saves (upper : string -> string) :
  (forall hoje r,
     noticias_relevantes r <> [] ->
     final_report_markdown upper hoje r
     = join nl (map Textwrap.blank_line (split_lines (Spec.document upper hoje r))))
  /\ (forall hoje r,
        Forall (fun s => no_blank_line s = true) (Spec.text_fields upper r) ->
        noticias_relevantes r <> [] ->
        final_report_markdown upper hoje r = Spec.document upper hoje r)
  /\ (forall label,
        report_file_name label = "Relatorio_" +:+ Spec.sanitized_label label +:+ ".md")
  /\ (forall (E : Type) (sv : Services E) (label fatos : string) (w w' : World E),
        gerar_e_salvar sv upper label fatos w = (inr tt, w') ->
        exists r x,
          relator sv label fatos (ext w) = (inr r, x)
          /\ fs w' = <[report_file_name label := final_report_markdown upper (today sv x) r]>
                     (fs w)).
Proof.
  split; [|split; [|split]].
  - intros hoje r Hnews. rewrite final_report_markdown_lines.
    now rewrite (report_template_document upper hoje r Hnews).
  - apply final_report_markdown_verbatim.
  - intros label. unfold report_file_name.
    now rewrite ReportFacts.file_name_clean_one_pass.
  - intros E sv. apply gerar_e_salvar_saves.
Qed.

(** The report of Netflix, saved over an older file of the same name. *)
Lemma report_writer_renders_and_saves_witness :
  final_report_markdown Scenario.ascii_upper Scenario.hoje Scenario.report
  = Spec.document Scenario.ascii_upper Scenario.hoje Scenario.report
  /\ report_file_name "Netflix (NFLX)" = "Relatorio_Netflix_NFLX.md"
  /\ exists w',
       gerar_e_salvar Scenario.quiet Scenario.ascii_upper "Netflix (NFLX)" "fatos"
         (mkWorld {["Relatorio_Netflix_NFLX.md" := "antigo"]} [] 0 None tt) = (inr tt, w')
       /\ fs w' = {["Relatorio_Netflix_NFLX.md"
                    := final_report_markdown Scenario.ascii_upper Scenario.hoje Scenario.report]}.
Proof.
  destruct (report_writer_renders_and_saves Scenario.ascii_upper)
    as (_ & Hverbatim & Hname & Hsave).
  split; [|split].
  - apply Hverbatim; [|discriminate].
    repeat constructor.
  - rewrite Hname. reflexivity.
  - eexists. split; [vm_compute; reflexivity|].
    vm_compute. reflexivity.
Defined.

(** * Further properties of the script *)

(** ** The file name of a report, and the fields the report keeps *)

Section FileNames.
Import Text TextFacts ReportFacts Textwrap DedentFacts.
#[local] Arguments String.append : simpl nomatch.

Lemma sanitized_label_app (a b : string) :
  Spec.sanitized_label (a +:+ b) = Spec.sanitized_label a +:+ Spec.sanitized_label b.
Proof.
  induction a as [|x a IH]; [reflexivity|].
  change (String x a +:+ b) with (String x (a +:+ b)).
  cbn [Spec.sanitized_label]. now rewrite IH, append_assoc.
Qed.

Lemma file_name_clean_app (a b : string) :
  file_name_clean (a +:+ b) = file_name_clean a +:+ file_name_clean b.
Proof. rewrite !file_name_clean_one_pass. apply sanitized_label_app. Qed.

Lemma sanitized_label_idempotent (label : string) :
  Spec.sanitized_label (Spec.sanitized_label label) = Spec.sanitized_label label.
Proof.
  induction label as [|a label IH]; [reflexivity|].
  cbn [Spec.sanitized_label]. rewrite sanitized_label_app, IH. f_equal.
  unfold Spec.sanitize_char.
  destruct (Ascii.eqb_spec a " ") as [->|Hsp]; [reflexivity|].
  destruct (Ascii.eqb_spec a "(") as [->|Hop]; [reflexivity|].
  destruct (Ascii.eqb_spec a ")") as [->|Hcl]; [reflexivity|].
  cbn [orb Spec.sanitized_label]. unfold Spec.sanitize_char.
  apply Ascii.eqb_neq in Hsp, Hop, Hcl. now rewrite Hsp, Hop, Hcl.
Qed.

(** X1. The report of a row is saved under [Relatorio_<name>_<ticker>.md],
    where name and ticker are the two columns with every blank turned into an
    underscore and every parenthesis dropped.  Cleaning a cleaned label
    changes nothing, and a label is cleaned piece by piece; so two labels
    that differ by a blank against an underscore, or by parentheses, name the
    same file. *)
Theorem report_file_name_of_label (nome ticker a b : string) :
  report_file_name (company_label (Some nome) (Some ticker))
  = "Relatorio_" +:+ file_name_clean nome +:+ "_" +:+ file_name_clean ticker +:+ ".md"
  /\ file_name_clean (file_name_clean a) = file_name_clean a
  /\ file_name_clean (a +:+ b) = file_name_clean a +:+ file_name_clean b
  /\ report_file_name (a +:+ " " +:+ b) = report_file_name (a +:+ "_" +:+ b)
  /\ report_file_name (a +:+ "(" +:+ b +:+ ")") = report_file_name (a +:+ b).
Proof.
  split; [|split; [|split; [|split]]].
  - unfold report_file_name, company_label, str_of_value.
    rewrite !file_name_clean_app.
    change (file_name_clean " (") with "_". change (file_name_clean ")") with EmptyString.
    now rewrite append_nil_r, !append_assoc.
  - rewrite !file_name_clean_one_pass. apply sanitized_label_idempotent.
  - apply file_name_clean_app.
  - unfold report_file_name. rewrite !file_name_clean_app. reflexivity.
  - unfold report_file_name. rewrite !file_name_clean_app.
    change (file_name_clean "(") with EmptyString. change (file_name_clean ")") with EmptyString.
    now rewrite append_nil_r.
Qed.

(** *** Fields that fill whole lines of the report *)

Lemma join_app (xs ys : list string) :
  xs <> [] -> ys <> [] -> join nl (xs ++ ys) = join nl xs +:+ nl +:+ join nl ys.
Proof.
  induction xs as [|x xs IH]; [congruence|]. intros _ Hys.
  destruct xs as [|x' xs'].
  - destruct ys as [|y ys]; [congruence|]. reflexivity.
  - change (join nl ((x :: x' :: xs') ++ ys)) with (x +:+ nl +:+ join nl ((x' :: xs') ++ ys)).
    rewrite IH by (discriminate || assumption).
    change (join nl (x :: x' :: xs')) with (x +:+ nl +:+ join nl (x' :: xs')).
    now rewrite !append_assoc.
Qed.

(** A field that fills whole lines of the text, between two line feeds, and
    has no line of blanks, is in the dedented text as it is. *)
Lemma whole_lines_kept (before f after : string) (c : ascii) (rest : string) :
  before +:+ nl +:+ f +:+ nl +:+ after = nl +:+ String c rest ->
  is_blank_char c = false -> Ascii.eqb c LF = false ->
  no_blank_line f = true ->
  contains f (dedent (before +:+ nl +:+ f +:+ nl +:+ after)) = true.
Proof.
  intros Hshape Hc Hlf Hclean.
  rewrite Hshape, dedent_flush_left by assumption. rewrite <- Hshape.
  rewrite split_lines_app_nl, split_lines_app_nl, !map_app.
  rewrite (blank_lines_id (split_lines f)) by exact Hclean.
  assert (Hne : forall s, map blank_line (split_lines s) <> []).
  { intros s H. apply map_eq_nil in H. now apply split_lines_not_nil in H. }
  rewrite join_app; [|apply Hne|].
  - rewrite join_app; [|apply split_lines_not_nil|apply Hne].
    rewrite join_split_lines.
    rewrite <- (append_assoc _ nl). apply contains_intro.
  - intros H. apply app_eq_nil in H as [H _]. now apply split_lines_not_nil in H.
Qed.

Lemma consult_document_rag_no_blank_line (url : string) :
  no_blank_line (consult_document_rag url) = true.
Proof.
  unfold consult_document_rag.
  destruct (_ || _ || _); [vm_compute; reflexivity|].
  destruct (contains "NFLX" url); [vm_compute; reflexivity|].
  destruct (contains "TSLA" url); vm_compute; reflexivity.
Qed.

Section Verbatim.
Variable upper : string -> string.

Lemma report_keeps_financial_analysis (hoje : date) (r : AnaliseAcionaria) :
  no_blank_line (analise_financeira_resumida r) = true ->
  contains (analise_financeira_resumida r) (final_report_markdown upper hoje r) = true.
Proof.
  intros Hclean. unfold final_report_markdown, report_template.
  repeat rewrite <- (append_assoc _ _ (nl +:+ analise_financeira_resumida r +:+ _)).
  match goal with
  | |- contains _ (dedent (?b +:+ nl +:+ _ +:+ nl +:+ ?a)) = true =>
      apply (whole_lines_kept b (analise_financeira_resumida r) a "#" _ eq_refl eq_refl eq_refl Hclean)
  end.
Qed.

Lemma report_keeps_summary (hoje : date) (r : AnaliseAcionaria) :
  no_blank_line (sumario_executivo r) = true ->
  contains (sumario_executivo r) (final_report_markdown upper hoje r) = true.
Proof.
  intros Hclean. unfold final_report_markdown, report_template.
  repeat rewrite <- (append_assoc _ _ (nl +:+ sumario_executivo r +:+ _)).
  match goal with
  | |- contains _ (dedent (?b +:+ nl +:+ _ +:+ nl +:+ ?a)) = true =>
      apply (whole_lines_kept b (sumario_executivo r) a "#" _ eq_refl eq_refl eq_refl Hclean)
  end.
Qed.

(** X2. The executive summary and the financial analysis stand on lines of
    their own in the template: when the field has no line made of blanks
    only, the saved document holds it as it is.  The answers of the
    document-fact stub have no such line, so a financial analysis that is an
    answer of the stub is in the document verbatim. *)
Theorem report_keeps_whole_line_fields (hoje : date) (r : AnaliseAcionaria) :
  (no_blank_line (sumario_executivo r) = true ->
   contains (sumario_executivo r) (final_report_markdown upper hoje r) = true)
  /\ (no_blank_line (analise_financeira_resumida r) = true ->
      contains (analise_financeira_resumida r) (final_report_markdown upper hoje r) = true)
  /\ (forall url, analise_financeira_resumida r = consult_document_rag url ->
      contains (consult_document_rag url) (final_report_markdown upper hoje r) = true).
Proof.
  split; [apply report_keeps_summary|]. split; [apply report_keeps_financial_analysis|].
  intros url Heq. rewrite <- Heq. apply report_keeps_financial_analysis. rewrite Heq.
  apply consult_document_rag_no_blank_line.
Qed.
End Verbatim.

End FileNames.

(** ** The line the document-fact stub prints *)

Section StubBanner.
Import Text TextFacts.
#[local] Arguments String.append : simpl nomatch.

Lemma take_code_points_prefix (n : nat) (s : string) :
  exists rest, s = take_code_points n s +:+ rest.
Proof.
  revert n. induction s as [|a s IH]; intros n; [now exists EmptyString|].
  cbn [take_code_points]. destruct (starts_code_point a).
  - destruct n as [|n]; [now exists (String a s)|].
    destruct (IH n) as [rest Hrest]. exists rest.
    change (String a (take_code_points n s) +:+ rest)
      with (String a (take_code_points n s +:+ rest)). now rewrite <- Hrest.
  - destruct (IH n) as [rest Hrest]. exists rest.
    change (String a (take_code_points n s) +:+ rest)
      with (String a (take_code_points n s +:+ rest)). now rewrite <- Hrest.
Qed.

Lemma take_code_points_bound (n : nat) (s : string) :
  (code_points (take_code_points n s) <= N.of_nat n)%N.
Proof.
  revert n. induction s as [|a s IH]; intros n; [cbn; lia|].
  cbn [take_code_points]. destruct (starts_code_point a) eqn:Ha.
  - destruct n as [|n]; [cbn; lia|]. cbn [code_points]. rewrite Ha.
    specialize (IH n). lia.
  - cbn [code_points]. rewrite Ha. apply IH.
Qed.

Lemma take_code_points_all (n : nat) (s : string) :
  (code_points s <= N.of_nat n)%N -> take_code_points n s = s.
Proof.
  revert n. induction s as [|a s IH]; intros n Hlen; [reflexivity|].
  cbn [take_code_points]. cbn [code_points] in Hlen. destruct (starts_code_point a).
  - destruct n as [|n]; [lia|]. rewrite IH by lia. reflexivity.
  - now rewrite IH.
Qed.

Lemma take_code_points_full (n : nat) (s : string) :
  (N.of_nat n < code_points s)%N -> code_points (take_code_points n s) = N.of_nat n.
Proof.
  revert n. induction s as [|a s IH]; intros n Hlen; [cbn in Hlen; lia|].
  cbn [take_code_points]. cbn [code_points] in Hlen. destruct (starts_code_point a) eqn:Ha.
  - destruct n as [|n]; [reflexivity|]. cbn [code_points]. rewrite Ha, IH by lia. lia.
  - cbn [code_points]. rewrite Ha. now apply IH.
Qed.

(** X3. The line the stub prints shows a prefix of the URL of at most 50
    characters, between the fixed opening and the three dots: the whole URL
    when it has 50 characters or fewer, its first 50 otherwise. *)
Theorem consult_document_rag_banner_bound (report_url : string) :
  exists shown rest,
    consult_document_rag_banner report_url
    = nl +:+ "[RAG TOOL INVOCADA] -> Analisando URL: " +:+ shown +:+ "..."
    /\ report_url = shown +:+ rest
    /\ (code_points shown <= 50)%N
    /\ ((code_points report_url <= 50)%N -> shown = report_url)
    /\ ((50 < code_points report_url)%N -> code_points shown = 50%N).
Proof.
  destruct (take_code_points_prefix 50 report_url) as [rest Hrest].
  exists (take_code_points 50 report_url), rest.
  split; [reflexivity|]. split; [exact Hrest|]. split; [|split].
  - apply (take_code_points_bound 50).
  - apply (take_code_points_all 50).
  - apply (take_code_points_full 50).
Qed.

End StubBanner.

(** ** Startup: the tracing variables *)

(** X4. The two startup lines never raise, whatever the environment holds;
    after them neither tracing variable is set, every other variable is as
    it was, and running them again changes nothing. *)
Theorem clear_tracing_removes_both (environ : gmap string string) :
  exists environ',
    clear_tracing environ = inr environ'
    /\ environ' !! "LANGCHAIN_TRACING_V2" = None
    /\ environ' !! "LANGCHAIN_API_KEY" = None
    /\ (forall key, key <> "LANGCHAIN_TRACING_V2" -> key <> "LANGCHAIN_API_KEY" ->
                    environ' !! key = environ !! key)
    /\ clear_tracing environ' = inr environ'.
Proof.
  exists (delete "LANGCHAIN_API_KEY" (delete "LANGCHAIN_TRACING_V2" environ)).
  assert (Hrun : clear_tracing environ
                 = inr (delete "LANGCHAIN_API_KEY" (delete "LANGCHAIN_TRACING_V2" environ))).
  { unfold clear_tracing, del_if_set, del_environ.
    destruct (environ !! "LANGCHAIN_TRACING_V2") as [v|] eqn:H1.
    - destruct (delete "LANGCHAIN_TRACING_V2" environ !! "LANGCHAIN_API_KEY") as [v'|] eqn:H2;
        [reflexivity|]. now rewrite (delete_id _ _ H2).
    - rewrite (delete_id _ _ H1).
      destruct (environ !! "LANGCHAIN_API_KEY") as [v'|] eqn:H2; [reflexivity|].
      now rewrite (delete_id _ _ H2). }
  split; [exact Hrun|].
  assert (H1 : delete "LANGCHAIN_API_KEY" (delete "LANGCHAIN_TRACING_V2" environ)
               !! "LANGCHAIN_TRACING_V2" = None)
    by (rewrite lookup_delete_ne by discriminate; apply lookup_delete_eq).
  assert (H2 : delete "LANGCHAIN_API_KEY" (delete "LANGCHAIN_TRACING_V2" environ)
               !! "LANGCHAIN_API_KEY" = None) by apply lookup_delete_eq.
  split; [exact H1|]. split; [exact H2|]. split.
  - intros key Hk1 Hk2. now rewrite !lookup_delete_ne by congruence.
  - unfold clear_tracing, del_if_set. now rewrite H1, H2.
Qed.

(** ** The csv writer and the csv reader *)

Section WriterReader.
Import Text TextFacts Csv CsvFacts.
#[local] Arguments String.append : simpl nomatch.

Lemma writer_row_text (row : list string) : writer_row row = row_text row +:+ String CR nl.
Proof. destruct row as [|[|a f] [|g gs]]; reflexivity. Qed.

Lemma feed_app (a b : string) (p : parser) :
  feed (a +:+ b) p = match feed a p with inl e => inl e | inr p' => feed b p' end.
Proof.
  revert p. induction a as [|x a IH]; intros p; [reflexivity|].
  change (String x a +:+ b) with (String x (a +:+ b)). cbn [feed].
  destruct (parse_process_char (Some x) p); [reflexivity | apply IH].
Qed.

Lemma feed_quoted_body (f cur : string) (n : N) (acc : list string) :
  (n + code_points f <= field_limit)%N ->
  feed (replace DQUOTE (String DQUOTE (String DQUOTE EmptyString)) f)
    (Parser IN_QUOTED_FIELD cur n acc)
  = inr (Parser IN_QUOTED_FIELD (cur +:+ f) (n + code_points f) acc).
Proof.
  revert cur n. induction f as [|a f IH]; intros cur n Hlen.
  - cbn [replace feed code_points]. now rewrite append_nil_r, N.add_0_r.
  - cbn [replace]. destruct (Ascii.eqb_spec a DQUOTE) as [->|Hne].
    + change (String DQUOTE (String DQUOTE EmptyString) +:+ ?s)
        with (String DQUOTE (String DQUOTE s)).
      cbn [code_points] in Hlen |- *. change (starts_code_point DQUOTE) with true in *.
      cbn iota in Hlen |- *.
      cbn [feed]. unfold parse_process_char at 1. cbn [st].
      change (Ascii.eqb DQUOTE DQUOTE) with true. cbn iota.
      unfold parse_process_char at 1. cbn [st set_state].
      change (Ascii.eqb DQUOTE DQUOTE) with true. cbn iota.
      unfold parse_add_char. cbn [field field_len fields st].
      change (starts_code_point DQUOTE) with true. cbn iota.
      assert (Hb : (field_limit <=? n)%N = false) by (apply N.leb_gt; lia).
      cbn [set_state field field_len fields st].
      rewrite Hb. cbv [then_state set_state st field field_len fields].
      rewrite IH by lia. rewrite append_assoc. do 2 f_equal. lia.
    + apply Ascii.eqb_neq in Hne. cbn [feed]. unfold parse_process_char at 1. cbn [st].
      rewrite Hne. unfold parse_add_char. cbn [field field_len fields st].
      cbn [code_points] in Hlen |- *.
      destruct (starts_code_point a).
      * destruct (N.leb_spec field_limit n) as [Hle|Hlt]; [lia|].
        rewrite IH by lia. rewrite append_assoc. do 2 f_equal. lia.
      * rewrite IH by assumption. now rewrite append_assoc.
Qed.

Lemma feed_quoted (f : string) (s : state) (acc : list string) :
  (code_points f <= field_limit)%N ->
  s = START_FIELD \/ s = START_RECORD ->
  feed (quoted f) (Parser s EmptyString 0 acc)
  = inr (Parser QUOTE_IN_QUOTED_FIELD f (code_points f) acc).
Proof.
  intros Hlen Hs. unfold quoted. cbn [feed].
  assert (Hopen : parse_process_char (Some DQUOTE) (Parser s EmptyString 0 acc)
                  = inr (Parser IN_QUOTED_FIELD EmptyString 0 acc))
    by (destruct Hs as [-> | ->]; reflexivity).
  rewrite Hopen, feed_app, feed_quoted_body by (rewrite N.add_0_l; exact Hlen).
  reflexivity.
Qed.

Lemma fits_inv (f : string) :
  fits f = true -> no_newline f = true /\ (code_points f <= field_limit)%N.
Proof. unfold fits. intros [H1 H2]%andb_true_iff. split; [exact H1 | now apply N.leb_le]. Qed.

(** A written field and the comma after it. *)
Lemma field_then_comma (f rest : string) (s : state) (acc : list string) :
  fits f = true -> s = START_FIELD \/ s = START_RECORD ->
  parse_line (write_field f +:+ "," +:+ rest) (Parser s EmptyString 0 acc)
  = parse_line rest (Parser START_FIELD EmptyString 0 (acc ++ [f])).
Proof.
  intros [_ Hlen]%fits_inv Hs. rewrite parse_line_app. unfold write_field.
  destruct (needs_quotes f) eqn:Hq.
  - rewrite (feed_quoted f s acc Hlen Hs). reflexivity.
  - destruct f as [|a f].
    + destruct Hs as [-> | ->]; reflexivity.
    + rewrite (feed_field (String a f) s acc Hq Hlen)
        by (destruct Hs as [-> | ->]; [now left | right; split; [reflexivity | discriminate]]).
      reflexivity.
Qed.

(** A written field and the end of the line after it. *)
Lemma field_then_newline (f : string) (s : state) (acc : list string) :
  fits f = true ->
  s = START_FIELD \/ (s = START_RECORD /\ f <> EmptyString) ->
  parse_line (write_field f +:+ nl) (Parser s EmptyString 0 acc)
  = inr (Parser START_RECORD EmptyString 0 (acc ++ [f])).
Proof.
  intros [_ Hlen]%fits_inv Hs. rewrite parse_line_app. unfold write_field.
  destruct (needs_quotes f) eqn:Hq.
  - rewrite (feed_quoted f s acc Hlen) by (destruct Hs as [->|[-> _]]; auto). reflexivity.
  - rewrite (feed_field f s acc Hq Hlen) by exact Hs.
    destruct f as [|a f]; [|reflexivity].
    destruct Hs as [-> | [_ Hne]]; [reflexivity | congruence].
Qed.

Lemma parse_written_fields (fs : list string) (f : string) (s : state) (acc : list string) :
  forallb fits (f :: fs) = true ->
  s = START_FIELD \/ (s = START_RECORD /\ (f <> EmptyString \/ fs <> [])) ->
  parse_line (join "," (map write_field (f :: fs)) +:+ nl) (Parser s EmptyString 0 acc)
  = inr (Parser START_RECORD EmptyString 0 (acc ++ f :: fs)).
Proof.
  revert f s acc. induction fs as [|g gs IH]; intros f s acc Hfits Hs.
  - cbn [forallb] in Hfits. rewrite andb_true_r in Hfits.
    change (join "," (map write_field [f])) with (write_field f).
    apply field_then_newline; [exact Hfits|].
    destruct Hs as [->|[-> [Hf|Hf]]]; [now left | now right | congruence].
  - cbn [forallb] in Hfits. apply andb_true_iff in Hfits as [Hf Hrest].
    change (join "," (map write_field (f :: g :: gs)))
      with (write_field f +:+ "," +:+ join "," (map write_field (g :: gs))).
    rewrite !append_assoc.
    rewrite (field_then_comma f _ s acc Hf) by (destruct Hs as [->|[-> _]]; auto).
    rewrite (IH g START_FIELD (acc ++ [f]) Hrest) by now left.
    now rewrite <- app_assoc.
Qed.

Lemma parse_written_row (row : list string) :
  forallb fits row = true ->
  parse_line (row_text row +:+ nl) parse_reset = inr (Parser START_RECORD EmptyString 0 row).
Proof.
  intros Hfits. destruct row as [|f fs]; [reflexivity|].
  destruct f as [|a f]; [destruct fs as [|g gs]; [reflexivity|]|].
  - change (row_text (EmptyString :: g :: gs))
      with (join "," (map write_field (EmptyString :: g :: gs))).
    apply (parse_written_fields (g :: gs) EmptyString START_RECORD [] Hfits).
    right. split; [reflexivity | right; discriminate].
  - change (row_text (String a f :: fs)) with (join "," (map write_field (String a f :: fs))).
    apply (parse_written_fields fs (String a f) START_RECORD [] Hfits).
    right. split; [reflexivity | left; discriminate].
Qed.

Lemma reader_written_rows (rows : list (list string)) :
  forallb (forallb fits) rows = true ->
  reader (map (fun row => row_text row +:+ nl) rows) = inr rows.
Proof.
  unfold reader. induction rows as [|row rows IH]; [reflexivity|].
  cbn [forallb map]. intros [Hrow Hrows]%andb_true_iff.
  cbn [reader_from]. rewrite (parse_written_row row Hrow).
  cbn [at_record_start st fields]. now rewrite (IH Hrows).
Qed.

Lemma replace_quote_no_newline (f : string) :
  no_newline f = true ->
  no_newline (replace DQUOTE (String DQUOTE (String DQUOTE EmptyString)) f) = true.
Proof.
  induction f as [|a f IH]; [reflexivity|]. cbn [no_newline replace].
  intros [Ha Hf]%andb_true_iff. destruct (Ascii.eqb a DQUOTE).
  - change (String DQUOTE (String DQUOTE EmptyString) +:+ ?s)
      with (String DQUOTE (String DQUOTE s)).
    cbn [no_newline]. now rewrite (IH Hf).
  - cbn [no_newline]. now rewrite Ha, (IH Hf).
Qed.

Lemma write_field_no_newline (f : string) :
  no_newline f = true -> no_newline (write_field f) = true.
Proof.
  intros Hf. unfold write_field. destruct (needs_quotes f); [|exact Hf].
  unfold quoted. cbn [no_newline]. rewrite no_newline_app, replace_quote_no_newline by exact Hf.
  reflexivity.
Qed.

Lemma row_text_no_newline (row : list string) :
  forallb fits row = true -> no_newline (row_text row) = true.
Proof.
  intros Hfits.
  assert (Hjoin : forall r, forallb fits r = true ->
                            no_newline (join "," (map write_field r)) = true).
  { induction r as [|f fs IH]; [reflexivity|]. cbn [forallb].
    intros [Hf Hfs]%andb_true_iff. apply fits_inv in Hf as [Hf _].
    destruct fs as [|g gs]; [now apply write_field_no_newline|].
    change (join "," (map write_field (f :: g :: gs)))
      with (write_field f +:+ "," +:+ join "," (map write_field (g :: gs))).
    rewrite !no_newline_app, (write_field_no_newline f Hf), (IH Hfs). reflexivity. }
  destruct row as [|[|a f] [|g gs]]; try reflexivity; now apply Hjoin.
Qed.

Lemma file_lines_written_rows (rows : list (list string)) :
  forallb (forallb fits) rows = true ->
  file_lines (writer_rows rows) = map (fun row => row_text row +:+ nl) rows.
Proof.
  unfold file_lines. induction rows as [|row rows IH]; [reflexivity|].
  cbn [forallb writer_rows fold_right map]. intros [Hrow Hrows]%andb_true_iff.
  rewrite writer_row_text, append_assoc.
  rewrite text_lines_no_newline by now apply row_text_no_newline.
  rewrite (text_lines_eol (String CR nl)) by now right. f_equal. now apply IH.
Qed.

(** X5. What the csv writer writes, the csv reader over the text file reads
    back: rows whose fields hold no line break and are within the field
    limit are returned as they were written, quoted fields included. *)
Theorem reader_writer_rows (rows : list (list string)) :
  forallb (forallb fits) rows = true ->
  reader (file_lines (writer_rows rows)) = inr rows.
Proof.
  intros H. rewrite (file_lines_written_rows rows H). now apply reader_written_rows.
Qed.

End WriterReader.

(** ** The rows of a DictReader, column by column *)

Section Columns.
Import Text TextFacts Csv CsvFacts.

Lemma zip_dict_other (ks vs : list string) (d : gmap string (option string)) (k : string) :
  ~ In k ks -> zip_dict ks vs d !! k = d !! k.
Proof.
  revert vs d. induction ks as [|k0 ks IH]; intros vs d Hnotin; [reflexivity|].
  destruct vs as [|v vs]; [reflexivity|]. cbn [zip_dict].
  rewrite IH by (intros H; apply Hnotin; now right).
  apply lookup_insert_ne. intros ->. apply Hnotin. now left.
Qed.

Lemma fill_none_other (ks : list string) (d : gmap string (option string)) (k : string) :
  ~ In k ks -> fold_left (fun d k => <[k := None]> d) ks d !! k = d !! k.
Proof.
  revert d. induction ks as [|k0 ks IH]; intros d Hnotin; [reflexivity|].
  cbn [fold_left]. rewrite IH by (intros H; apply Hnotin; now right).
  apply lookup_insert_ne. intros ->. apply Hnotin. now left.
Qed.

Lemma fill_none_at (ks : list string) (d : gmap string (option string)) (k : string) :
  In k ks -> fold_left (fun d k => <[k := None]> d) ks d !! k = Some None.
Proof.
  revert d. induction ks as [|k0 ks IH]; intros d Hin; [contradiction|].
  cbn [fold_left]. destruct (in_dec string_dec k ks) as [Hk|Hk]; [now apply IH|].
  destruct Hin as [->|Hin]; [|contradiction].
  rewrite fill_none_other by exact Hk. apply lookup_insert_eq.
Qed.

Lemma zip_dict_at (ks vs : list string) (d : gmap string (option string)) (i : nat) (k : string) :
  NoDup ks -> ks !! i = Some k ->
  zip_dict ks vs d !! k = match vs !! i with Some v => Some (Some v) | None => d !! k end.
Proof.
  intros Hnd. revert vs d i. induction Hnd as [|k0 ks Hk0 Hnd IH]; intros vs d i Hi.
  - discriminate.
  - destruct vs as [|v vs]; [reflexivity|]. cbn [zip_dict].
    destruct i as [|i].
    + injection Hi as <-. cbn. rewrite zip_dict_other by (now rewrite <- list_elem_of_In).
      apply lookup_insert_eq.
    + cbn in Hi. rewrite (IH vs _ i Hi). cbn.
      destruct (vs !! i); [reflexivity|].
      apply lookup_insert_ne. intros ->. apply Hk0. now apply list_elem_of_lookup_2 in Hi.
Qed.

(** X6. A row of the DictReader, under a header without a repeated name:
    the column named by the header at position [i] holds the field of the
    row at position [i], and [None] when the row is too short to have one. *)
Theorem row_dict_by_position (header row : list string) (i : nat) (k : string) :
  NoDup header -> header !! i = Some k ->
  named (row_dict header row) !! k = Some (row !! i).
Proof.
  intros Hnd Hi. unfold row_dict.
  assert (Hi_lt : i < length header) by (apply lookup_lt_is_Some; eauto).
  destruct (Nat.ltb_spec (length header) (length row)) as [Hlt|Hge].
  - cbn [named]. rewrite (zip_dict_at _ _ _ i k Hnd Hi).
    destruct (row !! i) eqn:Hr; [reflexivity|]. apply lookup_ge_None in Hr. lia.
  - destruct (Nat.ltb_spec (length row) (length header)) as [Hlt|Hge'].
    + cbn [named]. destruct (row !! i) as [v|] eqn:Hr.
      * assert (i < length row) by (apply lookup_lt_is_Some; eauto).
        rewrite fill_none_other, (zip_dict_at _ _ _ i k Hnd Hi), Hr; [reflexivity|].
        rewrite <- list_elem_of_In. intros [j Hj]%list_elem_of_lookup.
        rewrite lookup_drop in Hj.
        assert (length row + j = i) by (eapply NoDup_lookup; eauto). lia.
      * apply lookup_ge_None in Hr. apply fill_none_at.
        rewrite <- list_elem_of_In. apply list_elem_of_lookup.
        exists (i - length row). rewrite lookup_drop.
        now replace (length row + (i - length row)) with i by lia.
    + cbn [named]. rewrite (zip_dict_at _ _ _ i k Hnd Hi).
      destruct (row !! i) eqn:Hr; [reflexivity|]. apply lookup_ge_None in Hr. lia.
Qed.

End Columns.

(** ** The loop: seconds slept, lines printed, files written *)

Section DriverExtras.
Import Text TextFacts.
#[local] Arguments String.append : simpl nomatch.
Context {E : Type} (sv : Services E) (upper : string -> string).

(** The two ways an iteration ends. *)
Lemma iteration_outcome (row : csv_row) (w : World E) :
  (exists k, In k ["Empresa"; "Ticker"; "Relatorio_URL"] /\ named row !! k = None
             /\ iteration sv upper row w = (inl (Exn KeyError ("'" +:+ k +:+ "'")), w))
  \/ (exists nome ticker w',
        named row !! "Empresa" = Some nome /\ named row !! "Ticker" = Some ticker
        /\ iteration sv upper row w = (inr tt, w')
        /\ (slept w' = slept w \/ slept w' = slept w + DELAY_SECONDS)
        /\ (fs w' = fs w
            \/ exists data,
                 fs w' = <[report_file_name (company_label nome ticker) := data]> (fs w))).
Proof.
  destruct (named row !! "Empresa") as [nome|] eqn:H1;
    [|left; apply (iteration_missing_column sv upper row w "Empresa"); [now left | exact H1]].
  destruct (named row !! "Ticker") as [ticker|] eqn:H2;
    [|left; apply (iteration_missing_column sv upper row w "Ticker");
      [now right; left | exact H2]].
  destruct (named row !! "Relatorio_URL") as [url|] eqn:H3;
    [|left; apply (iteration_missing_column sv upper row w "Relatorio_URL");
      [now right; right; left | exact H3]].
  right. exists nome, ticker.
  rewrite (iteration_unfold sv upper row w nome ticker url H1 H2 H3).
  destruct (research sv _ (ext w)) as [[e|fatos] x].
  - eexists. split; [reflexivity|]. split; [reflexivity|]. split; [reflexivity|].
    split; left; reflexivity.
  - rewrite gerar_e_salvar_unfold. cbn [ext researched].
    destruct (relator sv _ fatos x) as [[e|r] x1].
    + eexists. do 3 (split; [reflexivity|]). split; [right | left]; reflexivity.
    + destruct (open_fault sv _ x1) as [[e|] x2].
      * eexists. do 3 (split; [reflexivity|]). split; [right | left]; reflexivity.
      * destruct (write_fault sv _ _ x2) as [[[e n]|] x3];
          (eexists; do 3 (split; [reflexivity|]); split; [right | right; eexists]; reflexivity).
Qed.

Lemma slept_after_iteration (row : csv_row) (w : World E) :
  slept w <= slept (iteration sv upper row w).2
  /\ slept (iteration sv upper row w).2 <= slept w + DELAY_SECONDS.
Proof.
  destruct (iteration_outcome row w) as [(k & _ & _ & ->) | (n & t & w' & _ & _ & -> & Hs & _)].
  - cbn. lia.
  - cbn. destruct Hs as [-> | ->]; lia.
Qed.

Lemma driver_loop_snoc_free (row : csv_row) (rest : list csv_row) (w : World E) :
  (driver_loop sv upper (row :: rest) w).2
  = match iteration sv upper row w with
    | (inl _, w') => w'
    | (inr _, w') => (driver_loop sv upper rest w').2
    end.
Proof. rewrite driver_loop_cons. now destruct (iteration sv upper row w) as [[e|[]] w']. Qed.

Lemma slept_after_loop (rows : list csv_row) (w : World E) :
  slept w <= slept (driver_loop sv upper rows w).2
  /\ slept (driver_loop sv upper rows w).2 <= slept w + DELAY_SECONDS * length rows.
Proof.
  revert w. induction rows as [|row rows IH]; intros w.
  - cbn. lia.
  - rewrite driver_loop_snoc_free. pose proof (slept_after_iteration row w) as [Hlo Hhi].
    destruct (iteration sv upper row w) as [[e|[]] w']; cbn [snd length] in *.
    + lia.
    + specialize (IH w'). lia.
Qed.

(** X7. The seconds slept by the loop: never fewer than before, at most the
    delay for each row; exactly the delay for each row when every row has the
    three columns and every research call answers; none when every research
    call raises. *)
Theorem driver_loop_sleep_accounting (rows : list csv_row) (w : World E) :
  slept w <= slept (driver_loop sv upper rows w).2
  /\ slept (driver_loop sv upper rows w).2 <= slept w + DELAY_SECONDS * length rows
  /\ (Forall has_columns rows ->
      (forall q x, exists fatos x', research sv q x = (inr fatos, x')) ->
      slept (driver_loop sv upper rows w).2 = slept w + DELAY_SECONDS * length rows)
  /\ ((forall q x, exists e x', research sv q x = (inl e, x')) ->
      slept (driver_loop sv upper rows w).2 = slept w).
Proof.
  split; [apply slept_after_loop|]. split; [apply slept_after_loop|]. split.
  - intros Hcols Hres. revert w. induction Hcols as [|row rows Hrow Hcols IH]; intros w.
    + cbn. lia.
    + destruct Hrow as ([nome H1] & [ticker H2] & [url H3]).
      destruct (Hres (pergunta_pesquisa (company_label nome ticker) (str_of_value url)) (ext w))
        as (fatos & x & Hq).
      pose proof (research_answer_sleeps sv upper row w nome ticker url fatos x H1 H2 H3 Hq)
        as Hs.
      rewrite driver_loop_snoc_free.
      destruct (iteration_returns sv upper row w) as [w' Hit];
        [repeat split; eauto|].
      rewrite Hit in Hs |- *. cbn [snd] in Hs. rewrite IH, Hs. cbn [length]. lia.
  - intros Hres. revert w. induction rows as [|row rows IH]; intros w; [reflexivity|].
    rewrite driver_loop_snoc_free.
    destruct (iteration_outcome row w) as [(k & _ & _ & ->) | (n & t & w' & H1 & H2 & Hit & _)];
      [reflexivity|].
    rewrite Hit.
    destruct (named row !! "Relatorio_URL") as [url|] eqn:H3.
    + destruct (Hres (pergunta_pesquisa (company_label n t) (str_of_value url)) (ext w))
        as (e & x & Hq).
      pose proof (research_failure_sleeps_nothing sv upper row w n t url e x H1 H2 H3 Hq) as Hs.
      rewrite Hit in Hs. cbn [snd] in Hs. now rewrite IH, Hs.
    + destruct (iteration_missing_column sv upper row w "Relatorio_URL")
        as (k & _ & _ & Hraise); [now right; right; left | exact H3 |].
      rewrite Hraise in Hit. discriminate.
Qed.

(** The script only adds lines to what it printed. *)
Lemma iteration_prints (row : csv_row) (w : World E) :
  exists out, stdout (iteration sv upper row w).2 = stdout w ++ out.
Proof.
  destruct (iteration_outcome row w) as [(k & _ & _ & ->) | (nome & ticker & w' & H1 & H2 & _)].
  - exists []. cbn. now rewrite app_nil_r.
  - destruct (named row !! "Relatorio_URL") as [url|] eqn:H3.
    + rewrite (iteration_unfold sv upper row w nome ticker url H1 H2 H3).
      destruct (research sv _ (ext w)) as [[e|fatos] x]; [eexists; reflexivity|].
      rewrite gerar_e_salvar_unfold. cbn [ext researched].
      destruct (relator sv _ fatos x) as [[e|r] x1];
        [eexists; cbn; rewrite <- !app_assoc; reflexivity|].
      destruct (open_fault sv _ x1) as [[e|] x2];
        [eexists; cbn; rewrite <- !app_assoc; reflexivity|].
      destruct (write_fault sv _ _ x2) as [[[e n]|] x3];
        eexists; cbn; rewrite <- !app_assoc; reflexivity.
    + destruct (iteration_missing_column sv upper row w "Relatorio_URL")
        as (k & _ & _ & ->); [now right; right; left | exact H3 |].
      exists []. cbn. now rewrite app_nil_r.
Qed.

Lemma driver_loop_prints (rows : list csv_row) (w : World E) :
  exists out, stdout (driver_loop sv upper rows w).2 = stdout w ++ out.
Proof.
  revert w. induction rows as [|row rows IH]; intros w.
  - exists []. cbn. now rewrite app_nil_r.
  - rewrite driver_loop_snoc_free. destruct (iteration_prints row w) as [out Hout].
    destruct (iteration sv upper row w) as [[e|[]] w']; cbn [snd] in Hout; [eauto|].
    destruct (IH w') as [out' Hout']. exists (out ++ out').
    now rewrite Hout', Hout, <- app_assoc.
Qed.

(** *** The files the loop writes *)

Lemma prefix_report_file_name (label : string) :
  String.prefix "Relatorio_" (report_file_name label) = true.
Proof. unfold report_file_name. apply prefix_append. Qed.

Lemma files_after_iteration (row : csv_row) (w : World E) (p : string) :
  (forall nome ticker,
     named row !! "Empresa" = Some nome -> named row !! "Ticker" = Some ticker ->
     p <> report_file_name (company_label nome ticker)) ->
  fs (iteration sv upper row w).2 !! p = fs w !! p.
Proof.
  intros Hp.
  destruct (iteration_outcome row w)
    as [(k & _ & _ & ->) | (n & t & w' & H1 & H2 & -> & _ & Hfs)]; [reflexivity|].
  cbn [snd]. destruct Hfs as [-> | [data ->]]; [reflexivity|].
  apply lookup_insert_ne. intros Heq. now apply (Hp n t H1 H2).
Qed.

Lemma files_kept_by_iteration (row : csv_row) (w : World E) (p : string) :
  is_Some (fs w !! p) -> is_Some (fs (iteration sv upper row w).2 !! p).
Proof.
  intros Hp.
  destruct (iteration_outcome row w)
    as [(k & _ & _ & ->) | (n & t & w' & H1 & H2 & -> & _ & Hfs)]; [exact Hp|].
  cbn [snd]. destruct Hfs as [-> | [data ->]]; [exact Hp|].
  rewrite lookup_insert_is_Some. destruct (decide (report_file_name (company_label n t) = p)); auto.
Qed.

Lemma files_after_loop (rows : list csv_row) (w : World E) (p : string) :
  (forall row nome ticker, In row rows ->
     named row !! "Empresa" = Some nome -> named row !! "Ticker" = Some ticker ->
     p <> report_file_name (company_label nome ticker)) ->
  fs (driver_loop sv upper rows w).2 !! p = fs w !! p.
Proof.
  revert w. induction rows as [|row rows IH]; intros w Hp; [reflexivity|].
  rewrite driver_loop_snoc_free.
  pose proof (files_after_iteration row w p (fun n t => Hp row n t (or_introl eq_refl))) as Hit.
  destruct (iteration sv upper row w) as [[e|[]] w']; cbn [snd] in Hit; [exact Hit|].
  rewrite IH; [exact Hit|]. intros r n t Hin. apply Hp. now right.
Qed.

Lemma files_kept_by_loop (rows : list csv_row) (w : World E) (p : string) :
  is_Some (fs w !! p) -> is_Some (fs (driver_loop sv upper rows w).2 !! p).
Proof.
  revert w. induction rows as [|row rows IH]; intros w Hp; [exact Hp|].
  rewrite driver_loop_snoc_free.
  pose proof (files_kept_by_iteration row w p Hp) as Hit.
  destruct (iteration sv upper row w) as [[e|[]] w']; cbn [snd] in Hit; [exact Hit|].
  now apply IH.
Qed.

(** X8. The files after the loop. When no label holds a path separator,
    every report is written to an entry of the current directory whose name
    starts with [Relatorio_]; an entry whose name does not start so is as it
    was, and so is an entry that is not the report file of a row. Whatever
    the labels, no file is removed and the company table is not changed. *)
Theorem driver_loop_touches_only_reports (rows : list csv_row) (w : World E) (p : string) :
  (Forall plain_label rows ->
   (forall row nome ticker, In row rows ->
      named row !! "Empresa" = Some nome -> named row !! "Ticker" = Some ticker ->
      plain_name (report_file_name (company_label nome ticker)) = true
      /\ String.prefix "Relatorio_" (report_file_name (company_label nome ticker)) = true)
   /\ (plain_name p = true -> String.prefix "Relatorio_" p = false ->
       fs (driver_loop sv upper rows w).2 !! p = fs w !! p)
   /\ (plain_name p = true ->
       (forall row nome ticker, In row rows ->
          named row !! "Empresa" = Some nome -> named row !! "Ticker" = Some ticker ->
          p <> report_file_name (company_label nome ticker)) ->
       fs (driver_loop sv upper rows w).2 !! p = fs w !! p))
  /\ (is_Some (fs w !! p) -> is_Some (fs (driver_loop sv upper rows w).2 !! p))
  /\ fs (driver_loop sv upper rows w).2 !! "dados_empresas.csv" = fs w !! "dados_empresas.csv".
Proof.
  assert (Hpre : forall q, String.prefix "Relatorio_" q = false ->
                           fs (driver_loop sv upper rows w).2 !! q = fs w !! q).
  { intros q Hq. apply files_after_loop. intros row n t _ _ _ ->.
    now rewrite prefix_report_file_name in Hq. }
  split; [|split; [apply files_kept_by_loop | apply Hpre; reflexivity]].
  intros Hplain. split; [|split].
  - intros row nome ticker Hin H1 H2. split; [|apply prefix_report_file_name].
    apply plain_report_file_name. rewrite List.Forall_forall in Hplain.
    exact (Hplain row Hin nome ticker H1 H2).
  - intros _. apply Hpre.
  - intros _. apply files_after_loop.
Qed.

End DriverExtras.

(** ** One company, from the row to the saved report *)

Section EndToEnd.
Import Text TextFacts.
#[local] Arguments String.append : simpl nomatch.
Context {E : Type} (sv : Services E) (upper : string -> string).

(** X9. One company from end to end: the row has its three columns, the
    research answers, the record is compiled with the answer of the stub for
    the URL of the row as its financial analysis, and the file is opened and
    written.  Then the iteration ends normally, the report file of the row
    holds a document that contains the answer of the stub verbatim, and the
    delay is slept.  For a URL that holds no marker of a missing URL the
    document holds the Netflix figures when the URL holds NFLX, and the Tesla
    figures when it holds TSLA and not NFLX. *)
Theorem iteration_saves_document_facts (row : csv_row) (w : World E)
    (nome ticker : option string) (url fatos : string) (r : AnaliseAcionaria)
    (x1 x2 x3 x4 : E) :
  named row !! "Empresa" = Some nome ->
  named row !! "Ticker" = Some ticker ->
  named row !! "Relatorio_URL" = Some (Some url) ->
  research sv (pergunta_pesquisa (company_label nome ticker) url) (ext w) = (inr fatos, x1) ->
  relator sv (company_label nome ticker) fatos x1 = (inr r, x2) ->
  open_fault sv (report_file_name (company_label nome ticker)) x2 = (None, x3) ->
  write_fault sv (report_file_name (company_label nome ticker))
    (final_report_markdown upper (today sv x2) r) x3 = (None, x4) ->
  analise_financeira_resumida r = consult_document_rag url ->
  exists w' doc,
    iteration sv upper row w = (inr tt, w')
    /\ fs w' = <[report_file_name (company_label nome ticker) := doc]> (fs w)
    /\ slept w' = slept w + DELAY_SECONDS
    /\ contains (consult_document_rag url) doc = true
    /\ (url <> EmptyString -> contains "N/A" url = false -> contains "Sem URL" url = false ->
        (contains "NFLX" url = true -> contains (Textwrap.dedent NFLX_TEXT) doc = true)
        /\ (contains "NFLX" url = false -> contains "TSLA" url = true ->
            contains (Textwrap.dedent TSLA_TEXT) doc = true)).
Proof.
  intros H1 H2 H3 Hres Hrel Hopen Hwrite Hfacts.
  assert (Hdoc : contains (consult_document_rag url)
                   (final_report_markdown upper (today sv x2) r) = true).
  { rewrite <- Hfacts. apply report_keeps_financial_analysis. rewrite Hfacts.
    apply consult_document_rag_no_blank_line. }
  exists (paced sv (logged (report_saved_line (report_file_name (company_label nome ticker)))
                      (set_file (report_file_name (company_label nome ticker))
                         (final_report_markdown upper (today sv x2) r)
                         (set_ext x4 (researched (company_label nome ticker) fatos x1 w))))),
         (final_report_markdown upper (today sv x2) r).
  split; [|split; [reflexivity|split; [reflexivity|split; [exact Hdoc|]]]].
  - rewrite (iteration_unfold sv upper row w nome ticker (Some url) H1 H2 H3).
    change (str_of_value (Some url)) with url. rewrite Hres, gerar_e_salvar_unfold.
    cbn [ext researched]. now rewrite Hrel, Hopen, Hwrite.
  - intros Hne Hna Hsem. unfold consult_document_rag in Hdoc. rewrite Hna, Hsem in Hdoc.
    destruct url as [|a url]; [congruence|]. cbn [orb] in Hdoc.
    split.
    + intros Hn. now rewrite Hn in Hdoc.
    + intros Hn Ht. now rewrite Hn, Ht in Hdoc.
Qed.

End EndToEnd.

(** ** The whole script *)

Section MainExtras.
Import Text TextFacts.
#[local] Arguments String.append : simpl nomatch.
Context {E : Type} (sv : Services E) (upper : string -> string).

(** The script after the list is loaded. *)
Lemma main_unfold (w : World E) :
  main sv upper w
  = match ler_lista_empresas_csv sv "dados_empresas.csv" w with
    | (inl e, w1) => (inl e, w1)
    | (inr rows, w1) =>
        match driver_loop sv upper rows w1 with
        | (inl e, w2) => (inl e, w2)
        | (inr _, w2) =>
            (inr tt, mkWorld (fs w2) (stdout w2 ++ closing_banner) (slept w2)
                       (fatos_consolidados w2) (ext w2))
        end
    end.
Proof.
  unfold main, bind.
  destruct (ler_lista_empresas_csv sv "dados_empresas.csv" w) as [[e|rows] w1]; [reflexivity|].
  destruct (driver_loop sv upper rows w1) as [[e|[]] w2]; [reflexivity|].
  unfold print, closing_banner. cbn [fs stdout slept fatos_consolidados ext].
  now rewrite <- !app_assoc.
Qed.

(** A file that is there: the loader, with the world it leaves. *)
Lemma loader_reads_world (path content : string) (rows : list (list string)) (w : World E) :
  (read_fault sv path (ext w)).1 = None ->
  fs w !! path = Some content ->
  Csv.reader (Csv.file_lines content) = inr rows ->
  ler_lista_empresas_csv sv path w
  = (inr (Csv.DictReader rows),
     mkWorld (fs w) (stdout w ++ [loaded_line (length (Csv.DictReader rows))]) (slept w)
       (fatos_consolidados w) (read_fault sv path (ext w)).2).
Proof.
  intros Hread Hfile Hrows.
  unfold ler_lista_empresas_csv, try_except.
  erewrite bind_ok by (apply read_text_ok; [exact Hread | exact Hfile]).
  rewrite Hrows. unfold lift. erewrite bind_ok by reflexivity.
  erewrite bind_ok by reflexivity. reflexivity.
Qed.

Lemma DictReader_rows (header : list string) (rows : list (list string)) :
  Csv.DictReader (header :: rows)
  = map (Csv.row_dict header) (List.filter (fun r => negb (Csv.is_blank_row r)) rows).
Proof. reflexivity. Qed.

Lemma DictReader_has_columns (header : list string) (rows : list (list string)) :
  In "Empresa" header -> In "Ticker" header -> In "Relatorio_URL" header ->
  Forall has_columns (Csv.DictReader (header :: rows)).
Proof.
  intros H1 H2 H3. rewrite DictReader_rows.
  induction (List.filter _ rows) as [|r rs IH]; constructor; [|exact IH].
  repeat split; now apply row_dict_has_column.
Qed.

Lemma DictReader_not_empty (header : list string) (rows : list (list string)) :
  Exists (fun r => r <> []) rows ->
  exists d ds, Csv.DictReader (header :: rows) = Csv.row_dict header d :: ds.
Proof.
  intros Hex. rewrite DictReader_rows. induction Hex as [r rs Hr | r rs _ IH].
  - cbn [List.filter]. destruct r; [congruence|]. cbn. eauto.
  - cbn [List.filter]. destruct (negb (Csv.is_blank_row r)); [cbn; eauto | exact IH].
Qed.

Lemma DictReader_blank_rows (rows : list (list string)) :
  Forall (fun r => r = []) (tl rows) -> Csv.DictReader rows = [].
Proof.
  destruct rows as [|header data]; [reflexivity|]. rewrite DictReader_rows. cbn [tl].
  induction 1 as [|r rs -> _ IH]; [reflexivity | exact IH].
Qed.

(** X10. A table whose header names the three columns: the script ends
    normally whatever the services answer or raise; the closing banner is the
    last thing printed; the seconds slept are at most the delay times the
    number of rows; the table is left as it was. *)
Theorem main_ends_normally (content : string) (header : list string)
    (rows : list (list string)) (w : World E) :
  (read_fault sv "dados_empresas.csv" (ext w)).1 = None ->
  fs w !! "dados_empresas.csv" = Some content ->
  Csv.reader (Csv.file_lines content) = inr (header :: rows) ->
  In "Empresa" header -> In "Ticker" header -> In "Relatorio_URL" header ->
  exists w' out,
    main sv upper w = (inr tt, w')
    /\ stdout w' = stdout w ++ out ++ closing_banner
    /\ slept w' <= slept w + DELAY_SECONDS * length rows
    /\ fs w' !! "dados_empresas.csv" = Some content.
Proof.
  intros Hread Hfile Hrows H1 H2 H3.
  rewrite main_unfold, (loader_reads_world _ _ _ w Hread Hfile Hrows).
  set (w1 := mkWorld _ _ _ _ _).
  destruct (driver_loop_returns sv upper (Csv.DictReader (header :: rows)) w1
              (DictReader_has_columns header rows H1 H2 H3)) as [w2 Hloop].
  rewrite Hloop. eexists. 
  pose proof (slept_after_loop sv upper (Csv.DictReader (header :: rows)) w1) as [_ Hs].
  pose proof (driver_loop_prints sv upper (Csv.DictReader (header :: rows)) w1) as [out' Hout].
  rewrite Hloop in Hs, Hout. cbn [snd] in Hs, Hout.
  exists ([loaded_line (length (Csv.DictReader (header :: rows)))] ++ out').
  split; [reflexivity|]. cbn [fs stdout slept].
  split; [|split].
  - rewrite Hout. subst w1. cbn [stdout]. now rewrite <- !app_assoc.
  - assert (length (Csv.DictReader (header :: rows)) <= length rows).
    { rewrite DictReader_rows, length_map. apply List.filter_length_le. }
    subst w1. cbn [slept] in Hs. nia.
  - pose proof (files_after_loop sv upper (Csv.DictReader (header :: rows)) w1
                  "dados_empresas.csv") as Hf.
    rewrite Hloop in Hf. cbn [snd] in Hf. rewrite Hf; [exact Hfile|].
    intros row n t _ _ _ Heq.
    pose proof (prefix_report_file_name (company_label n t)) as Hp.
    rewrite <- Heq in Hp. discriminate.
Qed.


(** X11. A table whose header lacks one of the three columns and that has a
    row that is not empty: the script ends on a KeyError naming a column the
    header lacks, having printed the line about the loaded list and nothing
    after it; no service was called, no file written, no second slept. *)
Theorem main_aborts_on_missing_column (content : string) (header : list string)
    (rows : list (list string)) (w : World E) (k : string) :
  (read_fault sv "dados_empresas.csv" (ext w)).1 = None ->
  fs w !! "dados_empresas.csv" = Some content ->
  Csv.reader (Csv.file_lines content) = inr (header :: rows) ->
  In k ["Empresa"; "Ticker"; "Relatorio_URL"] -> ~ In k header ->
  Exists (fun r => r <> []) rows ->
  exists k',
    In k' ["Empresa"; "Ticker"; "Relatorio_URL"] /\ ~ In k' header
    /\ main sv upper w
       = (inl (Exn KeyError ("'" +:+ k' +:+ "'")),
          mkWorld (fs w)
            (stdout w ++ [loaded_line (length (Csv.DictReader (header :: rows)))])
            (slept w) (fatos_consolidados w) (read_fault sv "dados_empresas.csv" (ext w)).2).
Proof.
  intros Hread Hfile Hrows Hk Hnot Hex.
  rewrite main_unfold, (loader_reads_world _ _ _ w Hread Hfile Hrows).
  set (w1 := mkWorld _ _ _ _ _).
  destruct (DictReader_not_empty header rows Hex) as (d & ds & Hd). rewrite Hd.
  destruct (iteration_missing_column sv upper (Csv.row_dict header d) w1 k Hk)
    as (k' & Hk' & Hnone & Hit).
  { destruct (named (Csv.row_dict header d) !! k) eqn:Hl; [|reflexivity].
    exfalso. apply Hnot, (row_dict_has_column header d k). eauto. }
  exists k'. split; [exact Hk'|]. split.
  - intros Hin. apply (row_dict_has_column header d k') in Hin as [v Hv]. congruence.
  - rewrite driver_loop_cons, Hit. reflexivity.
Qed.

(** X12. A table without a row that is not empty (the header alone, or an
    empty file): the loader returns the empty list and the script prints the
    line about 0 items and the closing banner, and does nothing else. *)
Theorem main_on_empty_table (content : string) (rows : list (list string)) (w : World E) :
  (read_fault sv "dados_empresas.csv" (ext w)).1 = None ->
  fs w !! "dados_empresas.csv" = Some content ->
  Csv.reader (Csv.file_lines content) = inr rows ->
  Forall (fun r => r = []) (tl rows) ->
  ler_lista_empresas_csv sv "dados_empresas.csv" w
  = (inr [], mkWorld (fs w) (stdout w ++ [loaded_line 0]) (slept w) (fatos_consolidados w)
               (read_fault sv "dados_empresas.csv" (ext w)).2)
  /\ main sv upper w
     = (inr tt, mkWorld (fs w) (stdout w ++ [loaded_line 0] ++ closing_banner) (slept w)
                  (fatos_consolidados w) (read_fault sv "dados_empresas.csv" (ext w)).2).
Proof.
  intros Hread Hfile Hrows Hblank.
  pose proof (DictReader_blank_rows rows Hblank) as Hnone.
  pose proof (loader_reads_world _ _ _ w Hread Hfile Hrows) as Hload.
  rewrite Hnone in Hload. cbn [length] in Hload. split; [exact Hload|].
  rewrite main_unfold, Hload. cbn [driver_loop for_each ret fs stdout slept fatos_consolidados ext].
  unfold driver_loop. cbn [for_each]. unfold ret.
  cbn [fs stdout slept fatos_consolidados ext]. now rewrite <- app_assoc.
Qed.

Lemma exemplo_data_columns : Forall has_columns exemplo_data.
Proof. repeat constructor; eexists; vm_compute; reflexivity. Qed.

Lemma exemplo_data_file_names (row : csv_row) (nome ticker : option string) :
  In row exemplo_data ->
  named row !! "Empresa" = Some nome -> named row !! "Ticker" = Some ticker ->
  report_file_name (company_label nome ticker) = "Relatorio_Netflix_NFLX.md"
  \/ report_file_name (company_label nome ticker) = "Relatorio_Tesla_TSLA.md".
Proof.
  intros [<-|[<-|[]]] H1 H2.
  - left. vm_compute in H1, H2. injection H1 as <-. injection H2 as <-. reflexivity.
  - right. vm_compute in H1, H2. injection H1 as <-. injection H2 as <-. reflexivity.
Qed.

(** X13. The first run, when the table is missing and the file system raises
    no error on it: the script ends normally, the table holds the default
    rows, the only other files that may have changed are the reports of
    Netflix and Tesla, and at most twice the delay was slept. *)
Theorem first_run_creates_table_and_reports (w : World E) :
  no_fault sv "dados_empresas.csv" ->
  fs w !! "dados_empresas.csv" = None ->
  exists w',
    main sv upper w = (inr tt, w')
    /\ fs w' !! "dados_empresas.csv" = Some Spec.default_table
    /\ (forall p, p <> "dados_empresas.csv" -> p <> "Relatorio_Netflix_NFLX.md" ->
                  p <> "Relatorio_Tesla_TSLA.md" -> fs w' !! p = fs w !! p)
    /\ slept w' <= slept w + 2 * DELAY_SECONDS.
Proof.
  intros Hok Hmissing.
  destruct (loader_initializes sv "dados_empresas.csv" w Hok Hmissing)
    as (w1 & Hload & Hfs & Hslept).
  rewrite main_unfold, Hload.
  destruct (driver_loop_returns sv upper exemplo_data w1 exemplo_data_columns) as [w2 Hloop].
  rewrite Hloop. eexists. split; [reflexivity|]. cbn [fs slept].
  assert (Hfiles : forall p, p <> "Relatorio_Netflix_NFLX.md" -> p <> "Relatorio_Tesla_TSLA.md" ->
                             fs w2 !! p = fs w1 !! p).
  { intros p Hn Ht.
    pose proof (files_after_loop sv upper exemplo_data w1 p) as Hf.
    rewrite Hloop in Hf. apply Hf. intros row n t Hin H1 H2 ->.
    destruct (exemplo_data_file_names row n t Hin H1 H2); congruence. }
  split; [|split].
  - rewrite Hfiles by discriminate. rewrite Hfs. apply lookup_insert_eq.
  - intros p Hp Hn Ht. rewrite (Hfiles p Hn Ht), Hfs. now apply lookup_insert_ne.
  - pose proof (slept_after_loop sv upper exemplo_data w1) as [_ Hs].
    rewrite Hloop in Hs. cbn [snd] in Hs. change (length exemplo_data) with 2 in Hs. lia.
Qed.

(** X14. The table is missing and cannot be created: the error of [open] for
    writing leaves the loader (it is raised inside the handler of
    FileNotFoundError), after the line about the missing file has been
    printed; no file is created, and the script ends on that error. *)
Theorem loader_creation_failure (path : string) (w : World E) (e : exn) (x : E) :
  (read_fault sv path (ext w)).1 = None ->
  fs w !! path = None ->
  open_fault sv path (read_fault sv path (ext w)).2 = (Some e, x) ->
  ler_lista_empresas_csv sv path w
  = (inl e, mkWorld (fs w) (stdout w ++ [missing_line path]) (slept w)
              (fatos_consolidados w) x)
  /\ (path = "dados_empresas.csv" ->
      main sv upper w
      = (inl e, mkWorld (fs w) (stdout w ++ [missing_line path]) (slept w)
                  (fatos_consolidados w) x)).
Proof.
  intros Hread Hmissing Hopen.
  assert (Hload : ler_lista_empresas_csv sv path w
                  = (inl e, mkWorld (fs w) (stdout w ++ [missing_line path]) (slept w)
                              (fatos_consolidados w) x)).
  { destruct (read_text_missing sv path w Hread Hmissing) as (e0 & He0 & Hr).
    unfold ler_lista_empresas_csv, try_except.
    rewrite (bind_err _ _ _ _ _ Hr), He0.
    erewrite bind_ok by reflexivity.
    erewrite bind_err by (apply open_w_err; cbn [ext print set_ext]; exact Hopen).
    reflexivity. }
  split; [exact Hload|]. intros ->. now rewrite main_unfold, Hload.
Qed.

End MainExtras.

(** ** The loader on a table it wrote, and when the table cannot be written *)

Section LoaderExtras.
Import Text TextFacts Csv CsvFacts.
#[local] Arguments String.append : simpl nomatch.
Context {E : Type} (sv : Services E).

(** X15. A table written by the csv writer, header first, is loaded as one
    dict per written row that is not empty, in the order written, each
    pairing the header with the fields of the row. *)
Theorem loader_reads_written_table (path : string) (header : list string)
    (rows : list (list string)) (w : World E) :
  (read_fault sv path (ext w)).1 = None ->
  forallb (forallb fits) (header :: rows) = true ->
  fs w !! path = Some (writer_rows (header :: rows)) ->
  (ler_lista_empresas_csv sv path w).1
  = inr (map (row_dict header) (List.filter (fun r => negb (is_blank_row r)) rows)).
Proof.
  intros Hread Hfits Hfile.
  assert (Hrows : reader (file_lines (writer_rows (header :: rows))) = inr (header :: rows))
    by (rewrite (file_lines_written_rows _ Hfits); now apply reader_written_rows).
  now rewrite (loader_reads_world sv path _ _ w Hread Hfile Hrows).
Qed.

(** What a cut write leaves is the head of the whole text. *)
Lemma substring_head (b c : string) (n : nat) :
  exists m, m <= String.length (b +:+ c)
            /\ String.substring 0 n b = String.substring 0 m (b +:+ c).
Proof.
  revert n. induction b as [|x b IH]; intros n.
  - exists 0. split; [lia|]. destruct n, c; reflexivity.
  - destruct n as [|n].
    + exists 0. split; [lia|]. reflexivity.
    + destruct (IH n) as (m & Hm & Heq). exists (S m).
      change (String x b +:+ c) with (String x (b +:+ c)).
      cbn [String.length String.substring]. split; [lia|]. now rewrite Heq.
Qed.

Lemma cut_head (a b c : string) (n : nat) :
  exists m, m <= String.length (a +:+ b +:+ c)
            /\ a +:+ String.substring 0 n b = String.substring 0 m (a +:+ b +:+ c).
Proof.
  induction a as [|x a IH].
  - exact (substring_head b c n).
  - destruct IH as (m & Hm & Heq). exists (S m).
    change (String x a +:+ ?s) with (String x (a +:+ s)).
    cbn [String.length String.substring]. split; [lia|]. now rewrite Heq.
Qed.

Lemma cut_tables_ok : forallb cut_table_ok (seq 0 85) = true.
Proof. vm_compute. reflexivity. Qed.

Lemma complete_has_columns (row : csv_row) : complete row = true -> has_columns row.
Proof.
  unfold complete, columns_of, has_columns.
  destruct (named row !! "Empresa"), (named row !! "Ticker"), (named row !! "Relatorio_URL");
    try discriminate.
  intros _. repeat split; eauto.
Qed.

(** X16. The table is missing, it is opened for writing, and the creation
    raises: the error leaves the loader, and the file keeps the head of the
    default table that reached it, cut at any character. The file exists
    from then on, so a later load does not create the default table again:
    it reads the cut file without raising and without changing it, and
    returns at most two rows, each with the three columns; they are the
    default rows only when the two data lines were written whole. *)
Theorem failed_creation_keeps_cut_table (path : string) (w w' : World E) (e : exn) (x1 : E) :
  (read_fault sv path (ext w)).1 = None ->
  fs w !! path = None ->
  open_fault sv path (read_fault sv path (ext w)).2 = (None, x1) ->
  ler_lista_empresas_csv sv path w = (inl e, w') ->
  exists n,
    n <= String.length Spec.default_table
    /\ fs w' = <[path := String.substring 0 n Spec.default_table]> (fs w)
    /\ (forall w2 : World E,
          fs w2 !! path = fs w' !! path ->
          (read_fault sv path (ext w2)).1 = None ->
          exists rows w3,
            ler_lista_empresas_csv sv path w2 = (inr rows, w3)
            /\ fs w3 = fs w2
            /\ length rows <= 2
            /\ Forall has_columns rows
            /\ (rows = exemplo_data -> 82 <= n)).
Proof.
  intros Hread Hmissing Hopen Hload.
  assert (Hcut : exists n, n <= String.length Spec.default_table
                           /\ fs w' = <[path := String.substring 0 n Spec.default_table]> (fs w)).
  { destruct (read_text_missing sv path w Hread Hmissing) as (e0 & He0 & Hr).
    unfold ler_lista_empresas_csv, try_except in Hload.
    rewrite (bind_err _ _ _ _ _ Hr), He0 in Hload.
    unfold exemplo_data at 1, DictWriter_writerow in Hload. cbn [for_each] in Hload.
    rewrite header_fields, netflix_fields, tesla_fields in Hload.
    cbv beta iota delta [bind ret lift print open_w write set_ext set_file] in Hload.
    cbn [fs stdout slept fatos_consolidados ext] in Hload.
    rewrite Hopen in Hload. cbn [fs stdout slept fatos_consolidados ext] in Hload.
    rewrite lookup_insert_eq in Hload. cbn [default] in Hload. unfold id in Hload.
    destruct (write_fault sv path (writer_row fieldnames) x1) as [[[e1 n1]|] y1].
    { injection Hload as <- <-. cbn [fs]. rewrite insert_insert_eq.
      destruct (cut_head EmptyString (writer_row fieldnames)
                  (writer_row ["Netflix"; "NFLX"; "N/A - Sem URL"]
                   +:+ writer_row ["Tesla"; "TSLA"; "N/A - Sem URL"]) n1) as (m & Hm & Heq).
      exists m. split; [exact Hm|].
      exact (f_equal (fun s => <[path := s]> (fs w)) Heq). }
    cbn [fs stdout slept fatos_consolidados ext] in Hload.
    rewrite insert_insert_eq, lookup_insert_eq in Hload. cbn [default] in Hload.
    unfold id in Hload.
    destruct (write_fault sv path (writer_row ["Netflix"; "NFLX"; "N/A - Sem URL"]) y1)
      as [[[e2 n2]|] y2].
    { injection Hload as <- <-. cbn [fs]. rewrite insert_insert_eq.
      destruct (cut_head (writer_row fieldnames)
                  (writer_row ["Netflix"; "NFLX"; "N/A - Sem URL"])
                  (writer_row ["Tesla"; "TSLA"; "N/A - Sem URL"]) n2) as (m & Hm & Heq).
      exists m. split; [exact Hm|].
      exact (f_equal (fun s => <[path := s]> (fs w)) Heq). }
    cbn [fs stdout slept fatos_consolidados ext] in Hload.
    rewrite insert_insert_eq, lookup_insert_eq in Hload. cbn [default] in Hload.
    unfold id in Hload.
    destruct (write_fault sv path (writer_row ["Tesla"; "TSLA"; "N/A - Sem URL"]) y2)
      as [[[e3 n3]|] y3]; [|discriminate].
    injection Hload as <- <-. cbn [fs]. rewrite insert_insert_eq.
    destruct (cut_head (writer_row fieldnames
                        +:+ writer_row ["Netflix"; "NFLX"; "N/A - Sem URL"])
                (writer_row ["Tesla"; "TSLA"; "N/A - Sem URL"]) EmptyString n3)
      as (m & Hm & Heq).
    exists m. split; [exact Hm|].
      exact (f_equal (fun s => <[path := s]> (fs w)) Heq). }
  destruct Hcut as (n & Hn & Hfs). exists n. split; [exact Hn|]. split; [exact Hfs|].
  intros w2 Hfile Hread2. rewrite Hfs, lookup_insert_eq in Hfile.
  pose proof cut_tables_ok as Hall. rewrite forallb_forall in Hall.
  assert (Hok : cut_table_ok n = true).
  { apply Hall, in_seq. change (String.length Spec.default_table) with 84 in Hn. lia. }
  unfold cut_table_ok in Hok.
  destruct (reader (file_lines (String.substring 0 n Spec.default_table)))
    as [e'|rows] eqn:Hrows; [discriminate|].
  apply andb_true_iff in Hok as [[Hlen Hcols]%andb_true_iff Hsame].
  rewrite (loader_reads_world sv path _ rows w2 Hread2 Hfile Hrows).
  eexists _, _. split; [reflexivity|]. split; [reflexivity|]. split; [|split].
  - now apply Nat.leb_le.
  - rewrite forallb_forall in Hcols. apply List.Forall_forall.
    intros row Hin. apply complete_has_columns, Hcols, Hin.
  - intros Heq. rewrite Heq in Hsame.
    rewrite bool_decide_eq_true_2 in Hsame by reflexivity.
    now apply Nat.leb_le.
Qed.

End LoaderExtras.

(** ** The properties above on sample worlds *)

Section Samples.
Import Text TextFacts Csv CsvFacts.
#[local] Arguments String.append : simpl nomatch.

Lemma NoDup_fieldnames : NoDup fieldnames.
Proof.
  apply (bool_decide_unpack _). vm_compute. reflexivity.
Qed.

Lemma row_dict_by_position_witness :
  named (row_dict fieldnames ["Netflix"]) !! "Empresa" = Some (Some "Netflix")
  /\ named (row_dict fieldnames ["Netflix"]) !! "Ticker" = Some None.
Proof.
  exact (conj (row_dict_by_position fieldnames ["Netflix"] 0 "Empresa" NoDup_fieldnames eq_refl)
              (row_dict_by_position fieldnames ["Netflix"] 1 "Ticker" NoDup_fieldnames eq_refl)).
Defined.

Lemma reader_writer_rows_witness :
  forallb (forallb fits) Scenario.quoted_rows = true
  /\ reader (file_lines (writer_rows Scenario.quoted_rows)) = inr Scenario.quoted_rows.
Proof.
  assert (H : forallb (forallb fits) Scenario.quoted_rows = true) by (vm_compute; reflexivity).
  exact (conj H (reader_writer_rows Scenario.quoted_rows H)).
Defined.

Lemma loader_reads_written_table_witness :
  (ler_lista_empresas_csv Scenario.quiet "dados_empresas.csv"
     (mkWorld {["dados_empresas.csv" := writer_rows Scenario.quoted_rows]} [] 0 None tt)).1
  = inr (map (row_dict fieldnames)
           [["Alphabet, Inc."; "GO" +:+ String DQUOTE "OG"; EmptyString];
            [EmptyString]; [" Tesla "; "TSLA"]]).
Proof.
  apply (loader_reads_written_table Scenario.quiet "dados_empresas.csv" fieldnames
           (tl Scenario.quoted_rows)
           (mkWorld {["dados_empresas.csv" := writer_rows Scenario.quoted_rows]} [] 0 None tt)).
  - reflexivity.
  - vm_compute. reflexivity.
  - vm_compute. reflexivity.
Defined.

Lemma loader_creation_failure_witness :
  ler_lista_empresas_csv Scenario.read_only_directory "dados_empresas.csv" (Scenario.empty_world tt)
  = (inl Scenario.denied,
     mkWorld ∅ [missing_line "dados_empresas.csv"] 0 None tt)
  /\ main Scenario.read_only_directory Scenario.ascii_upper (Scenario.empty_world tt)
     = (inl Scenario.denied,
        mkWorld ∅ [missing_line "dados_empresas.csv"] 0 None tt).
Proof.
  destruct (loader_creation_failure Scenario.read_only_directory Scenario.ascii_upper
              "dados_empresas.csv" (Scenario.empty_world tt) Scenario.denied tt
              eq_refl eq_refl eq_refl) as [Hload Hmain].
  exact (conj Hload (Hmain eq_refl)).
Defined.

Lemma failed_creation_keeps_cut_table_witness :
  exists w' n,
    ler_lista_empresas_csv (Scenario.disk_of_size 40) "dados_empresas.csv" (Scenario.empty_world 0)
    = (inl Scenario.disk_full, w')
    /\ fs w' = <["dados_empresas.csv" := String.substring 0 n Spec.default_table]> ∅
    /\ fs w' !! "dados_empresas.csv"
       = Some ("Empresa,Ticker,Relatorio_URL" +:+ String CR nl +:+ "Netflix,NF")
    /\ exists rows w3,
         ler_lista_empresas_csv (Scenario.disk_of_size 40) "dados_empresas.csv" w' = (inr rows, w3)
         /\ fs w3 = fs w'
         /\ length rows <= 2
         /\ Forall has_columns rows.
Proof.
  assert (Hload : ler_lista_empresas_csv (Scenario.disk_of_size 40) "dados_empresas.csv"
                    (Scenario.empty_world 0)
                  = (inl Scenario.disk_full,
                     (ler_lista_empresas_csv (Scenario.disk_of_size 40) "dados_empresas.csv"
                        (Scenario.empty_world 0)).2))
    by (vm_compute; reflexivity).
  assert (Hfile : fs (ler_lista_empresas_csv (Scenario.disk_of_size 40) "dados_empresas.csv"
                        (Scenario.empty_world 0)).2 !! "dados_empresas.csv"
                  = Some ("Empresa,Ticker,Relatorio_URL" +:+ String CR nl +:+ "Netflix,NF"))
    by (vm_compute; reflexivity).
  destruct (failed_creation_keeps_cut_table (Scenario.disk_of_size 40) "dados_empresas.csv"
              (Scenario.empty_world 0) _ Scenario.disk_full 0 eq_refl eq_refl eq_refl Hload)
    as (n & _ & Hfs & Hnext).
  destruct (Hnext _ eq_refl eq_refl) as (rows & w3 & Hagain & Hsame & Hlen & Hcols & _).
  eexists _, n. refine (conj Hload (conj Hfs (conj Hfile _))).
  exists rows, w3. exact (conj Hagain (conj Hsame (conj Hlen Hcols))).
Defined.

Lemma main_ends_normally_witness :
  exists w' out,
    main Scenario.quiet Scenario.ascii_upper
      (mkWorld {["dados_empresas.csv" := Scenario.ragged_csv]} [] 0 None tt)
    = (inr tt, w')
    /\ stdout w' = [] ++ out ++ closing_banner
    /\ slept w' <= 0 + DELAY_SECONDS * 2
    /\ fs w' !! "dados_empresas.csv" = Some Scenario.ragged_csv.
Proof.
  apply (main_ends_normally Scenario.quiet Scenario.ascii_upper Scenario.ragged_csv fieldnames
           [["Netflix"]; ["Tesla"; "TSLA"; "Sem URL"; "extra"]]
           (mkWorld {["dados_empresas.csv" := Scenario.ragged_csv]} [] 0 None tt)).
  - reflexivity.
  - reflexivity.
  - vm_compute. reflexivity.
  - now left.
  - now right; left.
  - now right; right; left.
Defined.

Lemma main_aborts_on_missing_column_witness :
  exists k',
    In k' ["Empresa"; "Ticker"; "Relatorio_URL"]
    /\ main Scenario.quiet Scenario.ascii_upper
         (mkWorld {["dados_empresas.csv" := Scenario.table_with_bom]} [] 0 None tt)
       = (inl (Exn KeyError ("'" +:+ k' +:+ "'")),
          mkWorld {["dados_empresas.csv" := Scenario.table_with_bom]} [loaded_line 2] 0 None tt).
Proof.
  destruct (main_aborts_on_missing_column Scenario.quiet Scenario.ascii_upper Scenario.table_with_bom
              [Scenario.BOM +:+ "Empresa"; "Ticker"; "Relatorio_URL"]
              [["Netflix"; "NFLX"; "N/A - Sem URL"]; ["Tesla"; "TSLA"; "N/A - Sem URL"]]
              (mkWorld {["dados_empresas.csv" := Scenario.table_with_bom]} [] 0 None tt) "Empresa")
    as (k' & Hin & _ & Hmain).
  - reflexivity.
  - reflexivity.
  - vm_compute. reflexivity.
  - now left.
  - intros [H|[H|[H|[]]]]; vm_compute in H; discriminate.
  - apply Exists_cons_hd. discriminate.
  - exists k'. exact (conj Hin Hmain).
Defined.

Lemma main_on_empty_table_witness :
  ler_lista_empresas_csv Scenario.quiet "dados_empresas.csv"
    (mkWorld {["dados_empresas.csv" := Scenario.header_only]} [] 0 None tt)
  = (inr [], mkWorld {["dados_empresas.csv" := Scenario.header_only]} [loaded_line 0] 0 None tt)
  /\ main Scenario.quiet Scenario.ascii_upper
       (mkWorld {["dados_empresas.csv" := Scenario.header_only]} [] 0 None tt)
     = (inr tt, mkWorld {["dados_empresas.csv" := Scenario.header_only]}
                  ([loaded_line 0] ++ closing_banner) 0 None tt).
Proof.
  destruct (main_on_empty_table Scenario.quiet Scenario.ascii_upper Scenario.header_only [fieldnames]
              (mkWorld {["dados_empresas.csv" := Scenario.header_only]} [] 0 None tt))
    as [Hload Hmain].
  - reflexivity.
  - reflexivity.
  - vm_compute. reflexivity.
  - constructor.
  - exact (conj Hload Hmain).
Defined.

Lemma first_run_creates_table_and_reports_witness :
  exists w',
    main Scenario.quiet Scenario.ascii_upper (Scenario.empty_world tt) = (inr tt, w')
    /\ fs w' !! "dados_empresas.csv" = Some Spec.default_table
    /\ fs w' !! "notas.txt" = None
    /\ slept w' <= 14.
Proof.
  destruct (first_run_creates_table_and_reports Scenario.quiet Scenario.ascii_upper
              (Scenario.empty_world tt) (no_fault_quiet _) eq_refl)
    as (w' & Hmain & Htable & Hothers & Hslept).
  exists w'. refine (conj Hmain (conj Htable (conj _ Hslept))).
  apply (Hothers "notas.txt"); discriminate.
Defined.

Lemma driver_loop_sleep_accounting_witness :
  slept (driver_loop Scenario.quiet Scenario.ascii_upper [Scenario.netflix; Scenario.tesla]
           (Scenario.empty_world tt)).2 = 14
  /\ slept (driver_loop Scenario.research_down Scenario.ascii_upper
              [Scenario.netflix; Scenario.tesla] (Scenario.empty_world tt)).2 = 0.
Proof.
  split.
  - apply (driver_loop_sleep_accounting Scenario.quiet Scenario.ascii_upper
             [Scenario.netflix; Scenario.tesla] (Scenario.empty_world tt)).
    + repeat constructor; eexists; vm_compute; reflexivity.
    + intros q x. now exists "fatos", x.
  - apply (driver_loop_sleep_accounting Scenario.research_down Scenario.ascii_upper
             [Scenario.netflix; Scenario.tesla] (Scenario.empty_world tt)).
    intros q x. now exists Scenario.timeout, x.
Defined.

Lemma report_keeps_whole_line_fields_witness :
  contains (consult_document_rag "https://ir.example/NFLX/10-K.pdf")
    (final_report_markdown Scenario.ascii_upper Scenario.hoje Scenario.report_with_facts) = true.
Proof.
  apply (report_keeps_whole_line_fields Scenario.ascii_upper Scenario.hoje Scenario.report_with_facts).
  reflexivity.
Defined.

Lemma driver_loop_touches_only_reports_witness :
  fs (driver_loop Scenario.quiet Scenario.ascii_upper [Scenario.netflix; Scenario.tesla]
        (mkWorld {["notas.txt" := "rascunho"]} [] 0 None tt)).2 !! "notas.txt"
  = Some "rascunho".
Proof.
  destruct (driver_loop_touches_only_reports Scenario.quiet Scenario.ascii_upper
              [Scenario.netflix; Scenario.tesla]
              (mkWorld {["notas.txt" := "rascunho"]} [] 0 None tt) "notas.txt")
    as (Hplain & _).
  destruct Hplain as (_ & Hother & _).
  - repeat constructor; intros nome ticker H1 H2; vm_compute in H1, H2;
      injection H1 as <-; injection H2 as <-; reflexivity.
  - etransitivity; [exact (Hother eq_refl eq_refl) | reflexivity].
Defined.

Lemma iteration_saves_document_facts_witness :
  exists w' doc,
    iteration Scenario.relay Scenario.ascii_upper Scenario.netflix_filing (Scenario.empty_world tt) = (inr tt, w')
    /\ fs w' = <["Relatorio_Netflix_NFLX.md" := doc]> ∅
    /\ slept w' = 7
    /\ contains (Textwrap.dedent NFLX_TEXT) doc = true.
Proof.
  destruct (iteration_saves_document_facts Scenario.relay Scenario.ascii_upper Scenario.netflix_filing
              (Scenario.empty_world tt) (Some "Netflix") (Some "NFLX")
              "https://ir.example/NFLX/10-K.pdf" "fatos" Scenario.report_with_facts tt tt tt tt
              eq_refl eq_refl eq_refl eq_refl eq_refl eq_refl eq_refl eq_refl)
    as (w' & doc & Hit & Hfs & Hslept & _ & Hurl).
  exists w', doc. refine (conj Hit (conj Hfs (conj Hslept _))).
  apply Hurl; [discriminate | vm_compute; reflexivity | vm_compute; reflexivity
              | vm_compute; reflexivity].
Defined.

End Samples.
